(** * Judge and Charge Sentencing Dashboard: data preparation and the
      filter-aggregate cycle of [app.py], embedded in Rocq.

    A pandas DataFrame is a header (the ordered column names) together with
    its records, each a finite map from column name to cell, the view that
    [to_dict('records')] gives.  A cell is a number, the missing value NaN,
    a text or a boolean.  Numbers are rationals.  The products of
    [load_data], where the 64-bit integers of numpy wrap and its doubles
    round, are a parameter of the model, and so is the sorting routine of
    pandas, which is not stable; elsewhere the rounding of IEEE doubles and
    the two infinities are outside the model.  Texts are held as their
    UTF-8 bytes, and lengths and slices count characters as Python does.
    A Python exception is the result [None]; [load_data] catches every one
    of them, [update_dashboard] catches none. *)

From Stdlib Require Import QArith Qround Ascii String Lqa.
From stdpp Require Import gmap strings list fin_maps option sorting.

Local Open Scope string_scope.

(** ** Cells and frames *)

Inductive cell :=
| CNum (q : Q)
| CNaN
| CStr (s : string)
| CBool (b : bool).

Record DataFrame := mkDF {
  columns : list string;
  records : list (gmap string cell)
}.

(** [len(df)] *)
Definition len (df : DataFrame) : nat := length (records df).

(** The value of column [c] in a record; a field that the record does not
    hold reads as NaN, as for a short line of the CSV file. *)
Definition get (c : string) (r : gmap string cell) : cell :=
  default CNaN (r !! c).

(** [df[c]] read as a whole column. *)
Definition column (c : string) (df : DataFrame) : list cell :=
  get c <$> records df.

Definition add_column (c : string) (cols : list string) : list string :=
  if decide (c ∈ cols) then cols else cols ++ [c].

(** [df[c] = f(df[...])] for an element-wise [f]: every record gets the
    value computed from that record. *)
Definition assign (c : string) (f : gmap string cell → cell)
    (df : DataFrame) : DataFrame :=
  mkDF (add_column c (columns df)) ((λ r, <[c := f r]> r) <$> records df).

(** The same when the element-wise operation can raise: the first record on
    which it raises aborts the whole assignment. *)
Definition try_assign (c : string) (f : gmap string cell → option cell)
    (df : DataFrame) : option DataFrame :=
  rs ← mapM (λ r, v ← f r; Some (<[c := v]> r)) (records df);
  Some (mkDF (add_column c (columns df)) rs).

(** [df[c] = values] for a column computed as a whole. *)
Fixpoint set_values (c : string) (vs : list cell)
    (rs : list (gmap string cell)) {struct rs} : list (gmap string cell) :=
  match rs, vs with
  | r :: rs', v :: vs' => <[c := v]> r :: set_values c vs' rs'
  | _, _ => rs
  end.

Definition setitem (c : string) (vs : list cell) (df : DataFrame) : DataFrame :=
  mkDF (add_column c (columns df)) (set_values c vs (records df)).

(** ** Strings *)

(** The byte order mark U+FEFF in UTF-8. *)
Definition is_bom (a b c : ascii) : bool :=
  bool_decide (a = Ascii.ascii_of_nat 239%nat) &&
  bool_decide (b = Ascii.ascii_of_nat 187%nat) &&
  bool_decide (c = Ascii.ascii_of_nat 191%nat).

(** [name.replace(BOM, '')], every occurrence, left to right. *)
Fixpoint remove_bom (s : string) : string :=
  match s with
  | EmptyString => EmptyString
  | String a s1 =>
      match s1 with
      | String b (String c s3) =>
          if is_bom a b c then remove_bom s3 else String a (remove_bom s1)
      | _ => String a (remove_bom s1)
      end
  end.

(** White space of [str.strip()]: the characters for which
    [str.isspace()] holds.  Within ASCII these are tab, line feed, vertical
    tab, form feed, carriage return, the four separators 28 to 31, and
    space. *)
Definition is_space (a : ascii) : bool :=
  let n := Ascii.nat_of_ascii a in
  ((9 <=? n)%nat && (n <=? 13)%nat) || ((28 <=? n)%nat && (n <=? 32)%nat).

(** U+0085 and U+00A0, two bytes each in UTF-8. *)
Definition is_space2 (a b : ascii) : bool :=
  let m := Ascii.nat_of_ascii a in
  let n := Ascii.nat_of_ascii b in
  (m =? 194)%nat && ((n =? 133)%nat || (n =? 160)%nat).

(** U+1680, U+2000 to U+200A, U+2028, U+2029, U+202F, U+205F and U+3000,
    three bytes each. *)
Definition is_space3 (a b c : ascii) : bool :=
  let l := Ascii.nat_of_ascii a in
  let m := Ascii.nat_of_ascii b in
  let n := Ascii.nat_of_ascii c in
  ((l =? 225)%nat && (m =? 154)%nat && (n =? 128)%nat)
  || ((l =? 226)%nat && (m =? 128)%nat
      && (((128 <=? n)%nat && (n <=? 138)%nat)
          || (n =? 168)%nat || (n =? 169)%nat || (n =? 175)%nat))
  || ((l =? 226)%nat && (m =? 129)%nat && (n =? 159)%nat)
  || ((l =? 227)%nat && (m =? 128)%nat && (n =? 128)%nat).

(** The text without the characters at its front that are white space,
    white space being told by [p1], [p2] and [p3] on the one, two or three
    bytes of a character. *)
Fixpoint strip_front (p1 : ascii → bool) (p2 : ascii → ascii → bool)
    (p3 : ascii → ascii → ascii → bool) (s : string) : string :=
  match s with
  | EmptyString => EmptyString
  | String a s1 =>
      if p1 a then strip_front p1 p2 p3 s1
      else
        match s1 with
        | String b s2 =>
            if p2 a b then strip_front p1 p2 p3 s2
            else
              match s2 with
              | String c s3 =>
                  if p3 a b c then strip_front p1 p2 p3 s3 else s
              | EmptyString => s
              end
        | EmptyString => s
        end
  end.

Fixpoint rev_append (s acc : string) : string :=
  match s with
  | EmptyString => acc
  | String a s' => rev_append s' (String a acc)
  end.

(** The bytes of a text from the last to the first. *)
Definition string_rev (s : string) : string := rev_append s EmptyString.

Definition lstrip (s : string) : string :=
  strip_front is_space is_space2 is_space3 s.

(** The characters at the end are met last byte first. *)
Definition rstrip (s : string) : string :=
  string_rev
    (strip_front is_space (λ a b, is_space2 b a) (λ a b c, is_space3 c b a)
       (string_rev s)).

Definition strip (s : string) : string := rstrip (lstrip s).

(** A byte that continues a character of UTF-8. *)
Definition is_continuation (a : ascii) : bool :=
  let n := Ascii.nat_of_ascii a in
  (128 <=? n)%nat && (n <? 192)%nat.

(** [len(s)]: the characters of the text. *)
Fixpoint char_length (s : string) : nat :=
  match s with
  | EmptyString => 0%nat
  | String a s' =>
      if is_continuation a then char_length s' else S (char_length s')
  end.

(** [s[:n]]: the first [n] characters of the text. *)
Fixpoint take_chars (n : nat) (s : string) : string :=
  match s with
  | EmptyString => EmptyString
  | String a s' =>
      if is_continuation a then String a (take_chars n s')
      else
        match n with
        | O => EmptyString
        | S n' => String a (take_chars n' s')
        end
  end.

(** ** Numbers *)

(** [x > 0] on a rational. *)
Definition Qpositive (q : Q) : bool := negb (Qle_bool q 0).

Definition Qsum (l : list Q) : Q := foldr Qplus 0%Q l.

(** The arithmetic mean of a non-empty list. *)
Definition Qmean (l : list Q) : Q :=
  (Qsum l / inject_Z (Z.of_nat (length l)))%Q.

(** Rounding to the nearest integer, ties to the even one, as [round] of
    numpy does. *)
Definition round_half_even (q : Q) : Z :=
  let f := Qfloor q in
  let r := (q - inject_Z f)%Q in
  match (r ?= 1 # 2)%Q with
  | Lt => f
  | Gt => (f + 1)%Z
  | Eq => if Z.even f then f else (f + 1)%Z
  end.

(** [.round(1)] and [.round(0)] on one number. *)
Definition round1 (q : Q) : Q := (inject_Z (round_half_even (q * 10)) / 10)%Q.
Definition round0 (q : Q) : Q := inject_Z (round_half_even q).

Definition Qof_bool (b : bool) : Q := if b then 1%Q else 0%Q.

(** ** Element-wise operations on cells *)

(** [series > 0]: a text cannot be compared with a number. *)
Definition gt_zero (c : cell) : option bool :=
  match c with
  | CNum q => Some (Qpositive q)
  | CNaN => Some false
  | CBool b => Some b
  | CStr _ => None
  end.

(** [series == text] *)
Definition eq_text (t : string) (c : cell) : bool :=
  match c with
  | CStr s => bool_decide (s = t)
  | _ => false
  end.

(** [series == True] and [series == False] *)
Definition eq_bool (b : bool) (c : cell) : bool :=
  match c with
  | CBool b' => bool_decide (b' = b)
  | CNum q => Qeq_bool q (Qof_bool b)
  | _ => false
  end.

(** [a + b] on two cells: texts are joined, numbers are added, NaN is
    absorbing, and a text added to a number raises. *)
Definition add_cells (a b : cell) : option cell :=
  match a, b with
  | CNaN, _ | _, CNaN => Some CNaN
  | CStr x, CStr y => Some (CStr (x +:+ y))
  | CStr _, _ | _, CStr _ => None
  | CNum x, CNum y => Some (CNum (x + y))
  | CNum x, CBool y => Some (CNum (x + Qof_bool y))
  | CBool x, CNum y => Some (CNum (Qof_bool x + y))
  | CBool x, CBool y => Some (CNum (Qof_bool x + Qof_bool y))
  end.

(** [series.fillna(text)] *)
Definition fillna_text (t : string) (c : cell) : cell :=
  match c with
  | CNaN => CStr t
  | _ => c
  end.

(** [series.str.strip()]: an element that is not a text becomes NaN. *)
Definition str_strip (c : cell) : cell :=
  match c with
  | CStr s => CStr (strip s)
  | _ => CNaN
  end.

(** [series.replace(olds, new)] for texts. *)
Definition replace_text (olds : list string) (new : string) (c : cell) : cell :=
  match c with
  | CStr s => if decide (s ∈ olds) then CStr new else c
  | _ => c
  end.

(** Renaming the keys of a record. *)
Definition rename_keys (f : string → string) (r : gmap string cell) :
    gmap string cell :=
  kmap f r.

(** ** The input of [load_data] *)

(** What the file system and [pd.read_csv] hand to [load_data]: no file, a
    file that [read_csv] rejects with an exception, or a parsed frame. *)
Inductive source :=
| Absent
| ReadError
| Loaded (df : DataFrame).

Definition date_columns : list string :=
  ["FileDate"; "OffenseDate"; "DispositionDate"].

Definition text_columns : list string :=
  ["Judge"; "Judge_First_Name"; "Judge_Last_Name"; "ChargeOffenseDescription";
   "Statute"; "Statute_Description"; "DispositionDescription"; "Race_Tier_1";
   "Gender"; "ConfinementType"].

Definition judge_parts : list string :=
  ["Judge_First_Name"; "Judge_Middle_Intial"; "Judge_Last_Name"].

(** ** [create_sample_data] *)

Definition sample_record (case judge charge statute descr race gender : string)
    (jail prob cc cs : Z) (dispo : string) : gmap string cell :=
  list_to_map
    [("CaseNumber", CStr case); ("Judge_Full_Name", CStr judge);
     ("ChargeOffenseDescription", CStr charge); ("Statute", CStr statute);
     ("Statute_Description", CStr descr); ("Race_Tier_1", CStr race);
     ("Gender", CStr gender); ("Jail_Days", CNum (inject_Z jail));
     ("Probation_Days_Clean", CNum (inject_Z prob));
     ("CommunityControl_Days", CNum (inject_Z cc));
     ("CommunityService_Hours", CNum (inject_Z cs));
     ("DispositionDescription", CStr dispo); ("Has_Sentence", CBool true)].

Definition create_sample_data : DataFrame :=
  mkDF
    ["CaseNumber"; "Judge_Full_Name"; "ChargeOffenseDescription"; "Statute";
     "Statute_Description"; "Race_Tier_1"; "Gender"; "Jail_Days";
     "Probation_Days_Clean"; "CommunityControl_Days"; "CommunityService_Hours";
     "DispositionDescription"; "Has_Sentence"]
    [sample_record "SAMPLE001" "John Smith"
       "POSSESSION OF FIREARM BY CONVICTED FELON" "790.23" "Firearm Violations"
       "B" "M" 365 0 0 0 "Adjudicated Guilty";
     sample_record "SAMPLE002" "Mary Johnson"
       "BATTERY ON LAW ENFORCEMENT OFFICER" "784.07" "Battery"
       "W" "F" 0 730 0 100 "Adjudicated Guilty";
     sample_record "SAMPLE003" "John Smith"
       "DRIVING UNDER THE INFLUENCE" "316.193" "DUI"
       "H" "M" 30 365 0 50 "Adjudicated Guilty";
     sample_record "SAMPLE004" "Robert Brown"
       "POSSESSION OF CONTROLLED SUBSTANCE" "893.13" "Drug Possession"
       "B" "F" 180 365 180 40 "Adjudicated Guilty";
     sample_record "SAMPLE005" "Mary Johnson"
       "THEFT OF MOTOR VEHICLE" "812.014" "Theft"
       "W" "M" 0 1095 0 200 "Nolle Prosequi"].

(** ** [load_data] *)

Section Preparation.

(** Three functions of pandas and Python are parameters of the model:
    the number that [pd.to_numeric] reads in a text ([None] when the text
    is not a number, which [errors='coerce'] turns into NaN), the text
    that [str] gives for a number, and [pd.to_datetime] on a whole column
    ([None] when it raises). *)
Variable parse_number : string → option Q.
Variable repr_number : Q → string.
Variable to_datetime : list cell → option (list cell).

(** A fourth parameter is the product [series * k] of numpy on one number
    of a column: the product of 64-bit integers, which wraps, when
    [to_numeric] gives the column as integers, and the product of doubles,
    which rounds, otherwise.  A cell of the model does not say which of the
    two its number is, so the product is given the column that it is taken
    in. *)
Variable times : Z → list cell → Q → Q.

(** [pd.to_numeric(series, errors='coerce')] on one cell, NaN as [None]. *)
Definition to_numeric (c : cell) : option Q :=
  match c with
  | CNum q => Some q
  | CNaN => None
  | CStr s => parse_number s
  | CBool b => Some (Qof_bool b)
  end.

(** [.fillna(0)] *)
Definition fillna0 (o : option Q) : Q := default 0%Q o.

(** [pd.to_numeric(df[c], errors='coerce').fillna(0)] in one record. *)
Definition coerce (c : string) (r : gmap string cell) : Q :=
  fillna0 (to_numeric (get c r)).

(** [series.astype(str)] on one cell. *)
Definition astype_str (c : cell) : string :=
  match c with
  | CStr s => s
  | CNaN => "nan"
  | CNum q => repr_number q
  | CBool b => if b then "True" else "False"
  end.

(** [df.columns = df.columns.str.replace(BOM, '')] *)
Definition clean_columns (df : DataFrame) : DataFrame :=
  mkDF (remove_bom <$> columns df) (rename_keys remove_bom <$> records df).

Definition convert_date (df : DataFrame) (col : string) : DataFrame :=
  if decide (col ∈ columns df) then
    match to_datetime (column col df) with
    | Some vs => setitem col vs df
    | None => df
    end
  else df.

Definition convert_dates (df : DataFrame) : DataFrame :=
  foldl convert_date df date_columns.

Definition clean_text (df : DataFrame) (col : string) : DataFrame :=
  if decide (col ∈ columns df) then
    assign col (λ r, CStr (strip (astype_str (get col r)))) df
  else df.

Definition clean_texts (df : DataFrame) : DataFrame :=
  foldl clean_text df text_columns.

Definition jail_days (df : DataFrame) : DataFrame :=
  if decide ("MaxCnfmnt_Days" ∈ columns df) then
    assign "Jail_Days" (λ r, CNum (coerce "MaxCnfmnt_Days" r)) df
  else assign "Jail_Days" (λ _, CNum 0) df.

Definition probation_days (df : DataFrame) : DataFrame :=
  if decide ("Probation_Days" ∈ columns df) then
    assign "Probation_Days_Clean" (λ r, CNum (coerce "Probation_Days" r)) df
  else if decide ("Probation_Mths" ∈ columns df) then
    assign "Probation_Days_Clean"
      (λ r, CNum (times 30 (column "Probation_Mths" df)
                    (coerce "Probation_Mths" r))) df
  else if decide ("Probation_Yrs" ∈ columns df) then
    assign "Probation_Days_Clean"
      (λ r, CNum (times 365 (column "Probation_Yrs" df)
                    (coerce "Probation_Yrs" r))) df
  else assign "Probation_Days_Clean" (λ _, CNum 0) df.

Definition community_control_days (df : DataFrame) : DataFrame :=
  if decide ("ComCntrl_Days" ∈ columns df) then
    assign "CommunityControl_Days" (λ r, CNum (coerce "ComCntrl_Days" r)) df
  else if decide ("ComCntrl_Mths" ∈ columns df) then
    assign "CommunityControl_Days"
      (λ r, CNum (times 30 (column "ComCntrl_Mths" df)
                    (coerce "ComCntrl_Mths" r))) df
  else if decide ("ComCntrl_Yrs" ∈ columns df) then
    assign "CommunityControl_Days"
      (λ r, CNum (times 365 (column "ComCntrl_Yrs" df)
                    (coerce "ComCntrl_Yrs" r))) df
  else assign "CommunityControl_Days" (λ _, CNum 0) df.

Definition community_service_hours (df : DataFrame) : DataFrame :=
  if decide ("CommunityService" ∈ columns df) then
    assign "CommunityService_Hours"
      (λ r, CNum (coerce "CommunityService" r)) df
  else assign "CommunityService_Hours" (λ _, CNum 0) df.

Definition has_sentence_cell (r : gmap string cell) : option cell :=
  a ← gt_zero (get "Jail_Days" r);
  b ← gt_zero (get "Probation_Days_Clean" r);
  c ← gt_zero (get "CommunityControl_Days" r);
  d ← gt_zero (get "CommunityService_Hours" r);
  Some (CBool (a || b || c || d)).

Definition has_sentence (df : DataFrame) : option DataFrame :=
  try_assign "Has_Sentence" has_sentence_cell df.

(** [first + ' ' + middle.fillna('') + ' ' + last], from left to right. *)
Definition joined_name (r : gmap string cell) : option cell :=
  x ← add_cells (get "Judge_First_Name" r) (CStr " ");
  y ← add_cells x (fillna_text EmptyString (get "Judge_Middle_Intial" r));
  z ← add_cells y (CStr " ");
  add_cells z (get "Judge_Last_Name" r).

Definition judge_full_name (df : DataFrame) : option DataFrame :=
  if decide (Forall (λ c, c ∈ columns df) judge_parts) then
    d ← try_assign "Judge_Full_Name" joined_name df;
    Some (assign "Judge_Full_Name"
            (λ r, str_strip (get "Judge_Full_Name" r)) d)
  else if decide ("Judge" ∈ columns df) then
    Some (assign "Judge_Full_Name" (λ r, get "Judge" r) df)
  else Some (assign "Judge_Full_Name" (λ _, CStr "Unknown") df).

Definition clean_judge_names (df : DataFrame) : DataFrame :=
  assign "Judge_Full_Name"
    (λ r, replace_text ["nan"; "NaN"; EmptyString] "Unknown" (get "Judge_Full_Name" r))
    df.

(** The body of the [try] block from the BOM clean-up on; [None] when an
    exception is raised.  Two names that the clean-up makes equal give
    pandas two columns under one name: [df[name]] is then a frame and not
    a series, and the steps that read it as a series raise ([to_numeric],
    the assignment of a frame to [Has_Sentence] or to [Judge_Full_Name]).
    A frame of the model holds one column under a name, so a file with
    such a header is taken as raising. *)
Definition process (df : DataFrame) : option DataFrame :=
  let df := clean_columns df in
  if decide (NoDup (columns df)) then
    let df := convert_dates df in
    let df := clean_texts df in
    let df := jail_days df in
    let df := probation_days df in
    let df := community_control_days df in
    let df := community_service_hours df in
    df ← has_sentence df;
    df ← judge_full_name df;
    Some (clean_judge_names df)
  else None.

Definition load_data (src : source) : DataFrame :=
  match src with
  | Absent => create_sample_data
  | ReadError => create_sample_data
  | Loaded df =>
      if decide (len df = 0%nat) then create_sample_data
      else default create_sample_data (process df)
  end.

End Preparation.

(** ** Selecting, averaging, grouping and sorting *)

(** [df[mask]] where the mask is computed record by record and can raise. *)
Fixpoint filter_rows (p : gmap string cell → option bool)
    (rs : list (gmap string cell)) : option (list (gmap string cell)) :=
  match rs with
  | [] => Some []
  | r :: rs' =>
      b ← p r;
      t ← filter_rows p rs';
      Some (if b : bool then r :: t else t)
  end.

(** [df[p(df[c])]]: a [KeyError] when the frame has no column [c]. *)
Definition select (c : string) (p : cell → option bool) (df : DataFrame) :
    option DataFrame :=
  if decide (c ∈ columns df) then
    rs ← filter_rows (λ r, p (get c r)) (records df);
    Some (mkDF (columns df) rs)
  else None.

(** The numbers of a column without its NaN; a text raises. *)
Fixpoint numbers (cs : list cell) : option (list Q) :=
  match cs with
  | [] => Some []
  | CNum q :: cs' => qs ← numbers cs'; Some (q :: qs)
  | CBool b :: cs' => qs ← numbers cs'; Some (Qof_bool b :: qs)
  | CNaN :: cs' => numbers cs'
  | CStr _ :: _ => None
  end.

(** [series.mean()]: NaN is skipped, and the mean of nothing is NaN. *)
Definition mean (cs : list cell) : option cell :=
  qs ← numbers cs;
  Some (match qs with [] => CNaN | _ => CNum (Qmean qs) end).

(** [series.count()]: the cells that are not NaN. *)
Definition notna (c : cell) : bool :=
  match c with
  | CNaN => false
  | _ => true
  end.

Definition count (cs : list cell) : nat :=
  length (filter (λ c, notna c) cs).

(** [.round(1)] on a cell of a numeric column. *)
Definition round_cell (digits1 : bool) (c : cell) : cell :=
  match c with
  | CNum q => CNum (if digits1 then round1 q else round0 q)
  | _ => c
  end.

(** Equality and order of group keys.  Numbers come before texts; pandas
    gives no order to a column that mixes the two. *)
Definition key_eqb (a b : cell) : bool :=
  match a, b with
  | CStr x, CStr y => bool_decide (x = y)
  | CNum x, CNum y => Qeq_bool x y
  | CBool x, CBool y => bool_decide (x = y)
  | CNum x, CBool y | CBool y, CNum x => Qeq_bool x (Qof_bool y)
  | _, _ => false
  end.

Definition key_leb (a b : cell) : bool :=
  match a, b with
  | CStr x, CStr y => String.leb x y
  | CStr _, _ => false
  | _, CStr _ => true
  | CNum x, CNum y => Qle_bool x y
  | CNum x, CBool y => Qle_bool x (Qof_bool y)
  | CBool x, CNum y => Qle_bool (Qof_bool x) y
  | CBool x, CBool y => Qle_bool (Qof_bool x) (Qof_bool y)
  | _, _ => true
  end.

(** The distinct keys of a column, NaN dropped, in order of appearance. *)
Fixpoint unique (cs : list cell) : list cell :=
  match cs with
  | [] => []
  | CNaN :: cs' => unique cs'
  | c :: cs' => c :: filter (λ k, negb (key_eqb c k)) (unique cs')
  end.

Fixpoint insert_key (k : cell) (l : list cell) : list cell :=
  match l with
  | [] => [k]
  | x :: l' => if key_leb k x then k :: l else x :: insert_key k l'
  end.

(** The group keys of [groupby]: distinct and in ascending order. *)
Definition group_keys (cs : list cell) : list cell :=
  foldr insert_key [] (unique cs).

(** The records of one group. *)
Definition group (key : string) (k : cell) (rs : list (gmap string cell)) :
    list (gmap string cell) :=
  filter (λ r, key_eqb k (get key r)) rs.

(** One row of [groupby(key).agg({...}).round(1).reset_index()]. *)
Record agg_row := mkAgg {
  g_key : cell;
  g_jail : cell;
  g_prob : cell;
  g_cc : cell;
  g_cs : cell;
  g_cases : nat
}.

Definition agg_columns : list string :=
  ["Jail_Days"; "Probation_Days_Clean"; "CommunityControl_Days";
   "CommunityService_Hours"; "CaseNumber"].

Definition aggregate (k : cell) (rs : list (gmap string cell)) : option agg_row :=
  j ← mean (get "Jail_Days" <$> rs);
  p ← mean (get "Probation_Days_Clean" <$> rs);
  c ← mean (get "CommunityControl_Days" <$> rs);
  s ← mean (get "CommunityService_Hours" <$> rs);
  Some (mkAgg k (round_cell true j) (round_cell true p) (round_cell true c)
          (round_cell true s) (count (get "CaseNumber" <$> rs))).

(** [df.groupby(key).agg({four means, 'CaseNumber': 'count'}).round(1)]: a
    [KeyError] when the key or one of the aggregated columns is missing. *)
Definition group_summary (key : string) (df : DataFrame) :
    option (list agg_row) :=
  if decide (key ∈ columns df ∧ Forall (λ c, c ∈ columns df) agg_columns) then
    mapM (λ k, aggregate k (group key k (records df)))
         (group_keys (column key df))
  else None.

(** ** [update_dashboard] *)

Inductive shown (A : Type) :=
| Placeholder (text : string)
| Shown (a : A).
Arguments Placeholder {A} text.
Arguments Shown {A} a.

(** The four lines of the summary, before their numbers are formatted. *)
Record summary := mkSummary {
  cases_in_view : nat;
  cases_with_sentence : shown (nat * Q);
  average_jail : shown cell;
  average_probation : shown cell
}.

Inductive figure :=
| Histogram (title : string) (n : nat) (x : list cell) (nbinsx : nat)
    (* the title shown is [title] followed by the number [n] of values *)
| Annotation (title text : string)
| GroupedBars (title : string) (x : list cell) (traces : list (string * list cell))
| Bars (title : string) (x : list cell) (y : list nat).

Record outputs := mkOutputs {
  summary_stats : summary;
  jail_fig : figure;
  probation_fig : figure;
  cc_fig : figure;
  cs_fig : figure;
  comparison_fig : figure;
  table_data : list (gmap string cell)
}.

Definition filter_judge (selected_judge : string) (df : DataFrame) :
    option DataFrame :=
  if decide (selected_judge ≠ "all") then
    select "Judge_Full_Name" (λ c, Some (eq_text selected_judge c)) df
  else Some df.

Definition filter_charge (selected_charge : string) (df : DataFrame) :
    option DataFrame :=
  if decide (selected_charge ≠ "all") then
    select "ChargeOffenseDescription" (λ c, Some (eq_text selected_charge c)) df
  else Some df.

Definition filter_sentence (selected_sentence : string) (df : DataFrame) :
    option DataFrame :=
  if decide (selected_sentence = "with_sentence") then
    select "Has_Sentence" (λ c, Some (eq_bool true c)) df
  else if decide (selected_sentence = "no_sentence") then
    select "Has_Sentence" (λ c, Some (eq_bool false c)) df
  else Some df.

Definition apply_filters (selected_judge selected_charge selected_sentence : string)
    (df : DataFrame) : option DataFrame :=
  df ← filter_judge selected_judge df;
  df ← filter_charge selected_charge df;
  filter_sentence selected_sentence df.

Definition percent (part whole : nat) : Q :=
  (inject_Z (Z.of_nat part) / inject_Z (Z.of_nat whole) * 100)%Q.

Definition sentence_share (df : DataFrame) : option (shown (nat * Q)) :=
  if decide (0 < len df)%nat then
    hs ← select "Has_Sentence" (λ c, Some (eq_bool true c)) df;
    Some (Shown (len hs, percent (len hs) (len df)))
  else Some (Placeholder "No data").

Definition average_positive (c none : string) (df : DataFrame) :
    option (shown cell) :=
  pos ← select c gt_zero df;
  if decide (0 < len pos)%nat then
    m ← mean (column c pos);
    Some (Shown m)
  else Some (Placeholder none).

Definition make_summary (df : DataFrame) : option summary :=
  share ← sentence_share df;
  jail ← average_positive "Jail_Days" "No jail sentences" df;
  prob ← average_positive "Probation_Days_Clean" "No probation sentences" df;
  Some (mkSummary (len df) share jail prob).

Definition distribution (c title none : string) (nbinsx : nat)
    (df : DataFrame) : option figure :=
  pos ← select c gt_zero df;
  let data := column c pos in
  Some (if decide (0 < length data)%nat
        then Histogram title (length data) data nbinsx
        else Annotation title none).

Definition grouped_bars (title : string) (s : list agg_row) : figure :=
  GroupedBars title (g_key <$> s)
    [("Jail Days", g_jail <$> s); ("Probation Days", g_prob <$> s);
     ("Community Control Days", g_cc <$> s)].

Section Cycle.

(** [sort_values(by, ascending=False)] and the sorting inside
    [value_counts] are a parameter of the model: the list sorted by the
    count [f], the larger count first.  pandas sorts with the quicksort of
    numpy, which is not stable, so the order among equal counts is the
    routine's own. *)
Variable sort_values : ∀ A : Type, (A → nat) → list A → list A.

(** [df[c].value_counts()]: every distinct value with the number of its
    records, the larger number first. *)
Definition value_counts (c : string) (df : DataFrame) :
    option (list (cell * nat)) :=
  if decide (c ∈ columns df) then
    Some (sort_values _ snd
            ((λ k, (k, length (group c k (records df))))
               <$> unique (column c df)))
  else None.

(** The comparison chart. *)
Definition comparison (selected_judge selected_charge : string)
    (df : DataFrame) : option figure :=
  if decide (selected_judge ≠ "all" ∧ (0 < len df)%nat) then
    s ← group_summary "ChargeOffenseDescription" df;
    Some (grouped_bars ("Average Sentences by Charge for " +:+ selected_judge)
            (take 15 (sort_values _ g_cases s)))
  else if decide (selected_charge ≠ "all" ∧ (0 < len df)%nat) then
    s ← group_summary "Judge_Full_Name" df;
    Some (grouped_bars
            ("Average Sentences by Judge for '"
               +:+ take_chars 50 selected_charge +:+ "...'")
            (take 15 (sort_values _ g_cases s)))
  else if decide (0 < len df)%nat then
    vc ← value_counts "Judge_Full_Name" df;
    let judge_cases := take 20 vc in
    Some (Bars "Top 20 Judges by Case Count" (fst <$> judge_cases)
            (snd <$> judge_cases))
  else Some (Annotation "Sentence Comparison" "No data to display").

Definition table_columns : list string :=
  ["Judge_Full_Name"; "ChargeOffenseDescription"; "Statute"; "Jail_Days";
   "Probation_Days_Clean"; "CommunityControl_Days"; "CommunityService_Hours";
   "Race_Tier_1"; "Has_Sentence"].

Definition rounded_columns : list string :=
  ["Jail_Days"; "Probation_Days_Clean"; "CommunityControl_Days";
   "CommunityService_Hours"].

Definition table_record (available : list string) (r : gmap string cell) :
    gmap string cell :=
  list_to_map
    ((λ c, (c, if decide (c ∈ rounded_columns)
               then round_cell false (get c r) else get c r)) <$> available).

Definition make_table (df : DataFrame) : list (gmap string cell) :=
  let available := filter (λ c, c ∈ columns df) table_columns in
  if decide (available ≠ [] ∧ (0 < len df)%nat) then
    table_record available <$> records df
  else [].

Definition update_dashboard (df : DataFrame)
    (selected_judge selected_charge selected_sentence : string) : option outputs :=
  filtered ← apply_filters selected_judge selected_charge selected_sentence df;
  stats ← make_summary filtered;
  jail ← distribution "Jail_Days" "Jail Time Distribution"
           "No jail sentences in filtered data" 30 filtered;
  probation ← distribution "Probation_Days_Clean" "Probation Time Distribution"
           "No probation sentences in filtered data" 30 filtered;
  cc ← distribution "CommunityControl_Days" "Community Control Distribution"
           "No community control sentences in filtered data" 20 filtered;
  cs ← distribution "CommunityService_Hours" "Community Service Distribution"
           "No community service sentences in filtered data" 20 filtered;
  cmp ← comparison selected_judge selected_charge filtered;
  Some (mkOutputs stats jail probation cc cs cmp (make_table filtered)).

End Cycle.

(** ** The preparation rules as the specification words them *)

Section WhiteSpace.

Variable p1 : ascii → bool.
Variable p2 : ascii → ascii → bool.
Variable p3 : ascii → ascii → ascii → bool.

(** One character of white space, of one, two or three bytes. *)
Inductive space_char_of : string → Prop :=
| space_1 a : p1 a = true → space_char_of (String a EmptyString)
| space_2 a b : p2 a b = true → space_char_of (String a (String b EmptyString))
| space_3 a b c :
    p3 a b c = true →
    space_char_of (String a (String b (String c EmptyString))).

(** A text of white space only. *)
Inductive blank_of : string → Prop :=
| blank_nil : blank_of EmptyString
| blank_cons w s : space_char_of w → blank_of s → blank_of (w +:+ s).

(** A text that begins with a character of white space. *)
Definition begins_of (s : string) : Prop :=
  ∃ w t, space_char_of w ∧ s = w +:+ t.

End WhiteSpace.

Definition space_char : string → Prop :=
  space_char_of is_space is_space2 is_space3.

Definition blank : string → Prop := blank_of is_space is_space2 is_space3.

Definition begins_with_space : string → Prop :=
  begins_of is_space is_space2 is_space3.

Definition ends_with_space (s : string) : Prop :=
  ∃ t w, space_char w ∧ s = t +:+ w.

(** [t] is [s] trimmed of surrounding white space: [s] is [t] between two
    texts of white space, and [t] neither begins nor ends with white
    space. *)
Definition trim_of (s t : string) : Prop :=
  ∃ a b, blank a ∧ blank b ∧ s = a +:+ (t +:+ b) ∧
         ¬ begins_with_space t ∧ ¬ ends_with_space t.

Section PreparationRules.

Variable parse_number : string → option Q.
Variable repr_number : Q → string.
Variable times : Z → list cell → Q → Q.

(** The number of a cell: the number itself, the number that a text
    reads as, and 0 for a missing cell and for a text that is no number. *)
Definition spec_number (c : cell) : Q :=
  match c with
  | CNum q => q
  | CBool true => 1%Q
  | CBool false => 0%Q
  | CStr s =>
      match parse_number s with
      | Some q => q
      | None => 0%Q
      end
  | CNaN => 0%Q
  end.

(** A duration read from the one source column of its field, 0 when the
    column is absent. *)
Definition spec_single_source (df : DataFrame) (source : string)
    (r : gmap string cell) : Q :=
  if decide (source ∈ columns df) then spec_number (get source r) else 0%Q.

(** Days if present; else months times 30; else years times 365; else 0,
    the products taken exactly. *)
Definition spec_unit_exact (cols : list string) (days mths yrs : string)
    (r : gmap string cell) : Q :=
  if decide (days ∈ cols) then spec_number (get days r)
  else if decide (mths ∈ cols) then (spec_number (get mths r) * 30)%Q
  else if decide (yrs ∈ cols) then (spec_number (get yrs r) * 365)%Q
  else 0%Q.

(** A whole number whose product by 365 is at most 2^53 in absolute
    value. *)
Definition small_whole (q : Q) : Prop :=
  ∃ z : Z, (q == inject_Z z)%Q ∧ (Z.abs z * 365 ≤ 2 ^ 53)%Z.

(** The same with the products of the column. *)
Definition spec_unit_priority (df : DataFrame) (days mths yrs : string)
    (r : gmap string cell) : Q :=
  if decide (days ∈ columns df) then spec_number (get days r)
  else if decide (mths ∈ columns df) then
    times 30 (column mths df) (spec_number (get mths r))
  else if decide (yrs ∈ columns df) then
    times 365 (column yrs df) (spec_number (get yrs r))
  else 0%Q.

(** The rule of the units for one field of one record: the value [v] is
    read in that order of priority, so it is the number of the days column
    when the frame has one, and where the months and the years are small
    whole numbers it is the exact product. *)
Definition unit_rule (df : DataFrame) (days mths yrs : string)
    (r : gmap string cell) (v : Q) : Prop :=
  v = spec_unit_priority df days mths yrs r ∧
  (days ∈ columns df → v = spec_number (get days r)) ∧
  (small_whole (spec_number (get mths r)) →
   small_whole (spec_number (get yrs r)) →
   (v == spec_unit_exact (columns df) days mths yrs r)%Q).

(** True iff one of the four numbers is strictly greater than zero. *)
Definition spec_has_sentence (jail prob cc cs : Q) : bool :=
  Qpositive jail || Qpositive prob || Qpositive cc || Qpositive cs.

(** A text column after the clean-up of the text columns. *)
Definition cleaned (c : cell) : cell :=
  CStr (strip (astype_str repr_number c)).

(** The text of a text cell. *)
Definition text_of (c : cell) : string :=
  match c with
  | CStr s => s
  | _ => EmptyString
  end.

(** The empty text and the texts "nan" and "NaN" become "Unknown". *)
Definition spec_normalize (s : string) : string :=
  if decide (s ∈ ["nan"; "NaN"; EmptyString]) then "Unknown" else s.

(** First name, middle initial and last name joined by single spaces and
    trimmed when the three columns exist; else the judge column; else
    "Unknown"; the result normalized.  The name columns are read as the
    text clean-up leaves them, the middle initial with NaN as the empty
    text. *)
Definition spec_judge_full_name (cols : list string)
    (r : gmap string cell) : string :=
  spec_normalize
    (if decide (Forall (λ c, c ∈ cols) judge_parts) then
       strip (text_of (cleaned (get "Judge_First_Name" r)) +:+ " "
              +:+ text_of (fillna_text EmptyString (get "Judge_Middle_Intial" r))
              +:+ " " +:+ text_of (cleaned (get "Judge_Last_Name" r)))
     else if decide ("Judge" ∈ cols) then
       text_of (cleaned (get "Judge" r))
     else "Unknown").

(** What preparation makes of one record [r] of the frame [df] (the frame
    as read, its column names freed of the BOM). *)
Record prepared_from (df : DataFrame) (r r' : gmap string cell) : Prop := {
  pf_jail :
    r' !! "Jail_Days"
    = Some (CNum (spec_single_source df "MaxCnfmnt_Days" r));
  pf_prob :
    r' !! "Probation_Days_Clean"
    = Some (CNum (spec_unit_priority df "Probation_Days" "Probation_Mths"
                    "Probation_Yrs" r));
  pf_cc :
    r' !! "CommunityControl_Days"
    = Some (CNum (spec_unit_priority df "ComCntrl_Days" "ComCntrl_Mths"
                    "ComCntrl_Yrs" r));
  pf_cs :
    r' !! "CommunityService_Hours"
    = Some (CNum (spec_single_source df "CommunityService" r));
  pf_flag :
    r' !! "Has_Sentence"
    = Some (CBool (spec_has_sentence
                     (spec_single_source df "MaxCnfmnt_Days" r)
                     (spec_unit_priority df "Probation_Days"
                        "Probation_Mths" "Probation_Yrs" r)
                     (spec_unit_priority df "ComCntrl_Days"
                        "ComCntrl_Mths" "ComCntrl_Yrs" r)
                     (spec_single_source df "CommunityService" r)));
  pf_name :
    r' !! "Judge_Full_Name" = Some (CStr (spec_judge_full_name (columns df) r))
}.

End PreparationRules.

(** A middle initial that the join of the name accepts: a text or NaN. *)
Definition text_middle (c : cell) : Prop :=
  match c with
  | CStr _ | CNaN => True
  | _ => False
  end.

#[global] Instance text_middle_dec (c : cell) : Decision (text_middle c) :=
  match c return Decision (text_middle c) with
  | CStr _ | CNaN => left I
  | CNum _ | CBool _ => right (λ H : False, H)
  end.

(** The invariant of a record of a prepared table. *)
Record prepared_record (r : gmap string cell) : Prop := {
  pr_fields : ∃ jail prob cc cs : Q,
    r !! "Jail_Days" = Some (CNum jail) ∧
    r !! "Probation_Days_Clean" = Some (CNum prob) ∧
    r !! "CommunityControl_Days" = Some (CNum cc) ∧
    r !! "CommunityService_Hours" = Some (CNum cs) ∧
    r !! "Has_Sentence" = Some (CBool (spec_has_sentence jail prob cc cs));
  pr_name : ∃ name : string,
    r !! "Judge_Full_Name" = Some (CStr name) ∧ name ∉ ["nan"; "NaN"; EmptyString]
}.

(** The columns that preparation adds. *)
Definition derived_columns : list string :=
  ["Jail_Days"; "Probation_Days_Clean"; "CommunityControl_Days";
   "CommunityService_Hours"; "Has_Sentence"; "Judge_Full_Name"].

(** A prepared table: the derived columns in the header and the invariant
    in every record. *)
Definition prepared (df : DataFrame) : Prop :=
  Forall (λ c, c ∈ columns df) derived_columns ∧
  Forall prepared_record (records df).

(** Two records that hold the same cells outside the columns [cs]. *)
Definition agree_off (cs : list string) (r r' : gmap string cell) : Prop :=
  ∀ k, k ∉ cs → r' !! k = r !! k.

(** ** The steps of [process], one record at a time *)

Section PreparationSteps.

Variable parse_number : string → option Q.
Variable repr_number : Q → string.
Variable times : Z → list cell → Q → Q.

Local Abbreviation cleaned := (cleaned repr_number).

(** The clean-up of the text columns, one record at a time. *)
Definition text_step (cols : list string) (r r' : gmap string cell) : Prop :=
  ∀ k, r' !! k = if decide (k ∈ text_columns ∧ k ∈ cols)
                 then Some (cleaned (get k r)) else r !! k.

(** The [Has_Sentence] step, one record at a time. *)
Definition flag_step (r r' : gmap string cell) : Prop :=
  ∃ v, has_sentence_cell r = Some v ∧ r' = <["Has_Sentence" := v]> r.

(** The four numeric steps, one record at a time. *)
Record numbers_from (df : DataFrame) (r r' : gmap string cell) : Prop := {
  nf_jail :
    r' !! "Jail_Days"
    = Some (CNum (spec_single_source parse_number df "MaxCnfmnt_Days" r));
  nf_prob :
    r' !! "Probation_Days_Clean"
    = Some (CNum (spec_unit_priority parse_number times df "Probation_Days"
                    "Probation_Mths" "Probation_Yrs" r));
  nf_cc :
    r' !! "CommunityControl_Days"
    = Some (CNum (spec_unit_priority parse_number times df "ComCntrl_Days"
                    "ComCntrl_Mths" "ComCntrl_Yrs" r));
  nf_cs :
    r' !! "CommunityService_Hours"
    = Some (CNum (spec_single_source parse_number df "CommunityService" r));
  nf_rest : agree_off rounded_columns r r'
}.

(** The frame after the four numeric steps. *)
Definition with_numbers (df : DataFrame) : DataFrame :=
  community_service_hours parse_number
    (community_control_days parse_number times
       (probation_days parse_number times (jail_days parse_number df))).

(** The two name steps, one record at a time: the new name is the
    normalized [n], and [n] comes from one of the three branches. *)
Definition name_step (cols : list string) (r r' : gmap string cell) : Prop :=
  agree_off ["Judge_Full_Name"] r r' ∧
  ∃ n, r' !! "Judge_Full_Name"
       = Some (replace_text ["nan"; "NaN"; EmptyString] "Unknown" n) ∧
    if decide (Forall (λ c, c ∈ cols) judge_parts) then
      ∃ w, joined_name r = Some w ∧ n = str_strip w
    else if decide ("Judge" ∈ cols) then n = get "Judge" r
    else n = CStr "Unknown".

(** What [process] makes of one record [r] of the frame as read. *)
Record processed_from (df : DataFrame) (r r' : gmap string cell) : Prop := {
  pd_rules : prepared_from parse_number repr_number times df r r';
  pd_rest : ∀ k, k ∉ derived_columns → k ∉ date_columns →
    r' !! k = if decide (k ∈ text_columns ∧ k ∈ columns df)
              then Some (cleaned (get k r)) else r !! k
}.

End PreparationSteps.

(** ** The cycle as the specification words it *)

(** The records that each filter keeps, and that the three keep. *)
Definition keeps_judge (selected_judge : string) (r : gmap string cell) : bool :=
  bool_decide (selected_judge = "all")
  || eq_text selected_judge (get "Judge_Full_Name" r).

Definition keeps_charge (selected_charge : string) (r : gmap string cell) :
    bool :=
  bool_decide (selected_charge = "all")
  || eq_text selected_charge (get "ChargeOffenseDescription" r).

Definition keeps_sentence (selected_sentence : string)
    (r : gmap string cell) : bool :=
  if decide (selected_sentence = "with_sentence")
  then eq_bool true (get "Has_Sentence" r)
  else if decide (selected_sentence = "no_sentence")
       then eq_bool false (get "Has_Sentence" r)
       else true.

Definition keeps (selected_judge selected_charge selected_sentence : string)
    (r : gmap string cell) : bool :=
  keeps_judge selected_judge r && keeps_charge selected_charge r
  && keeps_sentence selected_sentence r.

(** [series > 0] where it does not raise. *)
Definition is_positive (c : cell) : bool := default false (gt_zero c).

(** The numbers of column [c], record by record. *)
Definition numbers_of (c : string) (rs : list (gmap string cell)) : list Q :=
  omap (λ r, match r !! c with Some (CNum q) => Some q | _ => None end) rs.

(** The mean over the strictly positive numbers only, or the placeholder
    when there is none. *)
Definition spec_mean_positive (none : string) (l : list Q) : shown cell :=
  match filter (λ q, Qpositive q) l with
  | [] => Placeholder none
  | pos => Shown (CNum (Qmean pos))
  end.

(** The record holds a number in column [c]. *)
Definition has_number (c : string) (r : gmap string cell) : Prop :=
  ∃ q, r !! c = Some (CNum q).

(** From the larger count to the smaller. *)
Definition desc {A} (f : A → nat) (a b : A) : Prop := (f b ≤ f a)%nat.

(** What is known of the sorting routine: it gives the values of the
    list, each as often as the list has it, from the larger count to the
    smaller. *)
Definition sorts_by_count
    (sort_values : ∀ A : Type, (A → nat) → list A → list A) : Prop :=
  ∀ (A : Type) (f : A → nat) (l : list A),
    sort_values A f l ≡ₚ l ∧ StronglySorted (desc f) (sort_values A f l).

(** A group row as the specification words it: the means of the four fields
    over the records of the group, rounded to one decimal, and the number
    of these records that have a case number. *)
Definition spec_aggregate (k : cell) (rs : list (gmap string cell)) : agg_row :=
  mkAgg k
    (CNum (round1 (Qmean (numbers_of "Jail_Days" rs))))
    (CNum (round1 (Qmean (numbers_of "Probation_Days_Clean" rs))))
    (CNum (round1 (Qmean (numbers_of "CommunityControl_Days" rs))))
    (CNum (round1 (Qmean (numbers_of "CommunityService_Hours" rs))))
    (length (filter (λ r, notna (get "CaseNumber" r)) rs)).

(** The group rows of a frame, one for each value of the key column, in
    ascending order of the key. *)
Definition spec_group_summary (key : string) (df : DataFrame) : list agg_row :=
  (λ k, spec_aggregate k (group key k (records df)))
    <$> group_keys (column key df).

(** Every value of a column with the number of its records. *)
Definition spec_value_counts (c : string) (df : DataFrame) : list (cell * nat) :=
  (λ k, (k, length (group c k (records df)))) <$> unique (column c df).

Section CycleRules.

Variable sort_values : ∀ A : Type, (A → nat) → list A → list A.

(** The chart that the precedence of the selections picks. *)
Definition spec_comparison (selected_judge selected_charge : string)
    (f : DataFrame) : figure :=
  if decide (selected_judge ≠ "all" ∧ records f ≠ []) then
    grouped_bars ("Average Sentences by Charge for " +:+ selected_judge)
      (take 15 (sort_values _ g_cases
                  (spec_group_summary "ChargeOffenseDescription" f)))
  else if decide (selected_charge ≠ "all" ∧ records f ≠ []) then
    grouped_bars
      ("Average Sentences by Judge for '"
         +:+ take_chars 50 selected_charge +:+ "...'")
      (take 15 (sort_values _ g_cases
                  (spec_group_summary "Judge_Full_Name" f)))
  else if decide (records f ≠ []) then
    let top :=
      take 20 (sort_values _ snd (spec_value_counts "Judge_Full_Name" f)) in
    Bars "Top 20 Judges by Case Count" (fst <$> top) (snd <$> top)
  else Annotation "Sentence Comparison" "No data to display".

End CycleRules.

(** What the cycle shows for a filtered set without records. *)
Definition empty_outputs : outputs :=
  mkOutputs
    (mkSummary 0 (Placeholder "No data") (Placeholder "No jail sentences")
       (Placeholder "No probation sentences"))
    (Annotation "Jail Time Distribution" "No jail sentences in filtered data")
    (Annotation "Probation Time Distribution"
       "No probation sentences in filtered data")
    (Annotation "Community Control Distribution"
       "No community control sentences in filtered data")
    (Annotation "Community Service Distribution"
       "No community service sentences in filtered data")
    (Annotation "Sentence Comparison" "No data to display")
    [].

(** ** Predicates on the source and on prepared records *)

(** A file that [load_data] prepares: it has records, the clean-up of its
    header leaves no name twice, and it lacks one of the three parts of
    the name or every middle initial is a text or is missing. *)
Definition accepted (df : DataFrame) : Prop :=
  len df ≠ 0%nat ∧
  NoDup (columns (clean_columns df)) ∧
  (¬ Forall (λ c, c ∈ columns (clean_columns df)) judge_parts ∨
   Forall (λ r, text_middle (get "Judge_Middle_Intial" r))
     (records (clean_columns df))).

#[global] Instance accepted_dec (df : DataFrame) : Decision (accepted df) :=
  ltac:(unfold accepted; apply _).

(** The product of the model is exact on a whole number when the product
    is at most 2^53 in absolute value: there the product of 64-bit
    integers does not wrap and the product of doubles does not round. *)
Definition exact_products (times : Z → list cell → Q → Q) : Prop :=
  ∀ (k : Z) (col : list cell) (q : Q) (z : Z),
    (q == inject_Z z)%Q → (Z.abs (z * k) ≤ 2 ^ 53)%Z →
    (times k col q == inject_Z (z * k))%Q.

(** The product of a number that is not negative is not negative as long
    as it stays below 2^63: the product of 64-bit integers wraps from
    there on, the product of doubles never changes the sign. *)
Definition sign_products (times : Z → list cell → Q → Q) : Prop :=
  ∀ (k : Z) (col : list cell) (q : Q),
    (0 ≤ k)%Z → (0 <= q)%Q → (q * inject_Z k < inject_Z (2 ^ 63))%Q →
    (0 <= times k col q)%Q.

(** The source columns that are multiplied, each with its factor. *)
Definition scaled_sources : list (string * Z) :=
  [("Probation_Mths", 30%Z); ("Probation_Yrs", 365%Z);
   ("ComCntrl_Mths", 30%Z); ("ComCntrl_Yrs", 365%Z)].

(** The source columns that are taken as they are, each with the field
    that it gives when the frame has it. *)
Definition kept_sources : list (string * string) :=
  [("MaxCnfmnt_Days", "Jail_Days"); ("Probation_Days", "Probation_Days_Clean");
   ("ComCntrl_Days", "CommunityControl_Days");
   ("CommunityService", "CommunityService_Hours")].

(** Every product of a number of the source stays below 2^63. *)
Definition sources_below (parse_number : string → option Q) (src : source) :
    Prop :=
  match src with
  | Loaded df =>
      ∀ r c k, r ∈ records (clean_columns df) → (c, k) ∈ scaled_sources →
               (spec_number parse_number (get c r) * inject_Z k
                < inject_Z (2 ^ 63))%Q
  | _ => True
  end.

(** The same as a check that computes. *)
Definition sources_belowb (parse_number : string → option Q) (src : source) :
    bool :=
  match src with
  | Loaded df =>
      forallb
        (λ r, forallb
                (λ ck, negb (Qle_bool (inject_Z (2 ^ 63))
                               (spec_number parse_number (get ck.1 r)
                                * inject_Z ck.2)))
                scaled_sources)
        (records (clean_columns df))
  | _ => true
  end.

(** The sources of the four derived numbers. *)
Definition duration_sources : list string :=
  ["MaxCnfmnt_Days"; "Probation_Days"; "Probation_Mths"; "Probation_Yrs";
   "ComCntrl_Days"; "ComCntrl_Mths"; "ComCntrl_Yrs"; "CommunityService"].

(** Every number read from a duration column of the source is at least 0. *)
Definition sources_nonneg (parse_number : string → option Q) (src : source) :
    Prop :=
  match src with
  | Loaded df =>
      ∀ r c, r ∈ records (clean_columns df) → c ∈ duration_sources →
             (0 <= spec_number parse_number (get c r))%Q
  | _ => True
  end.

(** The same as a check that computes. *)
Definition sources_nonnegb (parse_number : string → option Q) (src : source) :
    bool :=
  match src with
  | Loaded df =>
      forallb
        (λ r, forallb (λ c, Qle_bool 0 (spec_number parse_number (get c r)))
                duration_sources)
        (records (clean_columns df))
  | _ => true
  end.

(** The four derived fields of a record are numbers. *)
Definition fields_present (r : gmap string cell) : Prop :=
  ∃ jail prob cc cs : Q,
    r !! "Jail_Days" = Some (CNum jail) ∧
    r !! "Probation_Days_Clean" = Some (CNum prob) ∧
    r !! "CommunityControl_Days" = Some (CNum cc) ∧
    r !! "CommunityService_Hours" = Some (CNum cs).

(** The four derived fields of a record are numbers and none is negative. *)
Definition fields_nonneg (r : gmap string cell) : Prop :=
  ∃ jail prob cc cs : Q,
    r !! "Jail_Days" = Some (CNum jail) ∧
    r !! "Probation_Days_Clean" = Some (CNum prob) ∧
    r !! "CommunityControl_Days" = Some (CNum cc) ∧
    r !! "CommunityService_Hours" = Some (CNum cs) ∧
    (0 <= jail ∧ 0 <= prob ∧ 0 <= cc ∧ 0 <= cs)%Q.

(** ** Stand-ins for the parameters of the model, used by the examples *)

Fixpoint parse_digits (acc : Z) (s : string) : option Z :=
  match s with
  | EmptyString => Some acc
  | String a s' =>
      d ← Ascii.is_nat a; parse_digits (acc * 10 + Z.of_nat d)%Z s'
  end.

(** Whole numbers in decimal digits with an optional minus sign. *)
Definition parse_integer (s : string) : option Q :=
  match s with
  | EmptyString => None
  | String a s' =>
      if bool_decide (a = Ascii.ascii_of_nat 45%nat) then
        if bool_decide (s' = EmptyString) then None
        else (λ n, inject_Z (- n)) <$> parse_digits 0 s'
      else inject_Z <$> parse_digits 0 s
  end.

(** The text of a number: its sign and the digits of its integer part. *)
Fixpoint digits_of (fuel : nat) (n : N) (acc : string) : string :=
  match fuel with
  | O => acc
  | S fuel' =>
      let acc' := String (Ascii.ascii_of_N (48 + n mod 10)) acc in
      if (n / 10 =? 0)%N then acc' else digits_of fuel' (n / 10)%N acc'
  end.

Definition repr_floor (q : Q) : string :=
  let z := Qfloor q in
  let d := digits_of (S (N.to_nat (N.log2 (Z.abs_N z)))) (Z.abs_N z) EmptyString in
  if (z <? 0)%Z then String (Ascii.ascii_of_nat 45%nat) d else d.

(** A column is a column of dates when all its cells are texts. *)
Definition dates_of_texts (cs : list cell) : option (list cell) :=
  if forallb (λ c, match c with CStr _ => true | _ => false end) cs
  then Some cs else None.

(** The signed 64-bit integer that an integer wraps to. *)
Definition wrap64 (z : Z) : Z := ((z + 2 ^ 63) mod 2 ^ 64 - 2 ^ 63)%Z.

Definition is_whole (q : Q) : bool := Qeq_bool q (inject_Z (Qfloor q)).

(** A column is a column of integers when every cell reads as a whole
    number; its products wrap at 64 bits.  In the other columns the
    stand-in takes the exact product and does not round: no example
    multiplies in such a column. *)
Definition example_times (k : Z) (col : list cell) (q : Q) : Q :=
  if forallb (λ c, match to_numeric parse_integer c with
                   | Some x => is_whole x
                   | None => false
                   end) col
  then inject_Z (wrap64 (Qfloor q * k))
  else (q * inject_Z k)%Q.

(** A stable insertion sort, the larger count first. *)
Fixpoint insert_desc {A} (f : A → nat) (x : A) (l : list A) : list A :=
  match l with
  | [] => [x]
  | y :: l' => if (f x <? f y)%nat then y :: insert_desc f x l' else x :: l
  end.

Definition sort_desc {A} (f : A → nat) (l : list A) : list A :=
  foldr (insert_desc f) [] l.

Definition example_load_data : source → DataFrame :=
  load_data parse_integer repr_floor dates_of_texts example_times.

Definition example_update_dashboard :
    DataFrame → string → string → string → option outputs :=
  update_dashboard (@sort_desc).

(** ** Frames of the examples *)

(** A days column beside a months column, and years as a text. *)
Definition units_frame : DataFrame :=
  mkDF ["CaseNumber"; "Judge"; "Probation_Days"; "Probation_Mths"; "ComCntrl_Yrs"]
    [list_to_map
       [("CaseNumber", CStr "C1"); ("Judge", CStr " Smith ");
        ("Probation_Days", CNum 10); ("Probation_Mths", CNum 6);
        ("ComCntrl_Yrs", CStr "2")]].

(** A negative confinement. *)
Definition negative_frame : DataFrame :=
  mkDF ["CaseNumber"; "Judge"; "MaxCnfmnt_Days"]
    [list_to_map
       [("CaseNumber", CStr "C1"); ("Judge", CStr "Smith");
        ("MaxCnfmnt_Days", CNum (-5))]].

(** The three parts of a name, the middle initial missing. *)
Definition names_frame : DataFrame :=
  mkDF ["Judge_First_Name"; "Judge_Middle_Intial"; "Judge_Last_Name"]
    [list_to_map
       [("Judge_First_Name", CStr "John"); ("Judge_Middle_Intial", CNaN);
        ("Judge_Last_Name", CStr " Smith")]].

(** A middle initial that is a number: joining the name raises. *)
Definition numeric_initial_frame : DataFrame :=
  mkDF ["Judge_First_Name"; "Judge_Middle_Intial"; "Judge_Last_Name";
        "Probation_Days"]
    [list_to_map
       [("Judge_First_Name", CStr "John"); ("Judge_Middle_Intial", CNum 5);
        ("Judge_Last_Name", CStr "Smith"); ("Probation_Days", CNum 100)]].

(** Months and no days, years as a text. *)
Definition months_frame : DataFrame :=
  mkDF ["CaseNumber"; "Judge"; "Probation_Mths"; "ComCntrl_Yrs"]
    [list_to_map
       [("CaseNumber", CStr "C1"); ("Judge", CStr "Smith");
        ("Probation_Mths", CNum 6); ("ComCntrl_Yrs", CStr "2")]].

(** A number of months whose product by 30 passes 2^63. *)
Definition wrap_frame : DataFrame :=
  mkDF ["CaseNumber"; "Judge"; "Probation_Mths"]
    [list_to_map
       [("CaseNumber", CStr "C1"); ("Judge", CStr "Smith");
        ("Probation_Mths", CNum 307445734561825861)]].

(** The no-break space U+00A0. *)
Definition nbsp : string :=
  String (Ascii.ascii_of_nat 194%nat)
    (String (Ascii.ascii_of_nat 160%nat) EmptyString).

(** A judge between a no-break space and a space. *)
Definition nbsp_frame : DataFrame :=
  mkDF ["CaseNumber"; "Judge"]
    [list_to_map
       [("CaseNumber", CStr "C1"); ("Judge", CStr (nbsp +:+ "Smith "))]].

(** A header without records. *)
Definition empty_frame : DataFrame := mkDF ["CaseNumber"; "Judge"] [].

Definition first_sample_record : gmap string cell :=
  sample_record "SAMPLE001" "John Smith"
    "POSSESSION OF FIREARM BY CONVICTED FELON" "790.23" "Firearm Violations"
    "B" "M" 365 0 0 0 "Adjudicated Guilty".

(** Jail days 0, 0 and 10. *)
Definition zeros_frame : DataFrame :=
  mkDF ["CaseNumber"; "Judge"; "ChargeOffenseDescription"; "MaxCnfmnt_Days"]
    [list_to_map
       [("CaseNumber", CStr "C1"); ("Judge", CStr "Smith");
        ("ChargeOffenseDescription", CStr "THEFT"); ("MaxCnfmnt_Days", CNum 0)];
     list_to_map
       [("CaseNumber", CStr "C2"); ("Judge", CStr "Smith");
        ("ChargeOffenseDescription", CStr "THEFT"); ("MaxCnfmnt_Days", CNum 0)];
     list_to_map
       [("CaseNumber", CStr "C3"); ("Judge", CStr "Jones");
        ("ChargeOffenseDescription", CStr "THEFT"); ("MaxCnfmnt_Days", CNum 10)]].

(** Two records of one judge and one charge, the first without case
    number. *)
Definition missing_case_frame : DataFrame :=
  mkDF ["CaseNumber"; "Judge"; "ChargeOffenseDescription"; "MaxCnfmnt_Days"]
    [list_to_map
       [("CaseNumber", CNaN); ("Judge", CStr "Smith");
        ("ChargeOffenseDescription", CStr "THEFT"); ("MaxCnfmnt_Days", CNum 10)];
     list_to_map
       [("CaseNumber", CStr "C2"); ("Judge", CStr "Smith");
        ("ChargeOffenseDescription", CStr "THEFT"); ("MaxCnfmnt_Days", CNum 20)]].

(** ** Frames and predicates of the further properties *)

(** A file date beside a judge and a confinement. *)
Definition dated_frame : DataFrame :=
  mkDF ["FileDate"; "Judge"; "MaxCnfmnt_Days"]
    [list_to_map
       [("FileDate", CStr "2023-01-05"); ("Judge", CStr " Smith ");
        ("MaxCnfmnt_Days", CStr "12")];
     list_to_map
       [("FileDate", CStr "2023-02-11"); ("Judge", CNaN);
        ("MaxCnfmnt_Days", CNum 0)]].

(** The records whose flag is true. *)
Definition sentenced (rs : list (gmap string cell)) : nat :=
  length (filter (λ r, eq_bool true (get "Has_Sentence" r)) rs).

(** The table prepared from [zeros_frame]. *)
Definition zeros_table : DataFrame := example_load_data (Loaded zeros_frame).

(** The table prepared from [dated_frame]: it has neither the charge
    column nor the case number column. *)
Definition dated_table : DataFrame := example_load_data (Loaded dated_frame).

(** A distribution chart and a line of the summary that show the same
    values: a histogram of strictly positive numbers beside their mean, or
    two placeholders. *)
Definition same_values (nbinsx : nat) (fig : figure) (line : shown cell) : Prop :=
  match fig, line with
  | Histogram _ n x bins, Shown m =>
      ∃ qs, x = CNum <$> qs ∧ n = length qs ∧ (0 < n)%nat ∧
            Forall (λ q, (0 < q)%Q) qs ∧ m = CNum (Qmean qs) ∧ bins = nbinsx
  | Annotation _ _, Placeholder _ => True
  | _, _ => False
  end.

(** ** The layout: the figures of the header and the options of the dropdowns *)

(** The truth value of a cell in a condition: the empty text, zero and
    [False] are false. *)
Definition truthy (c : cell) : bool :=
  match c with
  | CStr s => negb (bool_decide (s = EmptyString))
  | CNum q => negb (Qeq_bool q 0)
  | CBool b => b
  | CNaN => true
  end.

Definition is_text (c : cell) : bool :=
  match c with
  | CStr _ => true
  | _ => false
  end.

(** [sorted(values)]: texts in the order of their code points, numbers and
    booleans in the order of their values, equal values in the order of the
    list.  Two values of a list of two or more are compared on the way, so
    a text beside a number raises [TypeError]. *)
Definition sorted (vals : list cell) : option (list cell) :=
  if forallb is_text vals || forallb (λ c, negb (is_text c)) vals
  then Some (foldr insert_key [] vals)
  else None.

(** [df[c]]: a [KeyError] when the frame has no column [c]. *)
Definition series (c : string) (df : DataFrame) : option (list cell) :=
  if decide (c ∈ columns df) then Some (column c df) else None.

(** The five figures of the header. *)
Record metrics := mkMetrics {
  total_cases : nat;
  judge_count : nat;
  sentenced_cases : nat;
  avg_jail_days : cell;
  avg_probation_days : cell
}.

(** [len(df)], [df['Judge_Full_Name'].nunique()],
    [len(df[df['Has_Sentence']==True])] and the means of the two columns
    over all records, as the layout computes them. *)
Definition header_metrics (df : DataFrame) : option metrics :=
  judges ← series "Judge_Full_Name" df;
  hs ← select "Has_Sentence" (λ c, Some (eq_bool true c)) df;
  jail ← series "Jail_Days" df ≫= mean;
  prob ← series "Probation_Days_Clean" df ≫= mean;
  Some (mkMetrics (len df) (length (unique judges)) (len hs) jail prob).

(** The options of the sentence dropdown, label and value. *)
Definition sentence_options : list (string * string) :=
  [("All Cases", "all"); ("With Sentence Only", "with_sentence");
   ("No Sentence Only", "no_sentence")].

Section Layout.

Variable repr_number : Q → string.

(** [safe_get_unique(column_name)] on the table [df]: the distinct values
    of the column that are not missing, not false and not the text "nan",
    sorted; nothing when the column is absent or an exception is raised. *)
Definition safe_get_unique (column_name : string) (df : DataFrame) : list cell :=
  if decide (column_name ∈ columns df) then
    default []
      (sorted
         (filter (λ val, truthy val
                         && negb (bool_decide
                                    (astype_str repr_number val = "nan")))
            (unique (column column_name df))))
  else [].

(** The options of the judge dropdown, label and value. *)
Definition judge_options (df : DataFrame) : list (cell * cell) :=
  (CStr "All Judges", CStr "all")
  :: ((λ judge, (judge, judge)) <$> safe_get_unique "Judge_Full_Name" df).

(** [charge[:80] + '...' if len(charge) > 80 else charge]; [len] of a
    number raises. *)
Definition charge_label (charge : cell) : option cell :=
  match charge with
  | CStr s =>
      Some (CStr (if (80 <? char_length s)%nat
                  then take_chars 80 s +:+ "..." else s))
  | _ => None
  end.

(** The options of the charge dropdown, label and value. *)
Definition charge_options (df : DataFrame) : option (list (cell * cell)) :=
  opts ← mapM (λ charge, l ← charge_label charge; Some (l, charge))
              (safe_get_unique "ChargeOffenseDescription" df);
  Some ((CStr "All Charges", CStr "all") :: opts).

End Layout.

(** The figure of the header beside the line of the summary: the first is
    at most the second, and is zero where the summary has a placeholder. *)
Definition at_most_shown (h : Q) (line : shown cell) : Prop :=
  match line with
  | Shown (CNum a) => (h <= a)%Q
  | Shown _ => False
  | Placeholder _ => (h == 0)%Q
  end.

(** The letter e with an acute accent, U+00E9, two bytes in UTF-8. *)
Definition e_acute : string :=
  String (Ascii.ascii_of_nat 195%nat)
    (String (Ascii.ascii_of_nat 169%nat) EmptyString).

Fixpoint repeated (n : nat) (s : string) : string :=
  match n with
  | O => EmptyString
  | S n' => s +:+ repeated n' s
  end.

(** A judge column that holds a text beside a number. *)
Definition mixed_frame : DataFrame :=
  mkDF ["Judge_Full_Name"]
    [list_to_map [("Judge_Full_Name", CStr "Smith")];
     list_to_map [("Judge_Full_Name", CNum 7)]].

(** The byte order mark, and the texts that hold none of its first byte. *)
Definition bom : string :=
  String (Ascii.ascii_of_nat 239%nat)
    (String (Ascii.ascii_of_nat 187%nat)
       (String (Ascii.ascii_of_nat 191%nat) EmptyString)).

Fixpoint bom_free (s : string) : bool :=
  match s with
  | EmptyString => true
  | String a s' =>
      negb (bool_decide (a = Ascii.ascii_of_nat 239%nat)) && bom_free s'
  end.

(** A file whose first column name carries the mark. *)
Definition marked_frame : DataFrame :=
  mkDF [bom +:+ "CaseNumber"; "Judge"]
    [list_to_map [(bom +:+ "CaseNumber", CStr "C1"); ("Judge", CStr "Smith")]].

(** A file whose two column names differ by the mark only. *)
Definition doubled_frame : DataFrame :=
  mkDF [bom +:+ "Judge"; "Judge"]
    [list_to_map [(bom +:+ "Judge", CStr "Smith"); ("Judge", CStr "Jones")]].

(** ** Facts on frames *)

(** A closed question on lists of column names, decided by computing. *)
Ltac closed_list := apply (bool_decide_unpack _); vm_compute; exact I.

Lemma elem_of_add_column (k c : string) (cols : list string) :
  k ∈ add_column c cols ↔ k = c ∨ k ∈ cols.
Proof.
  unfold add_column. case_decide.
  - split; [by right|]. intros [Hk | Hk]; [by rewrite Hk | done].
  - rewrite elem_of_app, list_elem_of_singleton. tauto.
Qed.

Lemma add_column_present (c : string) (cols : list string) :
  c ∈ cols → add_column c cols = cols.
Proof. intros ?. unfold add_column. by case_decide. Qed.

Lemma add_column_idem (c : string) (cols : list string) :
  add_column c (add_column c cols) = add_column c cols.
Proof. apply add_column_present, elem_of_add_column. by left. Qed.

Lemma decide_add_column {A} (k c : string) (cols : list string) (x y : A) :
  k ≠ c →
  (if decide (k ∈ add_column c cols) then x else y)
  = (if decide (k ∈ cols) then x else y).
Proof.
  intros ?. apply decide_ext. rewrite elem_of_add_column. intuition congruence.
Qed.

Lemma get_insert (c : string) (v : cell) (r : gmap string cell) :
  get c (<[c := v]> r) = v.
Proof. unfold get. by rewrite lookup_insert_eq. Qed.

Lemma get_insert_ne (k c : string) (v : cell) (r : gmap string cell) :
  c ≠ k → get k (<[c := v]> r) = get k r.
Proof. intros ?. unfold get. by rewrite lookup_insert_ne. Qed.

Lemma get_lookup (k : string) (r r' : gmap string cell) :
  r' !! k = r !! k → get k r' = get k r.
Proof. unfold get. by intros ->. Qed.

Lemma agree_off_single (c k : string) (r r' : gmap string cell) :
  agree_off [c] r r' → k ≠ c → r' !! k = r !! k.
Proof. intros H ?. apply H. by rewrite list_elem_of_singleton. Qed.

Lemma Forall2_agree_refl (cs : list string) (rs : list (gmap string cell)) :
  Forall2 (agree_off cs) rs rs.
Proof. apply Forall_Forall2_diag, list.Forall_forall. by intros r _ k _. Qed.

Lemma Forall2_agree_trans (cs1 cs2 : list string)
    (l k m : list (gmap string cell)) :
  Forall2 (agree_off cs1) l k → Forall2 (agree_off cs2) k m →
  Forall2 (agree_off (cs1 ++ cs2)) l m.
Proof.
  apply list.Forall2_trans. intros r1 r2 r3 H12 H23 c Hc.
  rewrite elem_of_app in Hc. rewrite H23, H12; tauto.
Qed.

Lemma append_assoc (a b c : string) : (a +:+ b) +:+ c = a +:+ (b +:+ c).
Proof.
  induction a as [|x a IH]; [done|].
  change (String x ((a +:+ b) +:+ c) = String x (a +:+ (b +:+ c))).
  by rewrite IH.
Qed.

Lemma Forall2_compose {A B C} (P : A → B → Prop) (Q : B → C → Prop)
    (l : list A) (k : list B) (m : list C) :
  Forall2 P l k → Forall2 Q k m → Forall2 (λ x z, ∃ y, P x y ∧ Q y z) l m.
Proof. apply list.Forall2_trans. eauto. Qed.

Lemma Forall2_fmap_graph {A B} (f : A → B) (l : list A) :
  Forall2 (λ x y, y = f x) l (f <$> l).
Proof. apply Forall2_fmap_r, Forall_Forall2_diag, list.Forall_forall. done. Qed.

Lemma set_values_agree (c : string) (vs : list cell)
    (rs : list (gmap string cell)) :
  Forall2 (agree_off [c]) rs (set_values c vs rs).
Proof.
  revert vs. induction rs as [|r rs IH]; intros vs; simpl; [constructor|].
  destruct vs as [|v vs]; [apply Forall2_agree_refl|].
  constructor; [|apply IH]. intros k Hk. rewrite lookup_insert_ne; [done|].
  intros ->. apply Hk, list_elem_of_singleton. done.
Qed.

Lemma assign_ext (c : string) (f g : gmap string cell → cell)
    (df : DataFrame) :
  (∀ r, f r = g r) → assign c f df = assign c g df.
Proof.
  intros H. unfold assign. f_equal. apply list_fmap_ext.
  intros _ r _. by rewrite H.
Qed.

Lemma column_assign_ne (k c : string) (f : gmap string cell → cell)
    (df : DataFrame) :
  c ≠ k → column k (assign c f df) = column k df.
Proof.
  intros ?. unfold column, assign. cbn [records].
  rewrite <- list_fmap_compose. apply list_fmap_ext.
  intros _ r _. cbn. by apply get_insert_ne.
Qed.

Lemma column_agree (k : string) (rs rs' : list (gmap string cell)) :
  Forall2 (λ r r', r' !! k = r !! k) rs rs' → get k <$> rs' = get k <$> rs.
Proof.
  induction 1 as [|r r' rs rs' H _ IH]; [done|].
  cbn [fmap list_fmap]. f_equal; [by apply get_lookup | exact IH].
Qed.

Lemma try_assign_Some (c : string) (f : gmap string cell → option cell)
    (g : gmap string cell → cell) (df : DataFrame) :
  (∀ r, r ∈ records df → f r = Some (g r)) →
  try_assign c f df = Some (assign c g df).
Proof.
  intros Hf. unfold try_assign, assign.
  assert (mapM (λ r, v ← f r; Some (<[c:=v]> r)) (records df)
          = Some ((λ r, <[c:=g r]> r) <$> records df)) as ->; [|done].
  apply mapM_Some, Forall2_fmap_r, Forall_Forall2_diag, list.Forall_forall.
  intros r Hr. by rewrite (Hf r Hr).
Qed.

Lemma try_assign_inv (c : string) (f : gmap string cell → option cell)
    (df d : DataFrame) :
  try_assign c f df = Some d →
  columns d = add_column c (columns df) ∧
  Forall2 (λ r r', ∃ v, f r = Some v ∧ r' = <[c := v]> r)
    (records df) (records d).
Proof.
  unfold try_assign. intros H.
  destruct (mapM _ (records df)) as [rs|] eqn:Hm; simplify_eq/=.
  split; [done|]. apply mapM_Some in Hm.
  apply (list.Forall2_impl _ _ _ _ Hm). intros r r' Hr. simpl in Hr.
  destruct (f r) as [v|]; simplify_eq/=. eauto.
Qed.

(** ** Facts on trimming *)

Lemma append_nil_r (s : string) : s +:+ EmptyString = s.
Proof.
  induction s as [|a s IH]; [done|].
  change (String a (s +:+ EmptyString) = String a s). by rewrite IH.
Qed.

Lemma append_cons (a : ascii) (s t : string) :
  String a s +:+ t = String a (s +:+ t).
Proof. reflexivity. Qed.

Lemma append_nil_l (s : string) : EmptyString +:+ s = s.
Proof. reflexivity. Qed.

Lemma rev_append_spec (s acc : string) :
  rev_append s acc = string_rev s +:+ acc.
Proof.
  unfold string_rev. revert acc.
  induction s as [|a s IH]; intros acc; [done|]. cbn [rev_append].
  rewrite (IH (String a acc)), (IH (String a EmptyString)).
  by rewrite append_assoc.
Qed.

Lemma string_rev_cons (a : ascii) (s : string) :
  string_rev (String a s) = string_rev s +:+ String a EmptyString.
Proof. unfold string_rev at 1. cbn [rev_append]. apply rev_append_spec. Qed.

Lemma string_rev_app (s t : string) :
  string_rev (s +:+ t) = string_rev t +:+ string_rev s.
Proof.
  induction s as [|a s IH].
  - by rewrite append_nil_l, append_nil_r.
  - by rewrite append_cons, !string_rev_cons, IH, append_assoc.
Qed.

Lemma string_rev_involutive (s : string) : string_rev (string_rev s) = s.
Proof.
  induction s as [|a s IH]; [done|].
  by rewrite string_rev_cons, string_rev_app, IH.
Qed.

Section WhiteSpaceFacts.

Variable p1 : ascii → bool.
Variable p2 : ascii → ascii → bool.
Variable p3 : ascii → ascii → ascii → bool.

Local Abbreviation q2 := (λ a b, p2 b a).
Local Abbreviation q3 := (λ a b c, p3 c b a).

Lemma blank_of_app (s t : string) :
  blank_of p1 p2 p3 s → blank_of p1 p2 p3 t → blank_of p1 p2 p3 (s +:+ t).
Proof.
  induction 1 as [|w s Hw _ IH]; intros Ht; [done|].
  rewrite append_assoc. constructor; [done|by apply IH].
Qed.

Lemma blank_of_char (w : string) :
  space_char_of p1 p2 p3 w → blank_of p1 p2 p3 w.
Proof.
  intros H. rewrite <- (append_nil_r w). constructor; [done|constructor].
Qed.

(** A character read from its last byte to its first. *)
Lemma space_char_rev (w : string) :
  space_char_of p1 q2 q3 w → space_char_of p1 p2 p3 (string_rev w).
Proof. intros [a H|a b H|a b c H]; by constructor. Qed.

Lemma blank_of_rev (s : string) :
  blank_of p1 q2 q3 s → blank_of p1 p2 p3 (string_rev s).
Proof.
  induction 1 as [|w s Hw _ IH]; [constructor|].
  rewrite string_rev_app. apply blank_of_app; [done|].
  by apply blank_of_char, space_char_rev.
Qed.

(** What [strip_front] gives when the text does not begin with white
    space. *)
Lemma strip_front_fixed (s : string) :
  ¬ begins_of p1 p2 p3 s → strip_front p1 p2 p3 s = s.
Proof.
  intros H. destruct s as [|a s1]; [done|]. cbn [strip_front].
  destruct (p1 a) eqn:E1.
  { destruct H. exists (String a EmptyString), s1. split; [by constructor|done]. }
  destruct s1 as [|b s2]; [done|].
  destruct (p2 a b) eqn:E2.
  { destruct H. exists (String a (String b EmptyString)), s2.
    split; [by constructor|done]. }
  destruct s2 as [|c s3]; [done|].
  destruct (p3 a b c) eqn:E3; [|done].
  destruct H. exists (String a (String b (String c EmptyString))), s3.
  split; [by constructor|done].
Qed.

Lemma strip_front_spec_le (n : nat) (s : string) :
  (String.length s ≤ n)%nat →
  ∃ a, blank_of p1 p2 p3 a ∧ s = a +:+ strip_front p1 p2 p3 s ∧
       ¬ begins_of p1 p2 p3 (strip_front p1 p2 p3 s).
Proof.
  revert s. induction n as [|n IH]; intros s Hlen.
  { destruct s; [|cbn in Hlen; lia].
    exists EmptyString. split; [constructor|]. split; [done|].
    intros (w & t & Hw & E). by destruct Hw. }
  assert (∀ s, ¬ begins_of p1 p2 p3 s →
            ∃ a, blank_of p1 p2 p3 a ∧ s = a +:+ s ∧ ¬ begins_of p1 p2 p3 s)
    as Hstop.
  { intros t Ht. exists EmptyString. split; [constructor|done]. }
  destruct s as [|a s1].
  { apply Hstop. intros (w & t & Hw & E). by destruct Hw. }
  cbn in Hlen. cbn [strip_front].
  destruct (p1 a) eqn:E1.
  { destruct (IH s1) as (x & Hx & Es & Hb); [lia|].
    exists (String a EmptyString +:+ x). split; [|split; [|done]].
    - constructor; [by constructor|done].
    - rewrite append_assoc, !append_cons, append_nil_l. by rewrite <- Es. }
  destruct s1 as [|b s2].
  { apply Hstop. intros (w & t & Hw & E).
    destruct Hw; rewrite ?append_cons, ?append_nil_l in E; simplify_eq; congruence. }
  cbn in Hlen.
  destruct (p2 a b) eqn:E2.
  { destruct (IH s2) as (x & Hx & Es & Hb); [lia|].
    exists (String a (String b EmptyString) +:+ x). split; [|split; [|done]].
    - constructor; [by constructor|done].
    - rewrite append_assoc, !append_cons, append_nil_l. by rewrite <- Es. }
  destruct s2 as [|c s3].
  { apply Hstop. intros (w & t & Hw & E).
    destruct Hw; rewrite ?append_cons, ?append_nil_l in E; simplify_eq; congruence. }
  cbn in Hlen.
  destruct (p3 a b c) eqn:E3.
  { destruct (IH s3) as (x & Hx & Es & Hb); [lia|].
    exists (String a (String b (String c EmptyString)) +:+ x).
    split; [|split; [|done]].
    - constructor; [by constructor|done].
    - rewrite append_assoc, !append_cons, append_nil_l. by rewrite <- Es. }
  apply Hstop. intros (w & t & Hw & E).
  destruct Hw; rewrite ?append_cons, ?append_nil_l in E; simplify_eq; congruence.
Qed.

Lemma strip_front_spec (s : string) :
  ∃ a, blank_of p1 p2 p3 a ∧ s = a +:+ strip_front p1 p2 p3 s ∧
       ¬ begins_of p1 p2 p3 (strip_front p1 p2 p3 s).
Proof. by apply (strip_front_spec_le (String.length s)). Qed.

End WhiteSpaceFacts.

Lemma ends_begins_rev (s : string) :
  ends_with_space s
  ↔ begins_of is_space (λ a b, is_space2 b a) (λ a b c, is_space3 c b a)
      (string_rev s).
Proof.
  split.
  - intros (t & w & Hw & ->). exists (string_rev w), (string_rev t).
    split; [|apply string_rev_app].
    destruct Hw as [a H|a b H|a b c H]; by constructor.
  - intros (w & t & Hw & E). exists (string_rev t), (string_rev w). split.
    + by apply space_char_rev in Hw.
    + by rewrite <- string_rev_app, <- E, string_rev_involutive.
Qed.

Lemma lstrip_spec (s : string) :
  ∃ a, blank a ∧ s = a +:+ lstrip s ∧ ¬ begins_with_space (lstrip s).
Proof. apply strip_front_spec. Qed.

Lemma rstrip_spec (s : string) :
  ∃ b, blank b ∧ s = rstrip s +:+ b ∧ ¬ ends_with_space (rstrip s).
Proof.
  unfold rstrip.
  destruct (strip_front_spec is_space (λ a b, is_space2 b a)
              (λ a b c, is_space3 c b a) (string_rev s))
    as (x & Hx & Es & Hb).
  exists (string_rev x). split; [|split].
  - by apply blank_of_rev in Hx.
  - by rewrite <- string_rev_app, <- Es, string_rev_involutive.
  - rewrite ends_begins_rev. by rewrite string_rev_involutive.
Qed.

(** [strip] gives the text trimmed of surrounding white space. *)
Lemma strip_trim (s : string) : trim_of s (strip s).
Proof.
  unfold strip.
  destruct (lstrip_spec s) as (a & Ha & Es & Hbegin).
  destruct (rstrip_spec (lstrip s)) as (b & Hb & El & Hend).
  exists a, b. split; [done|]. split; [done|]. split; [|split; [|done]].
  - by rewrite <- El.
  - intros (w & t & Hw & E). apply Hbegin.
    exists w, (t +:+ b). split; [done|].
    by rewrite El, E, append_assoc.
Qed.

(** A text that neither begins nor ends with white space is left as it
    is. *)
Lemma strip_fixed (t : string) :
  ¬ begins_with_space t → ¬ ends_with_space t → strip t = t.
Proof.
  intros Hb He. unfold strip, lstrip. rewrite strip_front_fixed by done.
  unfold rstrip. rewrite strip_front_fixed.
  - apply string_rev_involutive.
  - by rewrite <- ends_begins_rev.
Qed.

Lemma strip_idem (s : string) : strip (strip s) = strip s.
Proof.
  destruct (strip_trim s) as (a & b & _ & _ & _ & Hb & He).
  by apply strip_fixed.
Qed.

(** ** Facts on the steps of [load_data] *)

Section PreparationFacts.

Variable parse_number : string → option Q.
Variable repr_number : Q → string.
Variable to_datetime : list cell → option (list cell).
Variable times : Z → list cell → Q → Q.

Local Abbreviation coerce := (coerce parse_number).
Local Abbreviation spec_number := (spec_number parse_number).
Local Abbreviation cleaned := (cleaned repr_number).
Local Abbreviation convert_date := (convert_date to_datetime).
Local Abbreviation convert_dates := (convert_dates to_datetime).
Local Abbreviation clean_text := (clean_text repr_number).
Local Abbreviation clean_texts := (clean_texts repr_number).
Local Abbreviation process :=
  (process parse_number repr_number to_datetime times).
Local Abbreviation load_data :=
  (load_data parse_number repr_number to_datetime times).
Local Abbreviation text_step := (text_step repr_number).
Local Abbreviation spec_single_source := (spec_single_source parse_number).
Local Abbreviation spec_unit_priority :=
  (spec_unit_priority parse_number times).
Local Abbreviation numbers_from := (numbers_from parse_number times).
Local Abbreviation with_numbers := (with_numbers parse_number times).
Local Abbreviation processed_from :=
  (processed_from parse_number repr_number times).

Lemma convert_date_spec (df : DataFrame) (col : string) :
  columns (convert_date df col) = columns df ∧
  Forall2 (agree_off [col]) (records df) (records (convert_date df col)).
Proof.
  unfold convert_date. pose proof (Forall2_agree_refl [col] (records df)).
  case_decide; [|done].
  destruct (to_datetime (column col df)) as [vs|]; [|done]. simpl.
  split; [by apply add_column_present | apply set_values_agree].
Qed.

Lemma convert_dates_spec (df : DataFrame) :
  columns (convert_dates df) = columns df ∧
  Forall2 (agree_off date_columns) (records df) (records (convert_dates df)).
Proof.
  unfold convert_dates, date_columns. simpl.
  set (d1 := convert_date df "FileDate").
  set (d2 := convert_date d1 "OffenseDate").
  destruct (convert_date_spec df "FileDate") as [C1 R1].
  destruct (convert_date_spec d1 "OffenseDate") as [C2 R2].
  destruct (convert_date_spec d2 "DispositionDate") as [C3 R3].
  fold d1 in C1, R1. fold d2 in C2, R2.
  split; [congruence|].
  exact (Forall2_agree_trans _ _ _ _ _ R1 (Forall2_agree_trans _ _ _ _ _ R2 R3)).
Qed.

(** After the text clean-up a listed column that the frame has holds the
    trimmed text of its cell, and every other cell is as before. *)
Lemma clean_texts_fold (l : list string) (df : DataFrame) :
  NoDup l →
  columns (foldl clean_text df l) = columns df ∧
  Forall2 (λ r r', ∀ k,
             r' !! k = if decide (k ∈ l ∧ k ∈ columns df)
                       then Some (cleaned (get k r)) else r !! k)
    (records df) (records (foldl clean_text df l)).
Proof.
  revert df. induction l as [|c l IH]; intros df Hnd; cbn [foldl].
  { split; [done|]. apply Forall_Forall2_diag, list.Forall_forall.
    intros r _ k. case_decide as H; [|done].
    destruct H as [H _]. by apply elem_of_nil in H. }
  apply list.NoDup_cons in Hnd as [Hc Hnd].
  destruct (IH (clean_text df c) Hnd) as [Hcols Hrows].
  assert (columns (clean_text df c) = columns df) as Hcols1.
  { unfold clean_text. case_decide; [|done]. by apply add_column_present. }
  split; [congruence|]. rewrite Hcols1 in Hrows.
  assert (Forall2 (λ r r1, ∀ k,
              r1 !! k = if decide (k = c ∧ k ∈ columns df)
                        then Some (cleaned (get k r)) else r !! k)
            (records df) (records (clean_text df c))) as Hstep.
  { unfold clean_text. case_decide as Hin; cbn [records assign].
    - apply Forall2_fmap_r, Forall_Forall2_diag, list.Forall_forall.
      intros r _ k. case_decide as H.
      + destruct H as [-> _]. by rewrite lookup_insert_eq.
      + rewrite lookup_insert_ne; [done|]. intros <-. by apply H.
    - apply Forall_Forall2_diag, list.Forall_forall.
      intros r _ k. case_decide as H; [|done]. destruct H as [-> ?]. done. }
  eapply list.Forall2_trans; [|exact Hstep|exact Hrows].
  simpl. intros r r1 r2 H1 H2 k. rewrite H2.
  destruct (decide (k = c)) as [->|Hne].
  - rewrite (decide_False (P := c ∈ l ∧ _)) by tauto.
    rewrite H1. apply decide_ext. rewrite elem_of_cons. tauto.
  - assert (get k r1 = get k r) as ->.
    { apply get_lookup. rewrite H1. rewrite decide_False; tauto. }
    rewrite H1. rewrite (decide_False (P := k = c ∧ _)) by tauto.
    apply decide_ext. rewrite elem_of_cons. tauto.
Qed.

Lemma text_columns_NoDup : NoDup text_columns.
Proof. apply (bool_decide_unpack (NoDup text_columns)). vm_compute. exact I. Qed.

Lemma clean_texts_spec (df : DataFrame) :
  columns (clean_texts df) = columns df ∧
  Forall2 (λ r r', ∀ k,
             r' !! k = if decide (k ∈ text_columns ∧ k ∈ columns df)
                       then Some (cleaned (get k r)) else r !! k)
    (records df) (records (clean_texts df)).
Proof. apply clean_texts_fold, text_columns_NoDup. Qed.

(** [to_numeric(...).fillna(0)] gives the number of the cell. *)
Lemma coerce_spec_number (c : string) (r : gmap string cell) :
  coerce c r = spec_number (get c r).
Proof.
  unfold coerce, spec_number, to_numeric, fillna0.
  by destruct (get c r) as [q| |s|[|]].
Qed.

Lemma jail_days_eq (df : DataFrame) :
  jail_days parse_number df
  = assign "Jail_Days" (λ r, CNum (spec_single_source df "MaxCnfmnt_Days" r))
      df.
Proof.
  unfold jail_days, spec_single_source. case_decide; [|done].
  apply assign_ext. intros r. by rewrite coerce_spec_number.
Qed.

Lemma probation_days_eq (df : DataFrame) :
  probation_days parse_number times df
  = assign "Probation_Days_Clean"
      (λ r, CNum (spec_unit_priority df "Probation_Days" "Probation_Mths"
                    "Probation_Yrs" r)) df.
Proof.
  unfold probation_days, spec_unit_priority.
  repeat case_decide; try done; apply assign_ext; intros r;
    by rewrite coerce_spec_number.
Qed.

Lemma community_control_days_eq (df : DataFrame) :
  community_control_days parse_number times df
  = assign "CommunityControl_Days"
      (λ r, CNum (spec_unit_priority df "ComCntrl_Days" "ComCntrl_Mths"
                    "ComCntrl_Yrs" r)) df.
Proof.
  unfold community_control_days, spec_unit_priority.
  repeat case_decide; try done; apply assign_ext; intros r;
    by rewrite coerce_spec_number.
Qed.

Lemma community_service_hours_eq (df : DataFrame) :
  community_service_hours parse_number df
  = assign "CommunityService_Hours"
      (λ r, CNum (spec_single_source df "CommunityService" r)) df.
Proof.
  unfold community_service_hours, spec_single_source. case_decide; [|done].
  apply assign_ext. intros r. by rewrite coerce_spec_number.
Qed.

Lemma with_numbers_spec (df : DataFrame) :
  columns (with_numbers df)
  = add_column "CommunityService_Hours"
      (add_column "CommunityControl_Days"
         (add_column "Probation_Days_Clean"
            (add_column "Jail_Days" (columns df)))) ∧
  Forall2 (numbers_from df) (records df) (records (with_numbers df)).
Proof.
  unfold with_numbers.
  rewrite jail_days_eq. set (d1 := assign "Jail_Days" _ df).
  rewrite probation_days_eq. set (d2 := assign "Probation_Days_Clean" _ d1).
  rewrite community_control_days_eq.
  set (d3 := assign "CommunityControl_Days" _ d2).
  rewrite community_service_hours_eq.
  split; [done|].
  assert (∀ k, k ≠ "Jail_Days" → column k d1 = column k df) as K1.
  { intros k ?. by apply column_assign_ne. }
  assert (∀ k, k ≠ "Jail_Days" → k ≠ "Probation_Days_Clean" →
               column k d2 = column k df) as K2.
  { intros k ??. unfold d2. rewrite column_assign_ne by done. by apply K1. }
  unfold d3 at 2, d2 at 2, d1 at 2. cbn [records assign].
  rewrite <- !list_fmap_compose.
  apply Forall2_fmap_r, Forall_Forall2_diag, list.Forall_forall.
  intros r _. cbn [compose].
  split; unfold spec_single_source, spec_unit_priority;
    cbn [columns d3 d2 d1 assign];
    rewrite ?decide_add_column by done;
    rewrite ?K2, ?K1 by done;
    rewrite ?get_insert_ne by done;
    rewrite ?lookup_insert_ne by done; rewrite ?lookup_insert_eq; try done.
  - intros k Hk. unfold rounded_columns in Hk.
    rewrite !elem_of_cons, elem_of_nil in Hk.
    rewrite !lookup_insert_ne; [done|intros <-; tauto..].
Qed.

Lemma joined_name_inv (r : gmap string cell) (a b : string) (w : cell) :
  get "Judge_First_Name" r = CStr a →
  get "Judge_Last_Name" r = CStr b →
  joined_name r = Some w →
  w = CStr (a +:+ " "
            +:+ text_of (fillna_text EmptyString (get "Judge_Middle_Intial" r))
            +:+ " " +:+ b).
Proof.
  unfold joined_name. intros -> ->.
  destruct (get "Judge_Middle_Intial" r) as [q| |m|m]; simpl;
    intros; simplify_eq; try done.
  all: by rewrite !append_assoc.
Qed.

Lemma replace_text_normalize (t : string) :
  replace_text ["nan"; "NaN"; EmptyString] "Unknown" (CStr t)
  = CStr (spec_normalize t).
Proof. unfold replace_text, spec_normalize. by case_decide. Qed.

Lemma agree_off_insert (c : string) (v : cell) (r : gmap string cell) :
  agree_off [c] r (<[c := v]> r).
Proof.
  intros k Hk. rewrite lookup_insert_ne; [done|].
  intros ->. apply Hk, list_elem_of_singleton. done.
Qed.

Lemma judge_step_spec (df d : DataFrame) :
  judge_full_name df = Some d →
  columns (clean_judge_names d) = add_column "Judge_Full_Name" (columns df) ∧
  Forall2 (name_step (columns df)) (records df)
    (records (clean_judge_names d)).
Proof.
  unfold judge_full_name, clean_judge_names, name_step.
  destruct (decide (Forall (λ c, c ∈ columns df) judge_parts)) as [Hp|Hp];
    [|destruct (decide ("Judge" ∈ columns df)) as [Hj|Hj]].
  - destruct (try_assign "Judge_Full_Name" joined_name df) as [d0|] eqn:H0;
      intros; simplify_eq/=.
    apply try_assign_inv in H0 as [C0 R0]. rewrite C0. split.
    { by rewrite !add_column_idem. }
    rewrite <- list_fmap_compose. apply Forall2_fmap_r.
    apply (list.Forall2_impl _ _ _ _ R0).
    intros r r0 (w & Hw & ->). cbn [compose]. split.
    + intros k Hk. apply list.not_elem_of_cons in Hk as [Hk _].
      by rewrite !lookup_insert_ne.
    + eexists. split; [apply lookup_insert_eq|].
      rewrite !get_insert. eauto.
  - intros; simplify_eq/=. split.
    { by rewrite !add_column_idem. }
    rewrite <- list_fmap_compose.
    apply Forall2_fmap_r, Forall_Forall2_diag, list.Forall_forall.
    intros r _. cbn [compose]. split.
    + intros k Hk. apply list.not_elem_of_cons in Hk as [Hk _].
      by rewrite !lookup_insert_ne.
    + eexists. split; [apply lookup_insert_eq|]. by rewrite !get_insert.
  - intros; simplify_eq/=. split.
    { by rewrite !add_column_idem. }
    rewrite <- list_fmap_compose.
    apply Forall2_fmap_r, Forall_Forall2_diag, list.Forall_forall.
    intros r _. cbn [compose]. split.
    + intros k Hk. apply list.not_elem_of_cons in Hk as [Hk _].
      by rewrite !lookup_insert_ne.
    + eexists. split; [apply lookup_insert_eq|]. by rewrite !get_insert.
Qed.

Lemma processed_row (raw df3 : DataFrame) (cols8 : list string)
    (r r2 r3 r7 r8 r' : gmap string cell) :
  columns df3 = columns raw →
  (∀ k, k ∉ date_columns → k ∉ text_columns →
        column k df3 = column k raw) →
  (∀ k, k ∉ derived_columns → k ∈ cols8 ↔ k ∈ columns raw) →
  agree_off date_columns r r2 → text_step (columns raw) r2 r3 →
  numbers_from df3 r3 r7 → flag_step r7 r8 → name_step cols8 r8 r' →
  processed_from raw r r'.
Proof.
  intros Hc3 Hcol Hcols H12 H23 H37 (v & Hv & ->) [H89 (n & Hn & Hname)].
  assert (∀ k, k ∉ date_columns → k ∉ text_columns → r3 !! k = r !! k)
    as Hsame.
  { intros k ??. rewrite H23, decide_False by tauto. by apply H12. }
  assert (∀ k, k ∉ date_columns → k ∈ text_columns → k ∈ (columns raw) →
               r3 !! k = Some (cleaned (get k r))) as Htext.
  { intros k ???. rewrite H23, decide_True by tauto.
    by rewrite (get_lookup k r r2) by by apply H12. }
  assert (∀ k, k ∉ derived_columns → r' !! k = r3 !! k) as Hkeep.
  { intros k Hk. unfold derived_columns in Hk.
    rewrite !list.not_elem_of_cons in Hk.
    rewrite (agree_off_single _ _ _ _ H89) by tauto.
    rewrite lookup_insert_ne by (intros <-; tauto).
    apply (nf_rest _ _ _ _ _ H37). unfold rounded_columns.
    rewrite !list.not_elem_of_cons. tauto. }
  assert (∀ src, src ∉ date_columns → src ∉ text_columns →
            spec_single_source df3 src r3 = spec_single_source raw src r)
    as Hsingle.
  { intros src ??. unfold spec_single_source. rewrite Hc3.
    by rewrite (get_lookup src r r3) by by apply Hsame. }
  assert (∀ a b c, a ∉ date_columns → a ∉ text_columns →
            b ∉ date_columns → b ∉ text_columns →
            c ∉ date_columns → c ∉ text_columns →
            spec_unit_priority df3 a b c r3 = spec_unit_priority raw a b c r)
    as Hunit.
  { intros a b c ??????. unfold spec_unit_priority.
    rewrite Hc3, (Hcol b), (Hcol c) by done.
    by rewrite (get_lookup a r r3), (get_lookup b r r3), (get_lookup c r r3)
      by by apply Hsame. }
  destruct H37 as [Hj Hp Hc Hs Hrest].
  rewrite Hsingle in Hj, Hs by closed_list.
  rewrite Hunit in Hp, Hc by closed_list.
  assert (∀ k x, k ≠ "Judge_Full_Name" → k ≠ "Has_Sentence" →
            r7 !! k = Some x → r' !! k = Some x) as Hup.
  { intros k x ?? <-.
    rewrite (agree_off_single _ _ _ _ H89) by done.
    by rewrite lookup_insert_ne. }
  split; [split|].
  - by apply Hup.
  - by apply Hup.
  - by apply Hup.
  - by apply Hup.
  - rewrite (agree_off_single _ _ _ _ H89) by done. rewrite lookup_insert_eq.
    unfold has_sentence_cell, get in Hv.
    rewrite Hj, Hp, Hc, Hs in Hv. simpl in Hv. by simplify_eq.
  - rewrite Hn. unfold spec_judge_full_name.
    assert (∀ k, k ≠ "Has_Sentence" → k ∉ rounded_columns →
              get k (<["Has_Sentence":=v]> r7) = get k r3) as Hget.
    { intros k ??. rewrite get_insert_ne by done. by apply get_lookup, Hrest. }
    rewrite <- (decide_ext (Forall (λ c, c ∈ cols8) judge_parts)
                  (Forall (λ c, c ∈ (columns raw)) judge_parts)).
    2:{ unfold judge_parts. rewrite !list.Forall_cons, !list.Forall_nil.
        rewrite !Hcols by closed_list. done. }
    rewrite <- (decide_ext ("Judge" ∈ cols8) ("Judge" ∈ (columns raw)))
      by (by rewrite Hcols by closed_list).
    destruct (decide (Forall (λ c, c ∈ cols8) judge_parts)) as [Hparts|_];
      [|destruct (decide ("Judge" ∈ cols8)) as [Hjudge|_]].
    + destruct Hname as (w & Hw & ->).
      unfold judge_parts in Hparts.
      rewrite !list.Forall_cons, !Hcols in Hparts by closed_list.
      destruct Hparts as (Hfirst & _ & Hlast & _).
      apply (joined_name_inv _
               (strip (astype_str repr_number (get "Judge_First_Name" r)))
               (strip (astype_str repr_number (get "Judge_Last_Name" r))))
        in Hw.
      * rewrite Hw. cbn [str_strip]. rewrite replace_text_normalize.
        rewrite (Hget "Judge_Middle_Intial") by closed_list.
        rewrite (get_lookup "Judge_Middle_Intial" r r3)
          by (apply Hsame; closed_list).
        done.
      * rewrite Hget by closed_list. unfold get at 1.
        rewrite Htext; [done|closed_list..|done].
      * rewrite Hget by closed_list. unfold get at 1.
        rewrite Htext; [done|closed_list..|done].
    + rewrite Hname, Hget by closed_list. unfold get at 1.
      rewrite Hcols in Hjudge by closed_list.
      rewrite Htext; [|closed_list..|done].
      apply f_equal, replace_text_normalize.
    + rewrite Hname. apply f_equal, replace_text_normalize.
  - intros k Hk Hdate. rewrite Hkeep by done. rewrite H23.
    destruct (decide (k ∈ text_columns ∧ k ∈ (columns raw))); [|by apply H12].
    by rewrite (get_lookup k r r2) by by apply H12.
Qed.

(** [process], when it raises nothing, applies the preparation rules to
    every record of the frame, in order, and adds the derived columns. *)
Lemma process_rows (df out : DataFrame) :
  process df = Some out →
  (∀ k, k ∈ columns out
        ↔ k ∈ derived_columns ∨ k ∈ columns (clean_columns df)) ∧
  Forall2 (processed_from (clean_columns df))
    (records (clean_columns df)) (records out).
Proof.
  unfold process. cbv zeta.
  generalize (clean_columns df). intros df1.
  case_decide as Hnd; [|done].
  generalize (convert_dates_spec df1).
  generalize (convert_dates df1). intros df2 [C2 R12].
  generalize (clean_texts_spec df2).
  generalize (clean_texts df2). intros df3 [C3 R23].
  generalize (with_numbers_spec df3). unfold with_numbers.
  generalize (community_service_hours parse_number
                (community_control_days parse_number times
                   (probation_days parse_number times
                      (jail_days parse_number df3)))).
  intros df7 [C7 R37]. unfold has_sentence.
  destruct (try_assign "Has_Sentence" _ df7) as [df8|] eqn:H8; [|done].
  cbn [mbind option_bind].
  destruct (judge_full_name df8) as [df9|] eqn:H9; [|done].
  cbn [mbind option_bind].
  intros [= <-].
  apply try_assign_inv in H8 as [C8 R78].
  apply judge_step_spec in H9 as [C9 R89].
  assert (∀ k, k ∈ columns (clean_judge_names df9)
               ↔ k ∈ derived_columns ∨ k ∈ columns df1) as Hcols.
  { intros k. rewrite C9, C8, C7, C3, C2. unfold derived_columns.
    rewrite !elem_of_add_column, !elem_of_cons, elem_of_nil. tauto. }
  split; [done|].
  change (Forall2 (text_step (columns df2)) (records df2) (records df3))
    in R23.
  rewrite C2 in R23.
  assert (∀ k, k ∉ date_columns → k ∉ text_columns →
               column k df3 = column k df1) as Hcol.
  { intros k ??. apply column_agree.
    apply (list.Forall2_impl _ _ _ _ (Forall2_compose _ _ _ _ _ R12 R23)).
    intros r r3 (r2 & H12 & H23). rewrite H23, decide_False by tauto.
    by apply H12. }
  pose proof (Forall2_compose _ _ _ _ _
    (Forall2_compose _ _ _ _ _
       (Forall2_compose _ _ _ _ _
          (Forall2_compose _ _ _ _ _ R12 R23) R37) R78) R89) as R.
  apply (list.Forall2_impl _ _ _ _ R).
  intros r r' (r8 & (r7 & (r3 & (r2 & H12 & H23) & H37) & H78) & H89).
  apply (processed_row df1 df3 (columns df8) r r2 r3 r7 r8 r');
    [congruence|exact Hcol| |assumption..].
  intros k Hk. rewrite C8, C7, C3, C2.
  unfold derived_columns in Hk. rewrite !list.not_elem_of_cons in Hk.
  rewrite !elem_of_add_column. clear -Hk. tauto.
Qed.

Lemma spec_normalize_known (t : string) :
  spec_normalize t ∉ ["nan"; "NaN"; EmptyString].
Proof.
  unfold spec_normalize. case_decide; [closed_list | done].
Qed.

Lemma processed_prepared (df : DataFrame) (r r' : gmap string cell) :
  processed_from df r r' → prepared_record r'.
Proof.
  intros [[Hj Hp Hc Hs Hf Hn] _]. split.
  - eauto 10.
  - eexists. split; [exact Hn|]. apply spec_normalize_known.
Qed.

Lemma sample_prepared : prepared create_sample_data.
Proof.
  split.
  - closed_list.
  - unfold create_sample_data. cbn [records].
    repeat apply List.Forall_cons; try apply List.Forall_nil.
    all: split;
      [ eexists _, _, _, _; repeat split; vm_compute; reflexivity
      | eexists; split; [vm_compute; reflexivity | closed_list] ].
Qed.

Lemma process_prepared (df out : DataFrame) :
  process df = Some out → prepared out.
Proof.
  intros H. apply process_rows in H as [Hcols Hrows]. split.
  - apply list.Forall_forall. intros k Hk. apply Hcols. by left.
  - apply (Forall2_Forall_r _ _ _ _ Hrows), list.Forall_forall.
    intros r _ r'. apply processed_prepared.
Qed.

Lemma load_data_prepared (src : source) : prepared (load_data src).
Proof.
  destruct src as [| |df]; cbn [load_data]; try apply sample_prepared.
  case_decide; [apply sample_prepared|].
  destruct (process df) as [out|] eqn:Hout; cbn [default];
    [by apply process_prepared in Hout | apply sample_prepared].
Qed.

Lemma try_assign_is_Some (c : string) (f : gmap string cell → option cell)
    (df : DataFrame) :
  Forall (λ r, is_Some (f r)) (records df) → is_Some (try_assign c f df).
Proof.
  intros H. rewrite (try_assign_Some c f (λ r, default CNaN (f r))); [done|].
  rewrite list.Forall_forall in H. intros r Hr.
  by destruct (H r Hr) as [v ->].
Qed.

Lemma has_sentence_cell_is_Some (df : DataFrame) (r r' : gmap string cell) :
  numbers_from df r r' → is_Some (has_sentence_cell r').
Proof.
  intros [Hj Hp Hc Hs _]. unfold has_sentence_cell, get.
  by rewrite Hj, Hp, Hc, Hs.
Qed.

Lemma joined_name_is_Some (r : gmap string cell) (a b : string) :
  get "Judge_First_Name" r = CStr a → get "Judge_Last_Name" r = CStr b →
  text_middle (get "Judge_Middle_Intial" r) →
  is_Some (joined_name r).
Proof.
  unfold joined_name, text_middle. intros -> ->.
  by destruct (get "Judge_Middle_Intial" r).
Qed.

(** [process] raises only on a header with a doubled name and where it
    joins the three parts of the name: on another header it completes
    when the frame lacks one of the three columns and when every middle
    initial is a text or is missing. *)
Lemma process_completes (df : DataFrame) :
  NoDup (columns (clean_columns df)) →
  ¬ Forall (λ c, c ∈ columns (clean_columns df)) judge_parts ∨
  Forall (λ r, text_middle (get "Judge_Middle_Intial" r))
    (records (clean_columns df)) →
  is_Some (process df).
Proof.
  unfold process. cbv zeta.
  generalize (clean_columns df). intros df1 Hnd Hmid.
  rewrite decide_True by done.
  generalize (convert_dates_spec df1).
  generalize (convert_dates df1). intros df2 [C2 R12].
  generalize (clean_texts_spec df2).
  generalize (clean_texts df2). intros df3 [C3 R23].
  generalize (with_numbers_spec df3). unfold with_numbers.
  generalize (community_service_hours parse_number
                (community_control_days parse_number times
                   (probation_days parse_number times
                      (jail_days parse_number df3)))).
  intros df7 [C7 R37]. unfold has_sentence.
  destruct (try_assign "Has_Sentence" _ df7) as [df8|] eqn:H8.
  2:{ assert (is_Some (try_assign "Has_Sentence" has_sentence_cell df7)) as Hs.
      { apply try_assign_is_Some, (Forall2_Forall_r _ _ _ _ R37).
        apply list.Forall_forall. intros r _ r'.
        apply has_sentence_cell_is_Some. }
      rewrite H8 in Hs. by destruct Hs. }
  cbn [mbind option_bind].
  apply try_assign_inv in H8 as [C8 R78].
  assert (∀ k, k ∉ derived_columns → k ∈ columns df8 ↔ k ∈ columns df1)
    as Hcols.
  { intros k Hk. rewrite C8, C7, C3, C2.
    unfold derived_columns in Hk. rewrite !list.not_elem_of_cons in Hk.
    rewrite !elem_of_add_column. clear -Hk. tauto. }
  assert (is_Some (judge_full_name df8)) as [df9 ->]; [|done].
  unfold judge_full_name.
  destruct (decide (Forall (λ c, c ∈ columns df8) judge_parts)) as [Hparts|_];
    [|by case_decide].
  assert (Forall (λ c, c ∈ columns df1) judge_parts) as Hparts1.
  { unfold judge_parts in Hparts |- *.
    rewrite !list.Forall_cons, !list.Forall_nil in Hparts |- *.
    rewrite !Hcols in Hparts by closed_list. exact Hparts. }
  destruct Hmid as [Hmid|Hmid]; [done|].
  assert (is_Some (try_assign "Judge_Full_Name" joined_name df8)) as [d ->];
    [|done].
  apply try_assign_is_Some.
  change (Forall2 (text_step (columns df2)) (records df2) (records df3)) in R23.
  rewrite C2 in R23.
  pose proof (Forall2_compose _ _ _ _ _
    (Forall2_compose _ _ _ _ _
       (Forall2_compose _ _ _ _ _ R12 R23) R37) R78) as R.
  apply (Forall2_Forall_r _ _ _ _ R).
  apply (list.Forall_impl _ _ _ Hmid).
  intros r Hr r8 (r7 & (r3 & (r2 & H12 & H23) & H37) & (v & _ & ->)).
  unfold judge_parts in Hparts1. rewrite !list.Forall_cons in Hparts1.
  destruct Hparts1 as (Hfirst & _ & Hlast & _).
  assert (∀ k, k ≠ "Has_Sentence" → k ∉ rounded_columns →
            get k (<["Has_Sentence":=v]> r7) = get k r3) as Hget.
  { intros k ??. rewrite get_insert_ne by done.
    by apply get_lookup, (nf_rest _ _ _ _ _ H37). }
  apply (joined_name_is_Some _
           (strip (astype_str repr_number (get "Judge_First_Name" r)))
           (strip (astype_str repr_number (get "Judge_Last_Name" r)))).
  - rewrite Hget by closed_list. unfold get at 1.
    rewrite H23, decide_True by (split; [closed_list|done]).
    by rewrite (get_lookup "Judge_First_Name" r r2)
      by (apply H12; closed_list).
  - rewrite Hget by closed_list. unfold get at 1.
    rewrite H23, decide_True by (split; [closed_list|done]).
    by rewrite (get_lookup "Judge_Last_Name" r r2)
      by (apply H12; closed_list).
  - rewrite Hget by closed_list.
    rewrite (get_lookup "Judge_Middle_Intial" r2 r3).
    + by rewrite (get_lookup "Judge_Middle_Intial" r r2)
        by (apply H12; closed_list).
    + rewrite H23. rewrite decide_False; [done|].
      intros [Hin _]. revert Hin. closed_list.
Qed.

End PreparationFacts.

(** ** Claims on preparation *)

Lemma sources_nonnegb_spec (parse_number : string → option Q) (src : source) :
  sources_nonnegb parse_number src = true → sources_nonneg parse_number src.
Proof.
  destruct src as [| |df]; [done..|]. cbn [sources_nonnegb sources_nonneg].
  intros H r c Hr Hc. rewrite forallb_forall in H.
  apply list_elem_of_In, H in Hr. rewrite forallb_forall in Hr.
  apply list_elem_of_In, Hr in Hc. by apply Qle_bool_iff.
Qed.

Lemma sources_belowb_spec (parse_number : string → option Q) (src : source) :
  sources_belowb parse_number src = true → sources_below parse_number src.
Proof.
  destruct src as [| |df]; [done..|]. cbn [sources_belowb sources_below].
  intros H r c k Hr Hc. rewrite forallb_forall in H.
  apply list_elem_of_In, H in Hr. rewrite forallb_forall in Hr.
  apply list_elem_of_In, Hr in Hc. cbn [fst snd] in Hc.
  apply negb_true_iff, not_true_iff_false in Hc.
  apply Qnot_le_lt. intros Hle. by apply Hc, Qle_bool_iff.
Qed.

Lemma Qpositive_lt (q : Q) : Qpositive q = true ↔ (0 < q)%Q.
Proof.
  unfold Qpositive. rewrite negb_true_iff, <- not_true_iff_false, Qle_bool_iff.
  split; [apply Qnot_le_lt | apply Qlt_not_le].
Qed.

Lemma spec_has_sentence_true (jail prob cc cs : Q) :
  spec_has_sentence jail prob cc cs = true
  ↔ (0 < jail ∨ 0 < prob ∨ 0 < cc ∨ 0 < cs)%Q.
Proof.
  unfold spec_has_sentence. rewrite !orb_true_iff, !Qpositive_lt. tauto.
Qed.

(** The stand-in of the product is exact where the parameter is assumed
    to be, and keeps the sign where the parameter is assumed to. *)
Lemma wrap64_small (z : Z) :
  (- 2 ^ 63 ≤ z < 2 ^ 63)%Z → wrap64 z = z.
Proof. intros H. unfold wrap64. rewrite Z.mod_small; lia. Qed.

Lemma Qfloor_whole (q : Q) (z : Z) : (q == inject_Z z)%Q → Qfloor q = z.
Proof. intros ->. apply Qfloor_Z. Qed.

Lemma example_times_exact : exact_products example_times.
Proof.
  intros k col q z Hq Hle. unfold example_times.
  destruct (forallb _ col).
  - rewrite (Qfloor_whole q z Hq), wrap64_small; [reflexivity|].
    assert (2 ^ 53 < 2 ^ 63)%Z by reflexivity. lia.
  - by rewrite Hq, <- inject_Z_mult.
Qed.

Lemma example_times_sign : sign_products example_times.
Proof.
  intros k col q Hk Hq Hlt. unfold example_times.
  destruct (forallb _ col).
  - assert (0 ≤ Qfloor q)%Z as Hf.
    { change 0%Z with (Qfloor 0). by apply Qfloor_resp_le. }
    assert (inject_Z (Qfloor q * k) < inject_Z (2 ^ 63))%Q as Hb.
    { eapply Qle_lt_trans; [|exact Hlt]. rewrite inject_Z_mult.
      apply Qmult_le_compat_r; [apply Qfloor_le|].
      change 0%Q with (inject_Z 0). by rewrite <- Zle_Qle. }
    rewrite <- Zlt_Qlt in Hb.
    rewrite wrap64_small by nia.
    change 0%Q with (inject_Z 0). rewrite <- Zle_Qle. nia.
  - apply Qmult_le_0_compat; [done|].
    change 0%Q with (inject_Z 0). by rewrite <- Zle_Qle.
Qed.

Section PreparationClaims.

Variable parse_number : string → option Q.
Variable repr_number : Q → string.
Variable to_datetime : list cell → option (list cell).
Variable times : Z → list cell → Q → Q.

Local Abbreviation coerce := (coerce parse_number).
Local Abbreviation spec_number := (spec_number parse_number).
Local Abbreviation spec_single_source := (spec_single_source parse_number).
Local Abbreviation spec_unit_priority :=
  (spec_unit_priority parse_number times).
Local Abbreviation spec_unit_exact := (spec_unit_exact parse_number).
Local Abbreviation unit_rule := (unit_rule parse_number times).
Local Abbreviation process :=
  (process parse_number repr_number to_datetime times).
Local Abbreviation load_data :=
  (load_data parse_number repr_number to_datetime times).

Lemma load_data_processed (df out : DataFrame) :
  len df ≠ 0%nat → process df = Some out → load_data (Loaded df) = out.
Proof.
  intros Hlen Hout. unfold load_data.
  rewrite decide_False by done. by rewrite Hout.
Qed.

(** [load_data] returns what [process] makes of an accepted file. *)
Lemma load_data_accepted (df : DataFrame) :
  accepted df →
  ∃ out, process df = Some out ∧ load_data (Loaded df) = out ∧
         Forall2 (processed_from parse_number repr_number times
                    (clean_columns df))
           (records (clean_columns df)) (records out).
Proof.
  intros (Hlen & Hnd & Hmid).
  destruct (process_completes parse_number repr_number to_datetime times
              df Hnd Hmid) as [out Hout].
  exists out. split; [done|]. split; [by apply load_data_processed|].
  by apply process_rows in Hout as [_ Hrows].
Qed.

(** C1. In every record of a prepared table the four derived fields are
    numbers and [Has_Sentence] is a boolean that is true if and only if
    one of the four numbers is strictly greater than zero: false when all
    four are zero, true when one of them is 1.  The prepared table of an
    accepted file is what [process] makes of it, record by record, and
    the flag of each record is computed from the four numbers that the
    preparation rules give for the record of the file. *)
Theorem has_sentence_iff_positive (src : source) :
  (∀ r, r ∈ records (load_data src) →
     ∃ (jail prob cc cs : Q) (b : bool),
       r !! "Jail_Days" = Some (CNum jail) ∧
       r !! "Probation_Days_Clean" = Some (CNum prob) ∧
       r !! "CommunityControl_Days" = Some (CNum cc) ∧
       r !! "CommunityService_Hours" = Some (CNum cs) ∧
       r !! "Has_Sentence" = Some (CBool b) ∧
       (b = true ↔ (0 < jail ∨ 0 < prob ∨ 0 < cc ∨ 0 < cs)%Q) ∧
       (jail == 0 → prob == 0 → cc == 0 → cs == 0 → b = false)%Q ∧
       (jail == 1 ∨ prob == 1 ∨ cc == 1 ∨ cs == 1 → b = true)%Q) ∧
  (∀ df, src = Loaded df → accepted df →
     ∃ out, process df = Some out ∧ load_data src = out ∧
       Forall2
         (λ r r',
            r' !! "Has_Sentence"
            = Some (CBool
                      (spec_has_sentence
                         (spec_single_source (clean_columns df)
                            "MaxCnfmnt_Days" r)
                         (spec_unit_priority (clean_columns df)
                            "Probation_Days" "Probation_Mths"
                            "Probation_Yrs" r)
                         (spec_unit_priority (clean_columns df)
                            "ComCntrl_Days" "ComCntrl_Mths" "ComCntrl_Yrs" r)
                         (spec_single_source (clean_columns df)
                            "CommunityService" r))))
         (records (clean_columns df)) (records out)).
Proof.
  split.
  - intros r Hr.
    destruct (load_data_prepared parse_number repr_number to_datetime times
                src) as [_ Hrows].
    rewrite list.Forall_forall in Hrows.
    destruct (Hrows r Hr)
      as [(jail & prob & cc & cs & Hj & Hp & Hc & Hs & Hb) _].
    exists jail, prob, cc, cs, (spec_has_sentence jail prob cc cs).
    do 5 (split; [assumption|]).
    split; [apply spec_has_sentence_true|]. split.
    + intros Ej Ep Ec Es. apply not_true_iff_false.
      rewrite spec_has_sentence_true, Ej, Ep, Ec, Es.
      intros [H|[H|[H|H]]]; by apply Qlt_irrefl in H.
    + intros H. apply spec_has_sentence_true.
      destruct H as [E|[E|[E|E]]]; rewrite E;
        [left | right; left | right; right; left | right; right; right];
        reflexivity.
  - intros df -> Hacc.
    destruct (load_data_accepted df Hacc) as (out & Hout & Hload & Hrows).
    exists out. split; [done|]. split; [done|].
    apply (list.Forall2_impl _ _ _ _ Hrows).
    by intros r r' [[_ _ _ _ Hf _] _].
Qed.

Lemma unit_rule_holds (df : DataFrame) (days mths yrs : string)
    (r : gmap string cell) :
  exact_products times →
  unit_rule df days mths yrs r (spec_unit_priority df days mths yrs r).
Proof.
  intros Hexact. split; [done|]. split.
  - intros Hin. unfold spec_unit_priority. by rewrite decide_True.
  - intros (m & Hm & Hmle) (y & Hy & Hyle).
    unfold spec_unit_priority, spec_unit_exact.
    repeat case_decide; try reflexivity.
    + rewrite (Hexact 30%Z _ _ m Hm) by lia.
      by rewrite Hm, inject_Z_mult.
    + rewrite (Hexact 365%Z _ _ y Hy) by lia.
      by rewrite Hy, inject_Z_mult.
Qed.


Lemma spec_single_source_nonneg (df : DataFrame) (c : string)
    (r : gmap string cell) :
  (0 <= spec_number (get c r))%Q → (0 <= spec_single_source df c r)%Q.
Proof.
  intros H. unfold spec_single_source. case_decide; [done|apply Qle_refl].
Qed.

Lemma spec_unit_priority_nonneg (df : DataFrame) (a b c : string)
    (r : gmap string cell) :
  sign_products times →
  (0 <= spec_number (get a r))%Q →
  (0 <= spec_number (get b r))%Q →
  (0 <= spec_number (get c r))%Q →
  (spec_number (get b r) * inject_Z 30 < inject_Z (2 ^ 63))%Q →
  (spec_number (get c r) * inject_Z 365 < inject_Z (2 ^ 63))%Q →
  (0 <= spec_unit_priority df a b c r)%Q.
Proof.
  intros Hsign Ha Hb Hc Hb' Hc'. unfold spec_unit_priority.
  repeat case_decide; [done| | |apply Qle_refl].
  - by apply Hsign.
  - by apply Hsign.
Qed.

Lemma prepared_fields_present (r : gmap string cell) :
  prepared_record r → fields_present r.
Proof.
  intros [(jail & prob & cc & cs & Hj & Hp & Hc & Hs & _) _].
  by exists jail, prob, cc, cs.
Qed.

Lemma sample_nonneg : Forall fields_nonneg (records create_sample_data).
Proof.
  unfold create_sample_data. cbn [records].
  repeat apply List.Forall_cons; try apply List.Forall_nil.
  all: eexists _, _, _, _; split_and!; try (vm_compute; reflexivity).
  all: by vm_compute.
Qed.

(** C3, as the code has it.  In every record of a prepared table the four
    derived fields are present and are numbers, never NaN; a missing cell
    and a text that is not a number count as 0; a number read from a
    column that is taken as it is, is kept, negative or not; and no field
    is negative when no number read from a duration column of the source
    is and no product reaches 2^63. *)
Theorem derived_fields_numbers (src : source) :
  Forall fields_present (records (load_data src)) ∧
  (∀ c r, get c r = CNaN → coerce c r = 0%Q) ∧
  (∀ c r t, get c r = CStr t → parse_number t = None → coerce c r = 0%Q) ∧
  (∀ df, src = Loaded df → accepted df →
     ∃ out, process df = Some out ∧ load_data src = out ∧
       Forall2
         (λ r r', ∀ c d, (c, d) ∈ kept_sources →
                         c ∈ columns (clean_columns df) →
                         r' !! d = Some (CNum (spec_number (get c r))))
         (records (clean_columns df)) (records out)) ∧
  (sign_products times → sources_nonneg parse_number src →
   sources_below parse_number src →
   Forall fields_nonneg (records (load_data src))).
Proof.
  split_and!.
  - destruct (load_data_prepared parse_number repr_number to_datetime times
                src) as [_ Hrows].
    apply (list.Forall_impl _ _ _ Hrows). apply prepared_fields_present.
  - intros c r H. unfold coerce. by rewrite H.
  - intros c r t H Hn. unfold coerce. rewrite H. cbn. by rewrite Hn.
  - intros df -> Hacc.
    destruct (load_data_accepted df Hacc) as (out & Hout & Hload & Hrows).
    exists out. split; [done|]. split; [done|].
    apply (list.Forall2_impl _ _ _ _ Hrows).
    intros r r' [[Hj Hp Hc Hs _ _] _] c d Hcd Hin.
    unfold kept_sources in Hcd.
    rewrite !elem_of_cons, elem_of_nil in Hcd.
    destruct Hcd as [[= -> ->]|[[= -> ->]|[[= -> ->]|[[= -> ->]|[]]]]].
    + rewrite Hj. unfold spec_single_source. by rewrite decide_True.
    + rewrite Hp. unfold spec_unit_priority. by rewrite decide_True.
    + rewrite Hc. unfold spec_unit_priority. by rewrite decide_True.
    + rewrite Hs. unfold spec_single_source. by rewrite decide_True.
  - intros Hsign Hsrc Hbelow. destruct src as [| |df]; cbn [load_data];
      try apply sample_nonneg.
    case_decide; [apply sample_nonneg|].
    destruct (process df) as [out|] eqn:Hout; cbn [default];
      [|apply sample_nonneg].
    apply process_rows in Hout as [_ Hrows].
    cbn [sources_nonneg] in Hsrc. cbn [sources_below] in Hbelow.
    apply (Forall2_Forall_r _ _ _ _ Hrows), list.Forall_forall.
    intros r Hr r' [[Hj Hp Hc Hs _ _] _].
    eexists _, _, _, _. split_and!; [exact Hj|exact Hp|exact Hc|exact Hs|..].
    + apply spec_single_source_nonneg, Hsrc; [done|]. closed_list.
    + apply spec_unit_priority_nonneg; try done;
        try (apply Hsrc; [done|closed_list]);
        apply Hbelow; try done; closed_list.
    + apply spec_unit_priority_nonneg; try done;
        try (apply Hsrc; [done|closed_list]);
        apply Hbelow; try done; closed_list.
    + apply spec_single_source_nonneg, Hsrc; [done|]. closed_list.
Qed.


(** C8. Without a file, with a file that cannot be read, with a frame of
    no records and whenever the preparation raises, [load_data] returns
    the fixture; it returns a table for every input; and the fixture has
    five records that satisfy the invariants of a prepared table. *)
Theorem fixture_fallback :
  load_data Absent = create_sample_data ∧
  load_data ReadError = create_sample_data ∧
  (∀ df, len df = 0%nat → load_data (Loaded df) = create_sample_data) ∧
  (∀ df, process df = None → load_data (Loaded df) = create_sample_data) ∧
  (∀ src, load_data src = create_sample_data ∨
          ∃ df, src = Loaded df ∧ len df ≠ 0%nat ∧
                process df = Some (load_data src)) ∧
  len create_sample_data = 5%nat ∧
  prepared create_sample_data ∧
  Forall fields_nonneg (records create_sample_data).
Proof.
  split_and!; try done.
  - intros df Hlen. unfold load_data. by rewrite decide_True.
  - intros df Hnone. unfold load_data. rewrite Hnone. by case_decide.
  - intros [| |df]; [by left..|]. unfold load_data.
    case_decide; [by left|].
    destruct (process df) as [out|] eqn:Hout; [|by left].
    right. by exists df.
  - apply sample_prepared.
  - apply sample_nonneg.
Qed.

End PreparationClaims.

(** ** Examples of preparation *)

(** A file is accepted: decided by computing. *)
Ltac accepted_file := apply (bool_decide_unpack _); vm_compute; exact I.

Example units_frame_prepared :
  (λ r, (get "Probation_Days_Clean" r, get "CommunityControl_Days" r,
         get "Judge_Full_Name" r))
    <$> records (example_load_data (Loaded units_frame))
  = [(CNum 10, CNum 730, CStr "Smith")].
Proof. vm_compute. reflexivity. Qed.

Example months_frame_prepared :
  (λ r, (get "Probation_Days_Clean" r, get "CommunityControl_Days" r))
    <$> records (example_load_data (Loaded months_frame))
  = [(CNum 180, CNum 730)].
Proof. vm_compute. reflexivity. Qed.

Example names_frame_prepared :
  get "Judge_Full_Name" <$> records (example_load_data (Loaded names_frame))
  = [CStr "John  Smith"].
Proof. vm_compute. reflexivity. Qed.

(** The no-break space is white space of [str.strip()]. *)
Example nbsp_frame_prepared :
  get "Judge_Full_Name" <$> records (example_load_data (Loaded nbsp_frame))
  = [CStr "Smith"].
Proof. vm_compute. reflexivity. Qed.

Example negative_frame_prepared :
  (λ r, (get "Jail_Days" r, get "Has_Sentence" r))
    <$> records (example_load_data (Loaded negative_frame))
  = [(CNum (-5), CBool false)].
Proof. vm_compute. reflexivity. Qed.

(** In a column of integers the product wraps at 64 bits. *)
Example wrap_frame_prepared :
  (λ r, (get "Probation_Days_Clean" r, get "Has_Sentence" r))
    <$> records (example_load_data (Loaded wrap_frame))
  = [(CNum (-9223372036854775786), CBool false)].
Proof. vm_compute. reflexivity. Qed.

Example numeric_initial_raises :
  process parse_integer repr_floor dates_of_texts example_times
    numeric_initial_frame = None.
Proof. vm_compute. reflexivity. Qed.

(** A days column of 100 beside a middle initial that is a number: the
    prepared table is the fixture, and holds none of the file's days. *)
Example numeric_initial_days_lost :
  get "Probation_Days_Clean"
    <$> records (example_load_data (Loaded numeric_initial_frame))
  = [CNum 0; CNum 730; CNum 365; CNum 365; CNum 1095].
Proof. vm_compute. reflexivity. Qed.

Lemma has_sentence_iff_positive_witness :
  (λ r, (get "Jail_Days" r, get "Has_Sentence" r))
    <$> records (example_load_data (Loaded zeros_frame))
  = [(CNum 0, CBool false); (CNum 0, CBool false); (CNum 10, CBool true)] ∧
  ∃ out,
    process parse_integer repr_floor dates_of_texts example_times zeros_frame
    = Some out ∧
    example_load_data (Loaded zeros_frame) = out ∧
    Forall2
      (λ r r',
         r' !! "Has_Sentence"
         = Some (CBool
                   (spec_has_sentence
                      (spec_single_source parse_integer
                         (clean_columns zeros_frame) "MaxCnfmnt_Days" r)
                      (spec_unit_priority parse_integer example_times
                         (clean_columns zeros_frame) "Probation_Days"
                         "Probation_Mths" "Probation_Yrs" r)
                      (spec_unit_priority parse_integer example_times
                         (clean_columns zeros_frame) "ComCntrl_Days"
                         "ComCntrl_Mths" "ComCntrl_Yrs" r)
                      (spec_single_source parse_integer
                         (clean_columns zeros_frame) "CommunityService" r))))
      (records (clean_columns zeros_frame)) (records out).
Proof.
  split; [vm_compute; reflexivity|].
  destruct (has_sentence_iff_positive parse_integer repr_floor dates_of_texts
              example_times (Loaded zeros_frame)) as [_ Hfile].
  apply (Hfile zeros_frame); [reflexivity|accepted_file].
Defined.



(** C3 as the specification states it fails: a negative confinement is
    kept, so the prepared table has a negative [Jail_Days]. *)
Lemma negative_confinement_kept :
  ¬ Forall fields_nonneg (records (example_load_data (Loaded negative_frame))).
Proof.
  intros H.
  assert (Forall (λ c, ∃ q, c = CNum q ∧ (0 <= q)%Q)
            (get "Jail_Days"
               <$> records (example_load_data (Loaded negative_frame))))
    as Hjail.
  { apply Forall_fmap, (list.Forall_impl _ _ _ H).
    intros r (jail & prob & cc & cs & Hj & _ & _ & _ & Hle & _).
    exists jail. unfold compose, get. by rewrite Hj. }
  replace (get "Jail_Days"
             <$> records (example_load_data (Loaded negative_frame)))
    with [CNum (-5)] in Hjail by (vm_compute; reflexivity).
  apply Forall_inv in Hjail as (q & [= <-] & Hle).
  vm_compute in Hle. by apply Hle.
Qed.

Lemma derived_fields_numbers_witness :
  get "Jail_Days" <$> records (example_load_data (Loaded negative_frame))
  = [CNum (-5)] ∧
  (∃ out,
     process parse_integer repr_floor dates_of_texts example_times
       negative_frame = Some out ∧
     example_load_data (Loaded negative_frame) = out ∧
     Forall2
       (λ r r', ∀ c d, (c, d) ∈ kept_sources →
                       c ∈ columns (clean_columns negative_frame) →
                       r' !! d
                       = Some (CNum (spec_number parse_integer (get c r))))
       (records (clean_columns negative_frame)) (records out)) ∧
  Forall fields_present (records (example_load_data (Loaded months_frame))) ∧
  Forall fields_nonneg (records (example_load_data (Loaded months_frame))).
Proof.
  split; [vm_compute; reflexivity|]. split.
  - destruct (derived_fields_numbers parse_integer repr_floor dates_of_texts
                example_times (Loaded negative_frame))
      as (_ & _ & _ & Hkept & _).
    apply (Hkept negative_frame); [reflexivity|accepted_file].
  - destruct (derived_fields_numbers parse_integer repr_floor dates_of_texts
                example_times (Loaded months_frame))
      as (Hpresent & _ & _ & _ & Hnonneg).
    split; [exact Hpresent|]. apply Hnonneg.
    + apply example_times_sign.
    + apply sources_nonnegb_spec. vm_compute. reflexivity.
    + apply sources_belowb_spec. vm_compute. reflexivity.
Defined.



Lemma fixture_fallback_witness :
  example_load_data (Loaded empty_frame) = create_sample_data ∧
  example_load_data (Loaded numeric_initial_frame) = create_sample_data.
Proof.
  destruct (fixture_fallback parse_integer repr_floor dates_of_texts
              example_times)
    as (_ & _ & Hempty & Hraise & _).
  split.
  - apply Hempty. vm_compute. reflexivity.
  - apply Hraise. vm_compute. reflexivity.
Defined.

(** ** Facts on the filters of [update_dashboard] *)

Lemma filter_rows_Some (p : gmap string cell → option bool)
    (q : gmap string cell → bool) (rs : list (gmap string cell)) :
  Forall (λ r, p r = Some (q r)) rs →
  filter_rows p rs = Some (filter (λ r, q r) rs).
Proof.
  induction 1 as [|r rs Hr _ IH]; [done|]. cbn [filter_rows].
  rewrite Hr, IH. cbn [mbind option_bind]. rewrite filter_cons.
  by destruct (q r).
Qed.

Lemma select_total (c : string) (q : cell → bool) (df : DataFrame) :
  select c (λ x, Some (q x)) df
  = if decide (c ∈ columns df)
    then Some (mkDF (columns df) (filter (λ r, q (get c r)) (records df)))
    else None.
Proof.
  unfold select. case_decide; [|done].
  rewrite (filter_rows_Some _ (λ r, q (get c r))); [done|].
  by apply list.Forall_forall.
Qed.

Lemma select_numbers (c : string) (df : DataFrame) :
  c ∈ columns df →
  Forall (λ r, ∃ q, r !! c = Some (CNum q)) (records df) →
  select c gt_zero df
  = Some (mkDF (columns df)
            (filter (λ r, is_positive (get c r)) (records df))).
Proof.
  intros Hc Hrows. unfold select. rewrite decide_True by done.
  rewrite (filter_rows_Some _ (λ r, is_positive (get c r))); [done|].
  apply (list.Forall_impl _ _ _ Hrows). intros r [q Hq].
  unfold is_positive, get. by rewrite Hq.
Qed.

Lemma filter_all {A} (l : list A) : filter (λ _, true) l = l.
Proof.
  induction l as [|x l IH]; [done|].
  rewrite filter_cons, decide_True by done. by rewrite IH.
Qed.

Lemma filter_filter_comm {A} (P Q : A → Prop)
    `{!∀ x, Decision (P x), !∀ x, Decision (Q x)} (l : list A) :
  filter P (filter Q l) = filter Q (filter P l).
Proof.
  rewrite !list_filter_filter. apply list_filter_iff. tauto.
Qed.

(** C9. The judge filter followed by the charge filter gives the same
    frame, or the same [KeyError], as the charge filter followed by the
    judge filter, for every frame and every two selections; when the frame
    has the two columns, both orders give the records that pass both
    tests. *)
Theorem filters_commute (df : DataFrame) (judge charge : string) :
  (filter_judge judge df ≫= filter_charge charge)
  = (filter_charge charge df ≫= filter_judge judge) ∧
  ("Judge_Full_Name" ∈ columns df →
   "ChargeOffenseDescription" ∈ columns df →
   filter_judge judge df ≫= filter_charge charge
   = Some (mkDF (columns df)
             (filter (λ r, keeps_judge judge r ∧ keeps_charge charge r)
                (records df)))).
Proof.
  unfold filter_judge, filter_charge, keeps_judge, keeps_charge. split.
  - destruct (decide (judge ≠ "all")), (decide (charge ≠ "all")); cbn;
      rewrite ?select_total; repeat case_decide; cbn;
      rewrite ?select_total; cbn; rewrite ?decide_True, ?decide_False by done;
      try done.
    by rewrite filter_filter_comm.
  - intros Hj Hc.
    destruct (decide (judge ≠ "all")) as [Hne|Heq%dec_stable],
      (decide (charge ≠ "all")) as [Hne'|Heq'%dec_stable]; cbn;
      rewrite ?select_total; cbn;
      rewrite ?decide_True by done; cbn; rewrite ?select_total; cbn;
      rewrite ?decide_True by done; rewrite ?list_filter_filter.
    + do 2 f_equal. apply list_filter_iff. intros r.
      rewrite !bool_decide_false by done. cbn. tauto.
    + do 2 f_equal. apply list_filter_iff. intros r.
      rewrite (bool_decide_false (judge = _)) by done.
      rewrite (bool_decide_true (charge = _)) by done. cbn. tauto.
    + do 2 f_equal. apply list_filter_iff. intros r.
      rewrite (bool_decide_true (judge = _)) by done.
      rewrite (bool_decide_false (charge = _)) by done. cbn. tauto.
    + destruct df as [cols rs]. cbn. do 2 f_equal.
      rewrite <- (filter_all rs) at 1. apply list_filter_iff. intros r.
      rewrite !bool_decide_true by done. cbn. tauto.
Qed.

Lemma filter_keeps (sj sc ss : string) (rs : list (gmap string cell)) :
  filter (λ r, keeps sj sc ss r) rs
  = filter (λ r, keeps_sentence ss r)
      (filter (λ r, keeps_charge sc r) (filter (λ r, keeps_judge sj r) rs)).
Proof.
  rewrite !list_filter_filter. apply list_filter_iff. intros r.
  unfold keeps. rewrite !andb_True. tauto.
Qed.

Lemma filter_judge_spec (df : DataFrame) (sj : string) :
  "Judge_Full_Name" ∈ columns df →
  filter_judge sj df
  = Some (mkDF (columns df) (filter (λ r, keeps_judge sj r) (records df))).
Proof.
  intros Hj. unfold filter_judge, keeps_judge. rewrite select_total.
  destruct (decide (sj ≠ "all")) as [Hne|Heq].
  - rewrite decide_True by done. do 2 f_equal. apply list_filter_iff.
    intros r. by rewrite bool_decide_false.
  - apply dec_stable in Heq. rewrite bool_decide_true by done. cbn.
    rewrite filter_all. by destruct df.
Qed.

Lemma filter_charge_spec (df : DataFrame) (sc : string) :
  filter_charge sc df
  = if decide (sc ≠ "all" ∧ "ChargeOffenseDescription" ∉ columns df)
    then None
    else Some (mkDF (columns df)
                 (filter (λ r, keeps_charge sc r) (records df))).
Proof.
  unfold filter_charge, keeps_charge. rewrite select_total.
  destruct (decide (sc ≠ "all")) as [Hne|Heq].
  - destruct (decide ("ChargeOffenseDescription" ∈ columns df)) as [Hc|Hc].
    + rewrite decide_False by tauto. do 2 f_equal. apply list_filter_iff.
      intros r. by rewrite bool_decide_false.
    + by rewrite decide_True.
  - apply dec_stable in Heq. rewrite decide_False by tauto.
    rewrite bool_decide_true by done. cbn.
    rewrite filter_all. by destruct df.
Qed.

Lemma filter_sentence_spec (df : DataFrame) (ss : string) :
  "Has_Sentence" ∈ columns df →
  filter_sentence ss df
  = Some (mkDF (columns df) (filter (λ r, keeps_sentence ss r) (records df))).
Proof.
  intros Hs. unfold filter_sentence, keeps_sentence. rewrite !select_total.
  rewrite !(decide_True (P := "Has_Sentence" ∈ columns df)) by done.
  repeat case_decide; try done. rewrite filter_all. by destruct df.
Qed.

(** The three filters together: the frame keeps its header and the records
    that pass; only a charge filter on a frame without charge column
    raises. *)
Lemma apply_filters_spec (df : DataFrame) (sj sc ss : string) :
  "Judge_Full_Name" ∈ columns df → "Has_Sentence" ∈ columns df →
  apply_filters sj sc ss df
  = if decide (sc ≠ "all" ∧ "ChargeOffenseDescription" ∉ columns df)
    then None
    else Some (mkDF (columns df)
                 (filter (λ r, keeps sj sc ss r) (records df))).
Proof.
  intros Hj Hs. rewrite filter_keeps. unfold apply_filters.
  rewrite filter_judge_spec by done. cbn [mbind option_bind].
  rewrite filter_charge_spec. cbn [columns records].
  case_decide; [done|]. cbn [mbind option_bind].
  by rewrite filter_sentence_spec.
Qed.

Section SentenceSelection.

Variable sort_values : ∀ A : Type, (A → nat) → list A → list A.

Local Abbreviation update_dashboard := (update_dashboard sort_values).

(** C10. A sentence selection other than "with_sentence" and "no_sentence",
    whatever text it is, filters nothing: the cycle gives what it gives for
    "all". *)
Theorem other_sentence_selection (df : DataFrame) (sj sc ss : string) :
  ss ≠ "with_sentence" → ss ≠ "no_sentence" →
  (∀ d, filter_sentence ss d = Some d) ∧
  apply_filters sj sc ss df = apply_filters sj sc "all" df ∧
  update_dashboard df sj sc ss = update_dashboard df sj sc "all".
Proof.
  intros H1 H2.
  assert (∀ d, filter_sentence ss d = Some d) as Hss.
  { intros d. unfold filter_sentence. by rewrite !decide_False. }
  assert (apply_filters sj sc ss df = apply_filters sj sc "all" df) as Hf.
  { unfold apply_filters.
    destruct (filter_judge sj df) as [d1|]; [|done]. cbn [mbind option_bind].
    destruct (filter_charge sc d1) as [d2|]; [|done]. cbn [mbind option_bind].
    by rewrite Hss. }
  split; [done|]. split; [done|]. unfold update_dashboard. by rewrite Hf.
Qed.

End SentenceSelection.

(** ** Facts on the summary and the distributions *)

Lemma column_numbers (c : string) (rs : list (gmap string cell)) :
  Forall (has_number c) rs → get c <$> rs = CNum <$> numbers_of c rs.
Proof.
  induction 1 as [|r rs [q Hq] _ IH]; [done|].
  unfold numbers_of. cbn. unfold get at 1. rewrite Hq. cbn. by f_equal.
Qed.

Lemma numbers_of_cons (c : string) (q : Q) (r : gmap string cell)
    (rs : list (gmap string cell)) :
  r !! c = Some (CNum q) → numbers_of c (r :: rs) = q :: numbers_of c rs.
Proof. intros Hq. unfold numbers_of. cbn. by rewrite Hq. Qed.

Lemma numbers_of_positive (c : string) (rs : list (gmap string cell)) :
  Forall (has_number c) rs →
  numbers_of c (filter (λ r, is_positive (get c r)) rs)
  = filter (λ q, Qpositive q) (numbers_of c rs).
Proof.
  induction 1 as [|r rs [q Hq] _ IH]; [done|].
  assert (is_positive (get c r) = Qpositive q) as Hpos.
  { unfold is_positive, get. by rewrite Hq. }
  rewrite (numbers_of_cons c q) by done. rewrite !filter_cons, Hpos.
  destruct (decide (Qpositive q)); [|done].
  rewrite (numbers_of_cons c q) by done. by rewrite IH.
Qed.

Lemma Forall_filter_sub {A} (P : A → Prop) (Q : A → Prop)
    `{!∀ x, Decision (Q x)} (l : list A) :
  Forall P l → Forall P (filter Q l).
Proof.
  rewrite !list.Forall_forall. intros HP x Hx.
  apply list_elem_of_filter in Hx as [_ Hx]. by apply HP.
Qed.

Lemma numbers_cnum (qs : list Q) : numbers (CNum <$> qs) = Some qs.
Proof. induction qs as [|q qs IH]; [done|]. cbn. by rewrite IH. Qed.

Lemma mean_cnum (q : Q) (qs : list Q) :
  mean (CNum <$> (q :: qs)) = Some (CNum (Qmean (q :: qs))).
Proof. unfold mean. by rewrite numbers_cnum. Qed.

Lemma positive_column (c : string) (rs : list (gmap string cell)) :
  Forall (has_number c) rs →
  let pos := filter (λ q, Qpositive q) (numbers_of c rs) in
  get c <$> filter (λ r, is_positive (get c r)) rs = CNum <$> pos ∧
  length (filter (λ r, is_positive (get c r)) rs) = length pos.
Proof.
  intros Hrows pos.
  assert (get c <$> filter (λ r, is_positive (get c r)) rs = CNum <$> pos)
    as Hcol.
  { rewrite column_numbers by by apply Forall_filter_sub.
    by rewrite numbers_of_positive. }
  split; [done|].
  by rewrite <- (length_fmap (get c)), Hcol, length_fmap.
Qed.

Lemma average_positive_spec (c none : string) (df : DataFrame) :
  c ∈ columns df → Forall (has_number c) (records df) →
  average_positive c none df
  = Some (spec_mean_positive none (numbers_of c (records df))).
Proof.
  intros Hc Hrows. unfold average_positive, spec_mean_positive.
  rewrite select_numbers by done. cbn [mbind option_bind].
  unfold column, len. cbn [records].
  destruct (positive_column c (records df) Hrows) as [-> ->].
  destruct (filter _ (numbers_of c (records df))) as [|q qs]; [done|].
  rewrite decide_True by (cbn; lia). by rewrite mean_cnum.
Qed.

Lemma distribution_spec (c title none : string) (n : nat) (df : DataFrame) :
  c ∈ columns df → Forall (has_number c) (records df) →
  distribution c title none n df
  = Some (match filter (λ q, Qpositive q) (numbers_of c (records df)) with
          | [] => Annotation title none
          | pos => Histogram title (length pos) (CNum <$> pos) n
          end).
Proof.
  intros Hc Hrows. unfold distribution.
  rewrite select_numbers by done. cbn [mbind option_bind].
  unfold column. cbn [records].
  destruct (positive_column c (records df) Hrows) as [-> _].
  rewrite length_fmap.
  destruct (filter _ (numbers_of c (records df))) as [|q qs]; [done|].
  by rewrite decide_True by (cbn; lia).
Qed.

Lemma sentence_share_spec (df : DataFrame) :
  "Has_Sentence" ∈ columns df →
  sentence_share df
  = Some (if decide (0 < len df)%nat
          then let n := length (filter (λ r, eq_bool true (get "Has_Sentence" r))
                                  (records df)) in
               Shown (n, percent n (len df))
          else Placeholder "No data").
Proof.
  intros Hs. unfold sentence_share. case_decide; [|done].
  rewrite select_total, decide_True by done. done.
Qed.

Lemma prepared_has_number (df : DataFrame) (c : string) :
  prepared df → c ∈ rounded_columns →
  c ∈ columns df ∧ Forall (has_number c) (records df).
Proof.
  intros [Hcols Hrows] Hc. rewrite list.Forall_forall in Hcols. split.
  - apply Hcols. unfold rounded_columns in Hc. unfold derived_columns.
    rewrite !elem_of_cons in *. tauto.
  - apply (list.Forall_impl _ _ _ Hrows).
    intros r [(jail & prob & cc & cs & Hj & Hp & Hcc & Hcs & _) _].
    unfold rounded_columns in Hc. rewrite !elem_of_cons, elem_of_nil in Hc.
    destruct Hc as [->|[->|[->|[->|[]]]]]; by eexists.
Qed.

Lemma prepared_filter (df : DataFrame) (P : gmap string cell → Prop)
    `{!∀ r, Decision (P r)} :
  prepared df → prepared (mkDF (columns df) (filter P (records df))).
Proof. intros [Hcols Hrows]. split; [done|]. by apply Forall_filter_sub. Qed.

Lemma prepared_columns (df : DataFrame) (c : string) :
  prepared df → c ∈ derived_columns → c ∈ columns df.
Proof. intros [Hcols _]. rewrite list.Forall_forall in Hcols. apply Hcols. Qed.

(** The filters applied to a prepared table give a prepared table with the
    same header and the records that pass. *)
Lemma apply_filters_prepared (df f : DataFrame) (sj sc ss : string) :
  prepared df → apply_filters sj sc ss df = Some f →
  prepared f ∧ columns f = columns df ∧
  records f = filter (λ r, keeps sj sc ss r) (records df) ∧
  (sc ≠ "all" → "ChargeOffenseDescription" ∈ columns df).
Proof.
  intros Hdf. rewrite apply_filters_spec
    by (apply prepared_columns; [done|closed_list]).
  case_decide as Hc; [done|]. intros [= <-].
  split; [by apply prepared_filter|]. split; [done|]. split; [done|].
  intros Hne. destruct (decide ("ChargeOffenseDescription" ∈ columns df)); tauto.
Qed.

Lemma make_summary_spec (df : DataFrame) :
  prepared df →
  make_summary df
  = Some (mkSummary (len df)
            (if decide (0 < len df)%nat
             then let n := length (filter (λ r, eq_bool true
                                                  (get "Has_Sentence" r))
                                     (records df)) in
                  Shown (n, percent n (len df))
             else Placeholder "No data")
            (spec_mean_positive "No jail sentences"
               (numbers_of "Jail_Days" (records df)))
            (spec_mean_positive "No probation sentences"
               (numbers_of "Probation_Days_Clean" (records df)))).
Proof.
  intros Hdf. unfold make_summary.
  rewrite sentence_share_spec by (apply prepared_columns; [done|closed_list]).
  cbn [mbind option_bind].
  destruct (prepared_has_number df "Jail_Days" Hdf) as [? ?]; [closed_list|].
  destruct (prepared_has_number df "Probation_Days_Clean" Hdf) as [? ?];
    [closed_list|].
  by rewrite !average_positive_spec by done.
Qed.

(** ** Claims on the summary and on the empty view *)

Section CycleClaims.

Variable parse_number : string → option Q.
Variable repr_number : Q → string.
Variable to_datetime : list cell → option (list cell).
Variable times : Z → list cell → Q → Q.
Variable sort_values : ∀ A : Type, (A → nat) → list A → list A.

Local Abbreviation load_data :=
  (load_data parse_number repr_number to_datetime times).
Local Abbreviation comparison := (comparison sort_values).
Local Abbreviation update_dashboard := (update_dashboard sort_values).

(** C6. For every prepared table and every selection, the jail days of the
    filtered records are numbers, and the summary shows their mean over the
    strictly positive ones only, or a placeholder when there is none; the
    same holds for the probation days.  Zeros count neither in the sum nor
    in the number of values: 0, 0 and 10 give 10. *)
Theorem mean_over_positive (src : source) (sj sc ss : string) (f : DataFrame) :
  apply_filters sj sc ss (load_data src) = Some f →
  let jail := numbers_of "Jail_Days" (records f) in
  let prob := numbers_of "Probation_Days_Clean" (records f) in
  column "Jail_Days" f = CNum <$> jail ∧
  column "Probation_Days_Clean" f = CNum <$> prob ∧
  spec_mean_positive "No jail sentences" [0; 0; 10]%Q = Shown (CNum 10) ∧
  ∃ s, make_summary f = Some s ∧
       average_jail s = spec_mean_positive "No jail sentences" jail ∧
       average_probation s = spec_mean_positive "No probation sentences" prob ∧
       ∀ out, update_dashboard (load_data src) sj sc ss = Some out →
              summary_stats out = s.
Proof.
  intros Hf jail prob.
  pose proof (load_data_prepared parse_number repr_number to_datetime times src)
    as Hdf.
  destruct (apply_filters_prepared _ _ _ _ _ Hdf Hf) as (Hprep & _).
  destruct (prepared_has_number f "Jail_Days" Hprep) as [_ Hj]; [closed_list|].
  destruct (prepared_has_number f "Probation_Days_Clean" Hprep) as [_ Hp];
    [closed_list|].
  split; [by apply column_numbers|]. split; [by apply column_numbers|].
  split; [by vm_compute|].
  eexists. split; [by apply make_summary_spec|]. split; [done|]. split; [done|].
  intros out. unfold update_dashboard. rewrite Hf. cbn [mbind option_bind].
  rewrite make_summary_spec by done. cbn [mbind option_bind].
  repeat (match goal with
          | |- context [distribution ?c ?t ?n ?b f] =>
              destruct (distribution c t n b f); cbn [mbind option_bind];
              [|done]
          end).
  destruct (comparison sj sc f); cbn [mbind option_bind]; [|done].
  by intros [= <-].
Qed.

(** C7. When the filters leave no record of a prepared table, the cycle
    raises nothing and returns the placeholders of the summary, the
    annotation of each of the four distributions, the annotation of the
    comparison chart and no table row. *)
Theorem empty_view (src : source) (sj sc ss : string) (f : DataFrame) :
  apply_filters sj sc ss (load_data src) = Some f → records f = [] →
  update_dashboard (load_data src) sj sc ss = Some empty_outputs.
Proof.
  intros Hf Hempty.
  pose proof (load_data_prepared parse_number repr_number to_datetime times src)
    as Hdf.
  destruct (apply_filters_prepared _ _ _ _ _ Hdf Hf) as (Hprep & _).
  unfold update_dashboard. rewrite Hf. cbn [mbind option_bind].
  rewrite make_summary_spec by done. cbn [mbind option_bind].
  destruct (prepared_has_number f "Jail_Days" Hprep) as [? ?]; [closed_list|].
  destruct (prepared_has_number f "Probation_Days_Clean" Hprep) as [? ?];
    [closed_list|].
  destruct (prepared_has_number f "CommunityControl_Days" Hprep) as [? ?];
    [closed_list|].
  destruct (prepared_has_number f "CommunityService_Hours" Hprep) as [? ?];
    [closed_list|].
  rewrite !distribution_spec by done. cbn [mbind option_bind].
  unfold comparison, make_table, len. rewrite Hempty. cbn [length].
  rewrite !decide_False by (cbn; lia). done.
Qed.

End CycleClaims.

Example zeros_frame_flags :
  get "Has_Sentence" <$> records (example_load_data (Loaded zeros_frame))
  = [CBool false; CBool false; CBool true].
Proof. vm_compute. reflexivity. Qed.

Example zeros_frame_summary :
  (average_jail ∘ summary_stats)
    <$> example_update_dashboard (example_load_data (Loaded zeros_frame))
          "all" "all" "all"
  = Some (Shown (CNum 10)).
Proof. vm_compute. reflexivity. Qed.

Lemma mean_over_positive_witness :
  let f := example_load_data (Loaded zeros_frame) in
  let jail := numbers_of "Jail_Days" (records f) in
  let prob := numbers_of "Probation_Days_Clean" (records f) in
  column "Jail_Days" f = CNum <$> jail ∧
  column "Probation_Days_Clean" f = CNum <$> prob ∧
  spec_mean_positive "No jail sentences" [0; 0; 10]%Q = Shown (CNum 10) ∧
  ∃ s, make_summary f = Some s ∧
       average_jail s = spec_mean_positive "No jail sentences" jail ∧
       average_probation s = spec_mean_positive "No probation sentences" prob ∧
       ∀ out, example_update_dashboard f "all" "all" "all" = Some out →
              summary_stats out = s.
Proof.
  apply (mean_over_positive parse_integer repr_floor dates_of_texts
           example_times (@sort_desc) (Loaded zeros_frame) "all" "all" "all").
  vm_compute. reflexivity.
Defined.

Lemma empty_view_witness :
  example_update_dashboard (example_load_data Absent) "NoSuchJudge" "all" "all"
  = Some empty_outputs.
Proof.
  apply (empty_view parse_integer repr_floor dates_of_texts example_times
           (@sort_desc) Absent
           "NoSuchJudge" "all" "all"
           (mkDF (columns create_sample_data) [])).
  - vm_compute. reflexivity.
  - reflexivity.
Defined.

Lemma other_sentence_selection_witness :
  (∀ d, filter_sentence "everything" d = Some d) ∧
  apply_filters "all" "all" "everything" create_sample_data
  = apply_filters "all" "all" "all" create_sample_data ∧
  example_update_dashboard create_sample_data "all" "all" "everything"
  = example_update_dashboard create_sample_data "all" "all" "all".
Proof.
  apply (other_sentence_selection (@sort_desc) create_sample_data
           "all" "all" "everything").
  - vm_compute. discriminate.
  - vm_compute. discriminate.
Defined.

Lemma filters_commute_witness :
  filter_judge "John Smith" create_sample_data
    ≫= filter_charge "DRIVING UNDER THE INFLUENCE"
  = Some (mkDF (columns create_sample_data)
            (filter (λ r, keeps_judge "John Smith" r
                          ∧ keeps_charge "DRIVING UNDER THE INFLUENCE" r)
               (records create_sample_data))).
Proof.
  apply (filters_commute create_sample_data "John Smith"
           "DRIVING UNDER THE INFLUENCE").
  - apply (bool_decide_unpack _). vm_compute. exact I.
  - apply (bool_decide_unpack _). vm_compute. exact I.
Defined.

(** ** Facts on sorting and grouping *)

Lemma insert_desc_perm {A} (f : A → nat) (x : A) (l : list A) :
  insert_desc f x l ≡ₚ x :: l.
Proof.
  induction l as [|y l IH]; cbn [insert_desc]; [done|].
  destruct (f x <? f y)%nat; [|done]. rewrite IH. apply Permutation_swap.
Qed.

Lemma sort_desc_perm {A} (f : A → nat) (l : list A) : sort_desc f l ≡ₚ l.
Proof.
  induction l as [|x l IH]; [done|]. unfold sort_desc in *. cbn [foldr].
  by rewrite insert_desc_perm, IH.
Qed.

Lemma insert_desc_sorted {A} (f : A → nat) (x : A) (l : list A) :
  StronglySorted (desc f) l → StronglySorted (desc f) (insert_desc f x l).
Proof.
  induction l as [|y l IH]; intros Hl; cbn [insert_desc].
  { repeat constructor. }
  apply StronglySorted_cons in Hl as [Hy Hl].
  destruct (f x <? f y)%nat eqn:Hlt.
  - apply Nat.ltb_lt in Hlt. apply StronglySorted_cons. split; [|by apply IH].
    rewrite insert_desc_perm. constructor; [unfold desc; lia | done].
  - apply Nat.ltb_ge in Hlt. apply StronglySorted_cons. split.
    + constructor; [done|]. apply (list.Forall_impl _ _ _ Hy).
      unfold desc. lia.
    + by apply StronglySorted_cons.
Qed.

Lemma sort_desc_sorted {A} (f : A → nat) (l : list A) :
  StronglySorted (desc f) (sort_desc f l).
Proof.
  induction l as [|x l IH]; [constructor|]. by apply insert_desc_sorted.
Qed.

Lemma sort_desc_sorts : sorts_by_count (@sort_desc).
Proof. intros A f l. split; [apply sort_desc_perm|apply sort_desc_sorted]. Qed.

Lemma insert_key_perm (k : cell) (l : list cell) : insert_key k l ≡ₚ k :: l.
Proof.
  induction l as [|x l IH]; cbn [insert_key]; [done|].
  destruct (key_leb k x); [done|]. rewrite IH. apply Permutation_swap.
Qed.

Lemma group_keys_perm (cs : list cell) : group_keys cs ≡ₚ unique cs.
Proof.
  unfold group_keys. induction (unique cs) as [|k l IH]; [done|]. cbn [foldr].
  by rewrite insert_key_perm, IH.
Qed.

Lemma elem_of_unique (k : cell) (cs : list cell) :
  k ∈ unique cs → k ∈ cs ∧ k ≠ CNaN.
Proof.
  induction cs as [|c cs IH]; cbn; [by intros ?%elem_of_nil|].
  assert (k ∈ c :: filter (λ x, negb (key_eqb c x)) (unique cs) →
          c ≠ CNaN → k ∈ c :: cs ∧ k ≠ CNaN) as Hcons.
  { intros [->|Hk]%elem_of_cons Hc; [split; [left|done]|].
    apply list_elem_of_filter in Hk as [_ Hk]. apply IH in Hk as [? ?].
    split; [by right|done]. }
  destruct c; try (by intros ?; apply Hcons).
  intros Hk. apply IH in Hk as [? ?]. split; [by right|done].
Qed.

Lemma key_eqb_refl (k : cell) : k ≠ CNaN → key_eqb k k = true.
Proof.
  destruct k as [q| |s|b]; cbn; try done; intros _.
  - by apply Qeq_bool_iff.
  - by apply bool_decide_eq_true.
  - by apply bool_decide_eq_true.
Qed.

(** The group of a key of the column has a record. *)
Lemma group_nonempty (key : string) (k : cell) (rs : list (gmap string cell)) :
  k ∈ group_keys (get key <$> rs) → group key k rs ≠ [].
Proof.
  rewrite group_keys_perm. intros [Hk Hna]%elem_of_unique.
  apply list_elem_of_fmap in Hk as (r & -> & Hr).
  intros Hnil.
  assert (r ∈ group key (get key r) rs) as Hin.
  { apply list_elem_of_filter. split; [|done]. by rewrite key_eqb_refl. }
  rewrite Hnil in Hin. by apply elem_of_nil in Hin.
Qed.

Lemma filter_fmap_get (c : string) (P : cell → Prop) `{!∀ x, Decision (P x)}
    (rs : list (gmap string cell)) :
  filter P (get c <$> rs) = get c <$> filter (λ r, P (get c r)) rs.
Proof.
  induction rs as [|r rs IH]; [done|]. rewrite fmap_cons, !filter_cons.
  destruct (decide (P (get c r))); by rewrite ?fmap_cons, IH.
Qed.

Lemma mean_numbers (c : string) (rs : list (gmap string cell)) :
  Forall (has_number c) rs → rs ≠ [] →
  mean (get c <$> rs) = Some (CNum (Qmean (numbers_of c rs))).
Proof.
  intros Hrows Hne. rewrite column_numbers by done.
  destruct rs as [|r rs]; [done|].
  apply Forall_inv in Hrows as Hr. destruct Hr as [q Hq].
  rewrite (numbers_of_cons c q) by done. apply mean_cnum.
Qed.

Lemma aggregate_spec (k : cell) (rs : list (gmap string cell)) :
  Forall prepared_record rs → rs ≠ [] →
  aggregate k rs = Some (spec_aggregate k rs).
Proof.
  intros Hrows Hne. unfold aggregate, spec_aggregate.
  assert (∀ c, c ∈ rounded_columns → Forall (has_number c) rs) as Hnum.
  { intros c Hc.
    by apply (prepared_has_number (mkDF derived_columns rs) c);
      [split; [apply list.Forall_forall|]|]. }
  rewrite !mean_numbers by (done || apply Hnum; closed_list).
  cbn [mbind option_bind round_cell]. unfold count.
  by rewrite (filter_fmap_get _ (λ c, notna c)), length_fmap.
Qed.

Lemma mapM_fmap_eq {A B} (f : A → option B) (g : A → B) (l : list A) :
  Forall (λ x, f x = Some (g x)) l → mapM f l = Some (g <$> l).
Proof.
  intros H. apply mapM_Some, Forall2_fmap_r, Forall_Forall2_diag. done.
Qed.

Lemma group_summary_spec (key : string) (df : DataFrame) :
  prepared df → key ∈ columns df → "CaseNumber" ∈ columns df →
  group_summary key df = Some (spec_group_summary key df).
Proof.
  intros Hdf Hkey Hcase. unfold group_summary, spec_group_summary.
  rewrite decide_True.
  - apply mapM_fmap_eq, list.Forall_forall. intros k Hk.
    apply aggregate_spec.
    + destruct Hdf as [_ Hrows]. by apply Forall_filter_sub.
    + by apply group_nonempty.
  - split; [done|]. unfold agg_columns.
    repeat (apply List.Forall_cons;
            [first [done | apply prepared_columns; [done|closed_list]]|]).
    apply List.Forall_nil.
Qed.

(** ** The comparison chart *)

Lemma eq_text_true (t : string) (c : cell) : eq_text t c = true → c = CStr t.
Proof.
  destruct c; cbn; try done. intros H. by apply bool_decide_eq_true in H as ->.
Qed.

Lemma len_positive (df : DataFrame) : (0 < len df)%nat ↔ records df ≠ [].
Proof.
  unfold len. destruct (records df); cbn [length]; split; try done; lia.
Qed.

Lemma comparison_spec
    (sort_values : ∀ A : Type, (A → nat) → list A → list A) (sj sc : string)
    (f : DataFrame) :
  prepared f → "CaseNumber" ∈ columns f →
  "ChargeOffenseDescription" ∈ columns f →
  comparison sort_values sj sc f = Some (spec_comparison sort_values sj sc f).
Proof.
  intros Hf Hcase Hcharge. unfold comparison, spec_comparison.
  assert ("Judge_Full_Name" ∈ columns f) as Hjudge
    by (apply prepared_columns; [done|closed_list]).
  rewrite (decide_ext (sj ≠ "all" ∧ (0 < len f)%nat)
             (sj ≠ "all" ∧ records f ≠ [])) by by rewrite len_positive.
  rewrite (decide_ext (sc ≠ "all" ∧ (0 < len f)%nat)
             (sc ≠ "all" ∧ records f ≠ [])) by by rewrite len_positive.
  rewrite (decide_ext (0 < len f)%nat (records f ≠ [])) by apply len_positive.
  rewrite !group_summary_spec by done. unfold value_counts.
  rewrite (decide_True (P := "Judge_Full_Name" ∈ columns f)) by done.
  by repeat case_decide.
Qed.

Section ComparisonClaim.

Variable parse_number : string → option Q.
Variable repr_number : Q → string.
Variable to_datetime : list cell → option (list cell).
Variable times : Z → list cell → Q → Q.
Variable sort_values : ∀ A : Type, (A → nat) → list A → list A.

Local Abbreviation load_data :=
  (load_data parse_number repr_number to_datetime times).
Local Abbreviation comparison := (comparison sort_values).
Local Abbreviation spec_comparison := (spec_comparison sort_values).
Local Abbreviation update_dashboard := (update_dashboard sort_values).


End ComparisonClaim.

Example fixture_by_charge :
  comparison_fig
    <$> example_update_dashboard (example_load_data Absent)
          "John Smith" "all" "all"
  = Some (GroupedBars "Average Sentences by Charge for John Smith"
            [CStr "DRIVING UNDER THE INFLUENCE";
             CStr "POSSESSION OF FIREARM BY CONVICTED FELON"]
            [("Jail Days", [CNum (round1 30); CNum (round1 365)]);
             ("Probation Days", [CNum (round1 365); CNum (round1 0)]);
             ("Community Control Days", [CNum (round1 0); CNum (round1 0)])]).
Proof. vm_compute. reflexivity. Qed.

(** The title of the chart by judge holds the first fifty characters of
    the selected charge. *)
Example title_counts_characters :
  take_chars 2 (nbsp +:+ "ab") = nbsp +:+ "a" ∧
  char_length (nbsp +:+ "ab") = 3%nat.
Proof. split; vm_compute; reflexivity. Qed.



(** ** When the cycle and the preparation raise nothing *)

(** On a prepared table that has the case number and the charge columns
    the cycle raises nothing, whatever the selections. *)
Lemma update_dashboard_total
    (sort_values : ∀ A : Type, (A → nat) → list A → list A) (df : DataFrame)
    (sj sc ss : string) :
  prepared df → "CaseNumber" ∈ columns df →
  "ChargeOffenseDescription" ∈ columns df →
  is_Some (update_dashboard sort_values df sj sc ss).
Proof.
  intros Hdf Hcase Hcharge. unfold update_dashboard.
  rewrite apply_filters_spec by (apply prepared_columns; [done|closed_list]).
  rewrite decide_False by tauto. cbn [mbind option_bind].
  set (f := mkDF _ _).
  assert (prepared f) as Hf by by apply prepared_filter.
  rewrite make_summary_spec by done. cbn [mbind option_bind].
  destruct (prepared_has_number f "Jail_Days" Hf) as [? ?]; [closed_list|].
  destruct (prepared_has_number f "Probation_Days_Clean" Hf) as [? ?];
    [closed_list|].
  destruct (prepared_has_number f "CommunityControl_Days" Hf) as [? ?];
    [closed_list|].
  destruct (prepared_has_number f "CommunityService_Hours" Hf) as [? ?];
    [closed_list|].
  rewrite !distribution_spec by done. cbn [mbind option_bind].
  rewrite comparison_spec by done. by cbn [mbind option_bind].
Qed.

(** Without a charge column a charge selection raises, the set empty or
    not. *)
Lemma update_dashboard_no_charge_column
    (sort_values : ∀ A : Type, (A → nat) → list A → list A) (df : DataFrame)
    (sj sc ss : string) :
  prepared df → "ChargeOffenseDescription" ∉ columns df → sc ≠ "all" →
  update_dashboard sort_values df sj sc ss = None.
Proof.
  intros Hdf Hcharge Hsc. unfold update_dashboard.
  rewrite apply_filters_spec by (apply prepared_columns; [done|closed_list]).
  by rewrite decide_True.
Qed.

(** * Further properties of the preparation and of the cycle *)

(** ** The outcome of [process] *)

Lemma prefix_add_column (c : string) (cols : list string) :
  cols `prefix_of` add_column c cols.
Proof.
  unfold add_column. case_decide; [done|]. by apply prefix_app_r.
Qed.

Lemma Forall2_Exists_iff {A B} (R : A → B → Prop) (P : A → Prop)
    (Q : B → Prop) (l : list A) (k : list B) :
  Forall2 R l k → (∀ x y, R x y → (P x ↔ Q y)) → Exists P l ↔ Exists Q k.
Proof.
  intros HR HPQ. induction HR as [|x y l k Hxy _ IH].
  - by rewrite !Exists_nil.
  - rewrite !Exists_cons, IH. by rewrite (HPQ x y Hxy).
Qed.

Lemma Forall2_common_source {A B C} (P : A → B → Prop) (Q : A → C → Prop)
    (l : list A) (k : list B) (m : list C) :
  Forall2 P l k → Forall2 Q l m → Forall2 (λ y z, ∃ x, P x y ∧ Q x z) k m.
Proof.
  intros HP. revert m. induction HP as [|x y l k Hxy _ IH]; intros m HQ.
  - apply Forall2_nil_inv_l in HQ as ->. constructor.
  - apply Forall2_cons_inv_l in HQ as (z & m' & Hxz & HQ & ->).
    constructor; [eauto|by apply IH].
Qed.

Lemma joined_name_None (r : gmap string cell) (a b : string) :
  get "Judge_First_Name" r = CStr a → get "Judge_Last_Name" r = CStr b →
  ¬ text_middle (get "Judge_Middle_Intial" r) → joined_name r = None.
Proof.
  unfold joined_name, text_middle. intros -> ->.
  by destruct (get "Judge_Middle_Intial" r).
Qed.

Lemma try_assign_None (c : string) (f : gmap string cell → option cell)
    (df : DataFrame) :
  try_assign c f df = None ↔ Exists (λ r, f r = None) (records df).
Proof.
  unfold try_assign. induction (records df) as [|r rs IH].
  - cbn. rewrite Exists_nil. split; [done|tauto].
  - rewrite Exists_cons. cbn. destruct (f r) as [v|]; cbn; [|tauto].
    destruct (mapM _ rs) as [l|]; cbn in *.
    + split; [done|]. intros [?|H]; [done|]. by apply IH in H.
    + split; [|done]. intros _. right. by apply IH.
Qed.

Section PreparationOutcome.

Variable parse_number : string → option Q.
Variable repr_number : Q → string.
Variable to_datetime : list cell → option (list cell).
Variable times : Z → list cell → Q → Q.

Local Abbreviation cleaned := (cleaned repr_number).
Local Abbreviation process :=
  (process parse_number repr_number to_datetime times).
Local Abbreviation load_data :=
  (load_data parse_number repr_number to_datetime times).

Lemma process_NoDup (df out : DataFrame) :
  process df = Some out → NoDup (columns (clean_columns df)).
Proof. unfold process. cbv zeta. by case_decide. Qed.

(** [process] up to the two name steps: the frame that the name steps get
    has the header of the frame as read followed by the five columns added
    so far, its first and last names cleaned and its middle initials as
    read. *)
Lemma process_before_name (df : DataFrame) :
  NoDup (columns (clean_columns df)) →
  ∃ df8,
    process df = (judge_full_name df8 ≫= λ d, Some (clean_judge_names d)) ∧
    columns df8
    = foldl (λ cols c, add_column c cols) (columns (clean_columns df))
        ["Jail_Days"; "Probation_Days_Clean"; "CommunityControl_Days";
         "CommunityService_Hours"; "Has_Sentence"] ∧
    Forall2
      (λ r r8,
         get "Judge_Middle_Intial" r8 = get "Judge_Middle_Intial" r ∧
         ∀ k, k ∈ ["Judge_First_Name"; "Judge_Last_Name"] →
              k ∈ columns (clean_columns df) → get k r8 = cleaned (get k r))
      (records (clean_columns df)) (records df8).
Proof.
  unfold process. cbv zeta.
  generalize (clean_columns df). intros df1 Hnd.
  rewrite decide_True by done.
  generalize (convert_dates_spec to_datetime df1).
  generalize (convert_dates to_datetime df1). intros df2 [C2 R12].
  generalize (clean_texts_spec parse_number repr_number df2).
  generalize (clean_texts repr_number df2). intros df3 [C3 R23].
  generalize (with_numbers_spec parse_number times df3). unfold with_numbers.
  generalize (community_service_hours parse_number
                (community_control_days parse_number times
                   (probation_days parse_number times
                      (jail_days parse_number df3)))).
  intros df7 [C7 R37]. unfold has_sentence.
  destruct (try_assign "Has_Sentence" _ df7) as [df8|] eqn:H8.
  2:{ assert (is_Some (try_assign "Has_Sentence" has_sentence_cell df7)) as Hs.
      { apply try_assign_is_Some, (Forall2_Forall_r _ _ _ _ R37).
        apply list.Forall_forall. intros r _ r'.
        apply has_sentence_cell_is_Some. }
      rewrite H8 in Hs. by destruct Hs. }
  cbn [mbind option_bind].
  apply try_assign_inv in H8 as [C8 R78].
  exists df8. split; [done|]. split.
  { rewrite C8, C7, C3, C2. done. }
  change (Forall2 (text_step repr_number (columns df2)) (records df2)
            (records df3)) in R23.
  rewrite C2 in R23.
  pose proof (Forall2_compose _ _ _ _ _
    (Forall2_compose _ _ _ _ _
       (Forall2_compose _ _ _ _ _ R12 R23) R37) R78) as R.
  apply (list.Forall2_impl _ _ _ _ R).
  intros r r8 (r7 & (r3 & (r2 & H12 & H23) & H37) & (v & _ & ->)).
  assert (∀ k, k ≠ "Has_Sentence" → k ∉ rounded_columns →
            get k (<["Has_Sentence":=v]> r7) = get k r3) as Hget.
  { intros k ??. rewrite get_insert_ne by done.
    by apply get_lookup, (nf_rest _ _ _ _ _ H37). }
  split.
  - rewrite Hget by closed_list.
    rewrite (get_lookup "Judge_Middle_Intial" r2 r3).
    + by rewrite (get_lookup "Judge_Middle_Intial" r r2)
        by (apply H12; closed_list).
    + rewrite H23. rewrite decide_False; [done|].
      intros [Hin _]. revert Hin. closed_list.
  - intros k Hk Hcol. rewrite !elem_of_cons, elem_of_nil in Hk.
    destruct Hk as [->|[->|[]]].
    + rewrite Hget by closed_list. unfold get at 1.
      rewrite H23, decide_True by (split; [closed_list|done]).
      by rewrite (get_lookup "Judge_First_Name" r r2)
        by (apply H12; closed_list).
    + rewrite Hget by closed_list. unfold get at 1.
      rewrite H23, decide_True by (split; [closed_list|done]).
      by rewrite (get_lookup "Judge_Last_Name" r r2)
        by (apply H12; closed_list).
Qed.

(** The header after [process]: the header as read, then the derived
    columns that it did not hold, in the order of the assignments. *)
Lemma process_columns (df out : DataFrame) :
  process df = Some out →
  columns out
  = foldl (λ cols c, add_column c cols) (columns (clean_columns df))
      derived_columns.
Proof.
  intros Hout. pose proof (process_NoDup df out Hout) as Hnd. revert Hout.
  destruct (process_before_name df Hnd) as (df8 & -> & C8 & _).
  destruct (judge_full_name df8) as [d|] eqn:Hd; [|done].
  cbn [mbind option_bind]. intros [= <-].
  apply (judge_step_spec _ _) in Hd as [-> _]. rewrite C8. done.
Qed.

(** On a header without a doubled name [process] raises exactly when the
    frame has the three parts of the name and one middle initial is
    neither a text nor missing. *)
Lemma process_None_iff (df : DataFrame) :
  NoDup (columns (clean_columns df)) →
  process df = None
  ↔ Forall (λ c, c ∈ columns (clean_columns df)) judge_parts ∧
    Exists (λ r, ¬ text_middle (get "Judge_Middle_Intial" r))
      (records (clean_columns df)).
Proof.
  intros Hnd.
  destruct (process_before_name df Hnd) as (df8 & -> & C8 & R).
  assert (Forall (λ c, c ∈ columns df8) judge_parts
          ↔ Forall (λ c, c ∈ columns (clean_columns df)) judge_parts) as Hparts.
  { rewrite C8. cbn [foldl]. unfold judge_parts.
    rewrite !list.Forall_cons, !list.Forall_nil, !elem_of_add_column.
    assert (∀ k, k ∈ judge_parts → k ∉ derived_columns) as Hk.
    { apply list.Forall_forall. closed_list. }
    split.
    - intros (H1 & H2 & H3 & _). repeat split.
      + destruct H1 as [H1|[H1|[H1|[H1|[H1|H1]]]]]; done.
      + destruct H2 as [H2|[H2|[H2|[H2|[H2|H2]]]]]; done.
      + destruct H3 as [H3|[H3|[H3|[H3|[H3|H3]]]]]; done.
    - clear. tauto. }
  unfold judge_full_name.
  destruct (decide (Forall (λ c, c ∈ columns df8) judge_parts)) as [Hp|Hp].
  - assert (Exists (λ r, ¬ text_middle (get "Judge_Middle_Intial" r))
              (records (clean_columns df))
            ↔ Exists (λ r, joined_name r = None) (records df8)) as Hex.
    { apply Forall2_Exists_iff with (1 := R).
      intros r r8 [Hmid Hnames].
      apply Hparts in Hp. unfold judge_parts in Hp.
      rewrite !list.Forall_cons in Hp. destruct Hp as (Hf & _ & Hl & _).
      pose proof (Hnames "Judge_First_Name" ltac:(closed_list) Hf) as Hfirst.
      pose proof (Hnames "Judge_Last_Name" ltac:(closed_list) Hl) as Hlast.
      split.
      - intros Hr. eapply joined_name_None; [done..|]. by rewrite Hmid.
      - intros Hnone Hr. rewrite <- Hmid in Hr.
        destruct (joined_name_is_Some _ _ _ Hfirst Hlast Hr) as [w Hw].
        congruence. }
    rewrite Hex, <- (try_assign_None "Judge_Full_Name").
    destruct (try_assign "Judge_Full_Name" joined_name df8) as [d|];
      cbn [mbind option_bind].
    + split; [done|]. by intros [_ ?].
    + split; [|done]. intros _. split; [by apply Hparts|done].
  - split; [by repeat case_decide|]. intros [H _]. by apply Hparts in H.
Qed.

End PreparationOutcome.

(** ** What preparation keeps, and when it gives the file up *)

Lemma len_clean_columns (df : DataFrame) : len (clean_columns df) = len df.
Proof. unfold len, clean_columns. cbn [records]. apply length_fmap. Qed.

Lemma text_not_derived (k : string) :
  k ∈ text_columns → (k ∉ derived_columns) ∧ (k ∉ date_columns).
Proof.
  revert k. apply list.Forall_forall. closed_list.
Qed.

Section PreparationExtras.

Variable parse_number : string → option Q.
Variable repr_number : Q → string.
Variable to_datetime : list cell → option (list cell).
Variable times : Z → list cell → Q → Q.

Local Abbreviation process :=
  (process parse_number repr_number to_datetime times).
Local Abbreviation load_data :=
  (load_data parse_number repr_number to_datetime times).

Lemma process_len (df out : DataFrame) :
  process df = Some out → len out = len df.
Proof.
  intros H. apply process_rows in H as [_ R].
  apply Forall2_length in R. rewrite <- (len_clean_columns df).
  unfold len. by rewrite R.
Qed.

Lemma load_data_len_pos (src : source) : (0 < len (load_data src))%nat.
Proof.
  assert (0 < len create_sample_data)%nat as H5 by (vm_compute; lia).
  destruct src as [| |df]; cbn [load_data]; try done.
  case_decide as Hlen; [done|].
  destruct (process df) as [out|] eqn:Hout; cbn [default]; [|done].
  apply process_len in Hout. unfold id. lia.
Qed.

(** X1. Preparation, when it raises nothing, keeps the records of the file
    in number and in order, keeps the header of the file as the first
    columns of the new header, adds nothing but the six derived columns, and
    leaves every cell untouched that is outside the derived columns, the
    date columns and the text columns. *)
Theorem preparation_keeps_records (df out : DataFrame) :
  process df = Some out →
  len out = len df ∧
  (columns (clean_columns df) `prefix_of` columns out) ∧
  (∀ k, k ∈ columns out
        ↔ k ∈ derived_columns ∨ k ∈ columns (clean_columns df)) ∧
  Forall2
    (λ r r', ∀ k, k ∉ derived_columns → k ∉ date_columns →
                  k ∉ text_columns → r' !! k = r !! k)
    (records (clean_columns df)) (records out).
Proof.
  intros H. split; [by apply process_len in H|]. split.
  { rewrite (process_columns _ _ _ _ _ _ H). cbn [foldl derived_columns].
    repeat (etrans; [|apply prefix_add_column]). done. }
  apply process_rows in H as [Hcols R]. split; [done|].
  apply (list.Forall2_impl _ _ _ _ R). intros r r' [_ Hrest] k Hd Hdate Ht.
  rewrite Hrest by done. rewrite decide_False; [done|tauto].
Qed.


(** X4. For a file with records whose header holds no name twice once it
    is cleaned, [load_data] gives the records of the file up for the
    fixture exactly when the file has the three columns of the parts of
    the name and one middle initial is a number or a boolean; in every
    other case the table is the prepared file, with as many records as the
    file. *)
Theorem numeric_initial_discards_file (df : DataFrame) :
  len df ≠ 0%nat → NoDup (columns (clean_columns df)) →
  let raises :=
    Forall (λ c, c ∈ columns (clean_columns df)) judge_parts ∧
    Exists (λ r, ¬ text_middle (get "Judge_Middle_Intial" r))
      (records (clean_columns df)) in
  (raises → process df = None ∧ load_data (Loaded df) = create_sample_data) ∧
  (¬ raises → process df = Some (load_data (Loaded df)) ∧
              len (load_data (Loaded df)) = len df).
Proof.
  intros Hlen Hnd raises. cbn [load_data]. rewrite decide_False by done.
  split.
  - intros Hr.
    apply (proj2 (process_None_iff parse_number repr_number to_datetime times
                    df Hnd)) in Hr.
    by rewrite Hr.
  - intros Hr. destruct (process df) as [out|] eqn:Hout.
    + cbn [default]. split; [done|]. by apply process_len in Hout.
    + by apply (proj1 (process_None_iff parse_number repr_number to_datetime
                         times df Hnd)) in Hout.
Qed.

(** X5. The table that [load_data] returns is never empty: it holds the
    five records of the fixture or as many records as the file, and the
    file counts only when it has a record. *)
Theorem load_data_never_empty (src : source) :
  (0 < len (load_data src))%nat ∧
  (load_data src = create_sample_data ∨
   ∃ df, src = Loaded df ∧ len (load_data src) = len df).
Proof.
  assert (0 < len create_sample_data)%nat as H5 by (vm_compute; lia).
  destruct src as [| |df]; cbn [load_data]; try (split; [done|by left]).
  case_decide as Hlen; [split; [done|by left]|].
  destruct (process df) as [out|] eqn:Hout; cbn [default];
    [|split; [done|by left]].
  apply process_len in Hout. unfold id. split; [lia|]. right. by exists df.
Qed.

End PreparationExtras.

(** X3. The conversion of the dates changes nothing outside the three date
    columns: with any two behaviours of [pd.to_datetime], one that raises
    included, preparation raises for the same files, and where it raises
    nothing the two tables have the same header and, record by record, the
    same cells outside the date columns. *)
Theorem dates_change_date_columns_only
    (parse_number : string → option Q) (repr_number : Q → string)
    (to_datetime1 to_datetime2 : list cell → option (list cell))
    (times : Z → list cell → Q → Q) (df : DataFrame) :
  (process parse_number repr_number to_datetime1 times df = None
   ↔ process parse_number repr_number to_datetime2 times df = None) ∧
  ∀ out1 out2,
    process parse_number repr_number to_datetime1 times df = Some out1 →
    process parse_number repr_number to_datetime2 times df = Some out2 →
    columns out1 = columns out2 ∧
    Forall2 (λ r1 r2, ∀ k, k ∉ date_columns → r1 !! k = r2 !! k)
      (records out1) (records out2).
Proof.
  split.
  { destruct (decide (NoDup (columns (clean_columns df)))) as [Hnd|Hnd].
    - by rewrite !process_None_iff.
    - unfold process. cbv zeta. by rewrite !decide_False. }
  intros out1 out2 H1 H2. split.
  { by rewrite (process_columns _ _ _ _ _ _ H1),
      (process_columns _ _ _ _ _ _ H2). }
  apply process_rows in H1 as [_ R1]. apply process_rows in H2 as [_ R2].
  pose proof (Forall2_common_source _ _ _ _ _ R1 R2) as R.
  apply (list.Forall2_impl _ _ _ _ R).
  intros r1 r2 (r & [[J1 P1 C1 S1 F1 N1] Rest1] & [[J2 P2 C2 S2 F2 N2] Rest2])
    k Hdate.
  destruct (decide (k ∈ derived_columns)) as [Hk|Hk].
  - unfold derived_columns in Hk. rewrite !elem_of_cons, elem_of_nil in Hk.
    destruct Hk as [->|[->|[->|[->|[->|[->|[]]]]]]]; congruence.
  - by rewrite Rest1, Rest2.
Qed.

Lemma preparation_keeps_records_witness :
  len (example_load_data (Loaded dated_frame)) = len dated_frame ∧
  (columns (clean_columns dated_frame)
     `prefix_of` columns (example_load_data (Loaded dated_frame))) ∧
  (∀ k, k ∈ columns (example_load_data (Loaded dated_frame))
        ↔ k ∈ derived_columns ∨ k ∈ columns (clean_columns dated_frame)) ∧
  Forall2
    (λ r r', ∀ k, k ∉ derived_columns → k ∉ date_columns →
                  k ∉ text_columns → r' !! k = r !! k)
    (records (clean_columns dated_frame))
    (records (example_load_data (Loaded dated_frame))).
Proof.
  apply (preparation_keeps_records parse_integer repr_floor dates_of_texts
           example_times dated_frame (example_load_data (Loaded dated_frame))).
  vm_compute. reflexivity.
Defined.


Lemma numeric_initial_discards_file_witness :
  example_load_data (Loaded numeric_initial_frame) = create_sample_data ∧
  len (example_load_data (Loaded dated_frame)) = len dated_frame.
Proof.
  split.
  - destruct (numeric_initial_discards_file parse_integer repr_floor
                dates_of_texts example_times numeric_initial_frame)
      as [Hraise _].
    { vm_compute. discriminate. }
    { closed_list. }
    apply Hraise. split; [closed_list|].
    apply Exists_cons_hd. vm_compute. tauto.
  - destruct (numeric_initial_discards_file parse_integer repr_floor
                dates_of_texts example_times dated_frame) as [_ Hkeep].
    { vm_compute. discriminate. }
    { closed_list. }
    apply Hkeep. intros [Hparts _]. revert Hparts. closed_list.
Defined.

(** ** The filters on any frame *)

Lemma filter_judge_general (df : DataFrame) (sj : string) :
  filter_judge sj df
  = if decide (sj ≠ "all" ∧ "Judge_Full_Name" ∉ columns df)
    then None
    else Some (mkDF (columns df)
                 (filter (λ r, keeps_judge sj r) (records df))).
Proof.
  unfold filter_judge, keeps_judge. rewrite select_total.
  destruct (decide (sj ≠ "all")) as [Hne|Heq].
  - destruct (decide ("Judge_Full_Name" ∈ columns df)) as [Hc|Hc].
    + rewrite decide_False by tauto. do 2 f_equal. apply list_filter_iff.
      intros r. by rewrite bool_decide_false.
    + by rewrite decide_True.
  - apply dec_stable in Heq. rewrite decide_False by tauto.
    rewrite bool_decide_true by done. cbn.
    rewrite filter_all. by destruct df.
Qed.

Lemma filter_sentence_general (df : DataFrame) (ss : string) :
  filter_sentence ss df
  = if decide ((ss = "with_sentence" ∨ ss = "no_sentence")
               ∧ "Has_Sentence" ∉ columns df)
    then None
    else Some (mkDF (columns df)
                 (filter (λ r, keeps_sentence ss r) (records df))).
Proof.
  unfold filter_sentence, keeps_sentence. rewrite !select_total.
  destruct (decide ("Has_Sentence" ∈ columns df)) as [Hc|Hc].
  - rewrite (decide_False (P := _ ∧ _)) by tauto.
    repeat case_decide; try done. rewrite filter_all. by destruct df.
  - destruct (decide (ss = "with_sentence")) as [->|H1].
    { by rewrite decide_True by auto. }
    destruct (decide (ss = "no_sentence")) as [->|H2].
    { by rewrite decide_True by auto. }
    rewrite decide_False by tauto. rewrite filter_all. by destruct df.
Qed.

(** The selections that make a filter raise on a frame with header
    [cols]: a judge, a charge or a sentence selection whose column the
    frame does not have. *)
Lemma apply_filters_general (df : DataFrame) (sj sc ss : string) :
  apply_filters sj sc ss df
  = if decide ((sj ≠ "all" ∧ "Judge_Full_Name" ∉ columns df)
               ∨ (sc ≠ "all" ∧ "ChargeOffenseDescription" ∉ columns df)
               ∨ ((ss = "with_sentence" ∨ ss = "no_sentence")
                  ∧ "Has_Sentence" ∉ columns df))
    then None
    else Some (mkDF (columns df)
                 (filter (λ r, keeps sj sc ss r) (records df))).
Proof.
  rewrite filter_keeps. unfold apply_filters.
  rewrite filter_judge_general.
  destruct (decide (sj ≠ "all" ∧ "Judge_Full_Name" ∉ columns df)) as [H1|H1].
  { by rewrite decide_True by tauto. }
  cbn [mbind option_bind]. rewrite filter_charge_spec. cbn [columns records].
  destruct (decide (sc ≠ "all" ∧ "ChargeOffenseDescription" ∉ columns df))
    as [H2|H2].
  { by rewrite decide_True by tauto. }
  cbn [mbind option_bind]. rewrite filter_sentence_general.
  cbn [columns records].
  destruct (decide ((ss = "with_sentence" ∨ ss = "no_sentence")
                    ∧ "Has_Sentence" ∉ columns df)) as [H3|H3].
  { by rewrite decide_True by tauto. }
  by rewrite decide_False by tauto.
Qed.

Lemma filter_idem {A} (P : A → Prop) `{!∀ x, Decision (P x)} (l : list A) :
  filter P (filter P l) = filter P l.
Proof. rewrite list_filter_filter. apply list_filter_iff. tauto. Qed.

Lemma filter_ext_in {A} (P Q : A → Prop)
    `{!∀ x, Decision (P x), !∀ x, Decision (Q x)} (l : list A) :
  Forall (λ x, P x ↔ Q x) l → filter P l = filter Q l.
Proof.
  induction 1 as [|x l Hx _ IH]; [done|]. rewrite !filter_cons, IH.
  destruct (decide (P x)), (decide (Q x)); tauto.
Qed.

(** X6. On every frame, the three filters together either raise or give a
    frame with the same header whose records are a sublist of the records
    of the frame, in their order: exactly the records that pass the three
    tests.  The same selections applied again to the result change
    nothing. *)
Theorem filters_keep_a_sublist (df f : DataFrame) (sj sc ss : string) :
  apply_filters sj sc ss df = Some f →
  columns f = columns df ∧
  records f `sublist_of` records df ∧
  (∀ r, r ∈ records f ↔ r ∈ records df ∧ keeps sj sc ss r) ∧
  (len f ≤ len df)%nat ∧
  apply_filters sj sc ss f = Some f.
Proof.
  rewrite apply_filters_general. case_decide as Hraise; [done|].
  intros [= <-]. cbn [columns records]. split; [done|].
  split; [apply sublist_filter|]. split.
  { intros r. rewrite list_elem_of_filter. tauto. }
  split; [apply length_filter|].
  rewrite apply_filters_general. cbn [columns records].
  rewrite decide_False by done. by rewrite filter_idem.
Qed.

Lemma filters_keep_a_sublist_witness :
  let f := mkDF (columns create_sample_data)
             (filter (λ r, keeps "John Smith" "all" "with_sentence" r)
                (records create_sample_data)) in
  columns f = columns create_sample_data ∧
  records f `sublist_of` records create_sample_data ∧
  (∀ r, r ∈ records f
        ↔ r ∈ records create_sample_data
          ∧ keeps "John Smith" "all" "with_sentence" r) ∧
  (len f ≤ len create_sample_data)%nat ∧
  apply_filters "John Smith" "all" "with_sentence" f = Some f.
Proof.
  apply (filters_keep_a_sublist create_sample_data _
           "John Smith" "all" "with_sentence").
  vm_compute. reflexivity.
Defined.

(** ** The parts of one cycle *)

Section CycleExtras.

Variable sort_values : ∀ A : Type, (A → nat) → list A → list A.

Local Abbreviation value_counts := (value_counts sort_values).
Local Abbreviation comparison := (comparison sort_values).
Local Abbreviation update_dashboard := (update_dashboard sort_values).

Lemma update_dashboard_inv (df : DataFrame) (sj sc ss : string) (out : outputs) :
  update_dashboard df sj sc ss = Some out →
  ∃ f, apply_filters sj sc ss df = Some f ∧
       make_summary f = Some (summary_stats out) ∧
       distribution "Jail_Days" "Jail Time Distribution"
         "No jail sentences in filtered data" 30 f = Some (jail_fig out) ∧
       distribution "Probation_Days_Clean" "Probation Time Distribution"
         "No probation sentences in filtered data" 30 f
       = Some (probation_fig out) ∧
       distribution "CommunityControl_Days" "Community Control Distribution"
         "No community control sentences in filtered data" 20 f
       = Some (cc_fig out) ∧
       distribution "CommunityService_Hours" "Community Service Distribution"
         "No community service sentences in filtered data" 20 f
       = Some (cs_fig out) ∧
       comparison sj sc f = Some (comparison_fig out) ∧
       table_data out = make_table f.
Proof.
  unfold update_dashboard.
  destruct (apply_filters sj sc ss df) as [f|]; [|done].
  cbn [mbind option_bind].
  destruct (make_summary f) as [s|] eqn:Es; [|done]. cbn [mbind option_bind].
  destruct (distribution "Jail_Days" _ _ _ f) as [j|] eqn:Ej; [|done].
  cbn [mbind option_bind].
  destruct (distribution "Probation_Days_Clean" _ _ _ f) as [p|] eqn:Ep;
    [|done].
  cbn [mbind option_bind].
  destruct (distribution "CommunityControl_Days" _ _ _ f) as [c|] eqn:Ec;
    [|done].
  cbn [mbind option_bind].
  destruct (distribution "CommunityService_Hours" _ _ _ f) as [h|] eqn:Eh;
    [|done].
  cbn [mbind option_bind].
  destruct (comparison sj sc f) as [m|] eqn:Em; [|done].
  cbn [mbind option_bind].
  intros [= <-]. exists f. cbn. by rewrite Ej, Ep, Ec, Eh.
Qed.

(** ** The sentence selections *)

Lemma prepared_flag (r : gmap string cell) :
  prepared_record r → ∃ b, get "Has_Sentence" r = CBool b.
Proof.
  intros [(jail & prob & cc & cs & _ & _ & _ & _ & Hf) _].
  eexists. unfold get. by rewrite Hf.
Qed.

Lemma keeps_with_sentence (sj sc : string) (rs : list (gmap string cell)) :
  filter (λ r, keeps sj sc "with_sentence" r) rs
  = filter (λ r, eq_bool true (get "Has_Sentence" r))
      (filter (λ r, keeps sj sc "all" r) rs).
Proof.
  rewrite list_filter_filter. apply list_filter_iff. intros r.
  unfold keeps, keeps_sentence.
  repeat case_decide; try done; rewrite !andb_True; cbn; tauto.
Qed.

Lemma keeps_no_sentence (sj sc : string) (rs : list (gmap string cell)) :
  filter (λ r, keeps sj sc "no_sentence" r) rs
  = filter (λ r, eq_bool false (get "Has_Sentence" r))
      (filter (λ r, keeps sj sc "all" r) rs).
Proof.
  rewrite list_filter_filter. apply list_filter_iff. intros r.
  unfold keeps, keeps_sentence.
  repeat case_decide; try done; rewrite !andb_True; cbn; tauto.
Qed.

Lemma no_sentence_complement (rs : list (gmap string cell)) :
  Forall prepared_record rs →
  filter (λ r, eq_bool false (get "Has_Sentence" r)) rs
  = filter (λ r, ¬ eq_bool true (get "Has_Sentence" r)) rs.
Proof.
  intros H. apply filter_ext_in, (list.Forall_impl _ _ _ H).
  intros r [b ->]%prepared_flag. destruct b; vm_compute; tauto.
Qed.

(** X7. On a prepared table and under every judge and charge selection,
    the selection "with_sentence" and the selection "no_sentence" split
    the view of the selection "all" in two: each record of that view is in
    exactly one of the two, in its order, the first holding the records
    whose flag is true and the second those whose flag is false. *)
Theorem sentence_selections_partition (df fa : DataFrame) (sj sc : string) :
  prepared df → apply_filters sj sc "all" df = Some fa →
  ∃ fw fn,
    apply_filters sj sc "with_sentence" df = Some fw ∧
    apply_filters sj sc "no_sentence" df = Some fn ∧
    records fw
    = filter (λ r, eq_bool true (get "Has_Sentence" r)) (records fa) ∧
    records fn
    = filter (λ r, ¬ eq_bool true (get "Has_Sentence" r)) (records fa) ∧
    Forall (λ r, r !! "Has_Sentence" = Some (CBool true)) (records fw) ∧
    Forall (λ r, r !! "Has_Sentence" = Some (CBool false)) (records fn) ∧
    records fw ++ records fn ≡ₚ records fa ∧
    (len fw + len fn = len fa)%nat.
Proof.
  intros Hdf Ha.
  destruct (apply_filters_prepared _ _ _ _ _ Hdf Ha) as (Hfa & _ & Ra & _).
  revert Ha. rewrite !apply_filters_spec
    by (apply prepared_columns; [done|closed_list]).
  case_decide as Hraise; [done|]. intros _.
  eexists _, _. split; [done|]. split; [done|]. cbn [records].
  rewrite keeps_with_sentence, keeps_no_sentence, <- Ra.
  destruct Hfa as [_ Hrows]. rewrite (no_sentence_complement _ Hrows).
  split; [done|]. split; [done|].
  assert (∀ r, r ∈ records fa →
            ∃ b, r !! "Has_Sentence" = Some (CBool b) ∧
                 (eq_bool true (get "Has_Sentence" r) ↔ b = true)) as Hflag.
  { intros r Hin. rewrite list.Forall_forall in Hrows.
    destruct (Hrows r Hin) as [(jail & prob & cc & cs & _ & _ & _ & _ & Hf) _].
    eexists. split; [exact Hf|]. unfold get. rewrite Hf. cbn.
    destruct (spec_has_sentence jail prob cc cs); vm_compute;
      (split; [done|intros; exact I]) || (split; intros; done). }
  split.
  { apply list.Forall_forall. intros r [Hr Hin]%list_elem_of_filter.
    destruct (Hflag r Hin) as (b & -> & Hb). by rewrite (proj1 Hb Hr). }
  split.
  { apply list.Forall_forall. intros r [Hr Hin]%list_elem_of_filter.
    destruct (Hflag r Hin) as (b & -> & Hb). destruct b; [|done].
    exfalso. apply Hr, Hb. done. }
  pose proof (filter_app_complement
                (λ r, eq_bool true (get "Has_Sentence" r)) (records fa)) as Hp.
  split; [done|]. unfold len. rewrite <- length_app. by rewrite Hp.
Qed.

(** ** The share of the records with a sentence *)

Lemma inject_nat_pos (n : nat) : (0 < n)%nat → (0 < inject_Z (Z.of_nat n))%Q.
Proof. intros H. unfold Qlt. cbn. lia. Qed.

Lemma percent_bounds (part whole : nat) :
  (part ≤ whole)%nat → (0 < whole)%nat →
  (0 <= percent part whole)%Q ∧ (percent part whole <= 100)%Q.
Proof.
  intros Hle Hpos. unfold percent.
  pose proof (inject_nat_pos whole Hpos) as Hw.
  assert (0 <= inject_Z (Z.of_nat part) / inject_Z (Z.of_nat whole))%Q as H0.
  { apply Qle_shift_div_l; [done|]. rewrite Qmult_0_l.
    unfold Qle. cbn. lia. }
  assert (inject_Z (Z.of_nat part) / inject_Z (Z.of_nat whole) <= 1)%Q as H1.
  { apply Qle_shift_div_r; [done|]. rewrite Qmult_1_l.
    rewrite <- Zle_Qle. lia. }
  split.
  - apply Qmult_le_0_compat; [done|]. by unfold Qle.
  - apply Qle_trans with (1 * 100)%Q; [|by unfold Qle].
    apply Qmult_le_compat_r; [done|]. by unfold Qle.
Qed.

Lemma percent_all (n : nat) : (0 < n)%nat → (percent n n == 100)%Q.
Proof.
  intros Hpos. unfold percent. pose proof (inject_nat_pos n Hpos) as Hn.
  unfold Qdiv. rewrite Qmult_inv_r; [reflexivity|].
  intros E. rewrite E in Hn. by apply Qlt_irrefl in Hn.
Qed.

Lemma percent_none (n : nat) : (percent 0 n == 0)%Q.
Proof. unfold percent. cbn [Z.of_nat]. unfold Qdiv. by rewrite !Qmult_0_l. Qed.

(** X8. On a prepared table and for a view with records, the summary
    shows the number of cases in view and, for the cases with a sentence,
    the number of records of the view whose flag is true with its share in
    percent.  The number is at most the number of cases in view and the
    share is between 0 and 100; under the selection "with_sentence" the
    number is the whole view and the share is 100, under "no_sentence"
    both are 0. *)
Theorem sentence_share_of_views (df f : DataFrame) (sj sc ss : string) :
  prepared df → apply_filters sj sc ss df = Some f → (0 < len f)%nat →
  ∃ s, make_summary f = Some s ∧
       (∀ out, update_dashboard df sj sc ss = Some out →
               summary_stats out = s) ∧
       cases_in_view s = len f ∧
       cases_with_sentence s
       = Shown (sentenced (records f),
                percent (sentenced (records f)) (len f)) ∧
       (sentenced (records f) ≤ len f)%nat ∧
       (0 <= percent (sentenced (records f)) (len f))%Q ∧
       (percent (sentenced (records f)) (len f) <= 100)%Q ∧
       (ss = "with_sentence" →
        sentenced (records f) = len f ∧
        (percent (sentenced (records f)) (len f) == 100)%Q) ∧
       (ss = "no_sentence" →
        sentenced (records f) = 0%nat ∧
        (percent (sentenced (records f)) (len f) == 0)%Q).
Proof.
  intros Hdf Hf Hne.
  destruct (apply_filters_prepared _ _ _ _ _ Hdf Hf) as (Hpf & _ & Rf & _).
  eexists. split; [apply (make_summary_spec f Hpf)|]. split.
  { intros out (f' & Hf' & Hs & _)%update_dashboard_inv.
    rewrite Hf in Hf'. injection Hf' as <-.
    rewrite (make_summary_spec f Hpf) in Hs. by injection Hs as <-. }
  cbn [cases_in_view cases_with_sentence]. rewrite decide_True by done.
  fold (sentenced (records f)).
  assert (sentenced (records f) ≤ len f)%nat as Hle by apply length_filter.
  destruct (percent_bounds _ (len f) Hle Hne) as [H0 H100].
  split; [done|]. split; [done|]. split; [done|]. split; [done|].
  split; [done|]. split.
  - intros ->. assert (sentenced (records f) = len f) as Hn.
    { unfold sentenced, len. rewrite Rf, keeps_with_sentence.
      by rewrite filter_idem. }
    split; [done|]. rewrite Hn. by apply percent_all.
  - intros ->. assert (sentenced (records f) = 0%nat) as Hn.
    { unfold sentenced. rewrite Rf, keeps_no_sentence.
      destruct Hdf as [_ Hrows].
      rewrite no_sentence_complement by by apply Forall_filter_sub.
      rewrite list_filter_filter.
      rewrite (list_filter_iff _ (λ _, False)) by tauto.
      generalize (filter (λ r, keeps sj sc "all" r) (records df)).
      intros l. by induction l. }
    split; [done|]. rewrite Hn. apply percent_none.
Qed.

(** ** The distributions beside the summary *)

Lemma positive_numbers_lt (l : list Q) :
  Forall (λ q, (0 < q)%Q) (filter (λ q, Qpositive q) l).
Proof.
  apply list.Forall_forall. intros q [Hq _]%list_elem_of_filter.
  apply Qpositive_lt. by apply Is_true_true.
Qed.

Lemma same_values_spec (title none none' : string) (n : nat) (l : list Q) :
  same_values n
    (match filter (λ q, Qpositive q) l with
     | [] => Annotation title none
     | pos => Histogram title (length pos) (CNum <$> pos) n
     end)
    (spec_mean_positive none' l).
Proof.
  unfold spec_mean_positive. pose proof (positive_numbers_lt l) as Hpos.
  destruct (filter (λ q, Qpositive q) l) as [|q qs]; [done|].
  cbn [same_values]. exists (q :: qs). repeat split; try done. cbn. lia.
Qed.

(** X9. On a prepared table, the jail chart and the jail line of the
    summary show the same values, and so do the probation chart and the
    probation line: either the chart is a histogram of the strictly positive
    values of the view, their number in its title, and the line is their
    mean, or the chart and the line are both placeholders.  No chart counts
    more values than the view has records. *)
Theorem histogram_matches_average (df f : DataFrame) (sj sc ss : string) :
  prepared df → apply_filters sj sc ss df = Some f →
  ∃ s jail prob,
    make_summary f = Some s ∧
    distribution "Jail_Days" "Jail Time Distribution"
      "No jail sentences in filtered data" 30 f = Some jail ∧
    distribution "Probation_Days_Clean" "Probation Time Distribution"
      "No probation sentences in filtered data" 30 f = Some prob ∧
    (∀ out, update_dashboard df sj sc ss = Some out →
            summary_stats out = s ∧ jail_fig out = jail ∧
            probation_fig out = prob) ∧
    same_values 30 jail (average_jail s) ∧
    same_values 30 prob (average_probation s) ∧
    (∀ t n x b, jail = Histogram t n x b ∨ prob = Histogram t n x b →
                (n ≤ len f)%nat).
Proof.
  intros Hdf Hf.
  destruct (apply_filters_prepared _ _ _ _ _ Hdf Hf) as (Hpf & _ & _ & _).
  destruct (prepared_has_number f "Jail_Days" Hpf) as [Hjc Hjn];
    [closed_list|].
  destruct (prepared_has_number f "Probation_Days_Clean" Hpf) as [Hpc Hpn];
    [closed_list|].
  eexists _, _, _. split; [apply (make_summary_spec f Hpf)|].
  split; [by apply distribution_spec|]. split; [by apply distribution_spec|].
  split.
  { intros out (f' & Hf' & Hs & Hj & Hp & _)%update_dashboard_inv.
    rewrite Hf in Hf'. injection Hf' as <-.
    rewrite (make_summary_spec f Hpf) in Hs.
    rewrite distribution_spec in Hj, Hp by done.
    injection Hs as <-. injection Hj as <-. by injection Hp as <-. }
  cbn [average_jail average_probation].
  split; [apply same_values_spec|]. split; [apply same_values_spec|].
  assert (∀ c, Forall (has_number c) (records f) →
            (length (filter (λ q, Qpositive q) (numbers_of c (records f)))
             ≤ len f)%nat) as Hbound.
  { intros c Hc. destruct (positive_column c (records f) Hc) as [_ <-].
    apply length_filter. }
  pose proof (Hbound _ Hjn) as Bj. pose proof (Hbound _ Hpn) as Bp.
  intros t n x b [H|H]; revert H.
  - destruct (filter _ (numbers_of "Jail_Days" (records f))); [done|].
    by intros [= _ <- _ _].
  - destruct (filter _ (numbers_of "Probation_Days_Clean" (records f)));
      [done|].
    by intros [= _ <- _ _].
Qed.

(** ** The table of the records *)

Lemma round_half_even_near (q : Q) :
  (q - (1 # 2) <= inject_Z (round_half_even q))%Q ∧
  (inject_Z (round_half_even q) <= q + (1 # 2))%Q.
Proof.
  unfold round_half_even.
  pose proof (Qfloor_le q) as Hle. pose proof (Qlt_floor q) as Hlt.
  rewrite inject_Z_plus in Hlt. change (inject_Z 1) with 1%Q in Hlt.
  destruct (Qcompare_spec (q - inject_Z (Qfloor q)) (1 # 2)) as [He|Hl|Hg].
  - destruct (Z.even (Qfloor q)); rewrite ?inject_Z_plus;
      change (inject_Z 1) with 1%Q; lra.
  - lra.
  - rewrite inject_Z_plus. change (inject_Z 1) with 1%Q. lra.
Qed.

Lemma lookup_table_record (available : list string) (r : gmap string cell)
    (c : string) :
  table_record available r !! c
  = if decide (c ∈ available)
    then Some (if decide (c ∈ rounded_columns)
               then round_cell false (get c r) else get c r)
    else None.
Proof.
  unfold table_record. induction available as [|a l IH].
  - rewrite decide_False by apply not_elem_of_nil. apply lookup_empty.
  - cbn [fmap list_fmap list_to_map foldr fst snd].
    destruct (decide (a = c)) as [->|Hne].
    + rewrite lookup_insert_eq. rewrite (decide_True (P := c ∈ c :: l)) by by left.
      done.
    + rewrite lookup_insert_ne by done. rewrite IH.
      destruct (decide (c ∈ l)) as [Hin|Hin].
      * by rewrite (decide_True (P := c ∈ a :: l)) by by right.
      * rewrite (decide_False (P := c ∈ a :: l)); [done|].
        rewrite elem_of_cons. intros [->|?]; done.
Qed.

(** X10. On a prepared table, the table of the records has one row for
    every record of the view, in the order of the view, whatever their
    number.  A row holds the columns of the fixed list that the table has
    and no other: the four durations rounded to the nearest whole number,
    at most one half away from the value, and the other cells as they
    are. *)
Theorem table_rows (df f : DataFrame) (sj sc ss : string) :
  prepared df → apply_filters sj sc ss df = Some f →
  (∀ out, update_dashboard df sj sc ss = Some out →
          table_data out = make_table f) ∧
  length (make_table f) = len f ∧
  Forall2
    (λ r row,
       (∀ c, c ∈ table_columns → c ∈ columns df → c ∉ rounded_columns →
             row !! c = Some (get c r)) ∧
       (∀ c, c ∈ rounded_columns →
             ∃ (q : Q) (z : Z),
               r !! c = Some (CNum q) ∧ row !! c = Some (CNum (inject_Z z)) ∧
               (q - (1 # 2) <= inject_Z z)%Q ∧ (inject_Z z <= q + (1 # 2))%Q) ∧
       (∀ c, c ∉ table_columns ∨ c ∉ columns df → row !! c = None))
    (records f) (make_table f).
Proof.
  intros Hdf Hf.
  destruct (apply_filters_prepared _ _ _ _ _ Hdf Hf) as (Hpf & Hcols & _ & _).
  split.
  { intros out (f' & Hf' & _ & _ & _ & _ & _ & _ & Ht)%update_dashboard_inv.
    rewrite Hf in Hf'. by injection Hf' as <-. }
  assert (∀ c, c ∈ filter (λ c, c ∈ columns f) table_columns
               ↔ c ∈ table_columns ∧ c ∈ columns df) as Hav.
  { intros c. rewrite list_elem_of_filter, Hcols. tauto. }
  assert (filter (λ c, c ∈ columns f) table_columns ≠ []) as Hne.
  { intros E. assert ("Judge_Full_Name" ∈ @nil string) as Hin; [|by inv Hin].
    rewrite <- E. apply Hav. split; [closed_list|].
    apply prepared_columns; [done|closed_list]. }
  unfold make_table. cbv zeta.
  destruct (decide (filter (λ c, c ∈ columns f) table_columns ≠ []
                    ∧ (0 < len f)%nat)) as [[_ Hpos]|Hno].
  - split; [unfold len; apply length_fmap|].
    apply Forall2_fmap_r, Forall_Forall2_diag.
    destruct Hpf as [_ Hrows]. apply (list.Forall_impl _ _ _ Hrows).
    intros r Hr. split; [|split].
    + intros c Ht Hc Hround. rewrite lookup_table_record.
      rewrite decide_True by by apply Hav. by rewrite decide_False.
    + intros c Hround. rewrite lookup_table_record.
      rewrite decide_True.
      2:{ apply Hav. split.
          - revert c Hround. apply list.Forall_forall. closed_list.
          - apply prepared_columns; [done|].
            revert c Hround. apply list.Forall_forall. closed_list. }
      rewrite decide_True by done.
      assert (has_number c r) as [q Hq].
      { destruct Hr as [(jail & prob & cc & cs & Hj & Hp & Hc & Hs & _) _].
        unfold rounded_columns in Hround.
        rewrite !elem_of_cons, elem_of_nil in Hround.
        destruct Hround as [->|[->|[->|[->|[]]]]]; by eexists. }
      exists q, (round_half_even q). unfold get. rewrite Hq.
      split; [done|]. split; [done|]. apply round_half_even_near.
    + intros c Hc. rewrite lookup_table_record. rewrite decide_False; [done|].
      rewrite Hav. tauto.
  - assert (records f = []) as E.
    { destruct (records f) eqn:E; [done|]. exfalso. apply Hno.
      split; [done|]. unfold len. rewrite E. cbn. lia. }
    unfold len. rewrite E. split; [done|]. constructor.
Qed.

(** ** When a cycle raises *)

Lemma group_summary_None_iff (key : string) (df : DataFrame) :
  prepared df →
  group_summary key df = None ↔ key ∉ columns df ∨ "CaseNumber" ∉ columns df.
Proof.
  intros Hdf. split.
  - intros Hnone.
    destruct (decide (key ∈ columns df)) as [Hk|Hk]; [|by left].
    destruct (decide ("CaseNumber" ∈ columns df)) as [Hc|Hc]; [|by right].
    by rewrite group_summary_spec in Hnone.
  - intros Hmiss. unfold group_summary. rewrite decide_False; [done|].
    intros [Hk Hagg]. destruct Hmiss as [Hmiss|Hmiss]; [done|].
    apply Hmiss. rewrite list.Forall_forall in Hagg. apply Hagg. closed_list.
Qed.

Lemma comparison_None_iff (sj sc : string) (f : DataFrame) :
  prepared f →
  comparison sj sc f = None
  ↔ (0 < len f)%nat ∧
    ((sj ≠ "all" ∧ ("ChargeOffenseDescription" ∉ columns f
                    ∨ "CaseNumber" ∉ columns f))
     ∨ (sj = "all" ∧ sc ≠ "all" ∧ "CaseNumber" ∉ columns f)).
Proof.
  intros Hf. unfold comparison.
  assert ("Judge_Full_Name" ∈ columns f) as Hj
    by (apply prepared_columns; [done|closed_list]).
  destruct (decide (sj ≠ "all" ∧ (0 < len f)%nat)) as [[Hsj Hpos]|H1].
  { destruct (group_summary "ChargeOffenseDescription" f) as [s|] eqn:Hs;
      cbn [mbind option_bind].
    - split; [done|]. intros [_ [[_ Hmiss]|[? _]]]; [|done].
      apply (group_summary_None_iff "ChargeOffenseDescription" f Hf) in Hmiss.
      congruence.
    - split; [|done]. intros _. split; [done|]. left. split; [done|].
      by apply (group_summary_None_iff "ChargeOffenseDescription" f Hf). }
  destruct (decide (sc ≠ "all" ∧ (0 < len f)%nat)) as [[Hsc Hpos]|H2].
  { assert (sj = "all") as -> by (apply dec_stable; tauto).
    destruct (group_summary "Judge_Full_Name" f) as [s|] eqn:Hs;
      cbn [mbind option_bind].
    - split; [done|]. intros [_ [[? _]|(_ & _ & Hmiss)]]; [done|].
      assert (group_summary "Judge_Full_Name" f = None) as Hn
        by (apply (group_summary_None_iff _ f Hf); by right).
      congruence.
    - split; [|done]. intros _. split; [done|]. right.
      split; [done|]. split; [done|].
      apply (group_summary_None_iff _ f Hf) in Hs as [Hs|Hs]; done. }
  assert (∀ fig : option figure, is_Some fig →
            fig = None
            ↔ (0 < len f)%nat ∧
              ((sj ≠ "all" ∧ ("ChargeOffenseDescription" ∉ columns f
                              ∨ "CaseNumber" ∉ columns f))
               ∨ (sj = "all" ∧ sc ≠ "all" ∧ "CaseNumber" ∉ columns f)))
    as Hsome.
  { intros fig [x ->]. split; [done|]. clear -H1 H2. tauto. }
  apply Hsome. case_decide; [|done].
  unfold value_counts. by rewrite decide_True.
Qed.

(** On a prepared table, once the filters have passed, a cycle raises
    exactly when its comparison chart does. *)
Lemma update_dashboard_comparison (df f : DataFrame) (sj sc ss : string) :
  prepared df → apply_filters sj sc ss df = Some f →
  update_dashboard df sj sc ss = None ↔ comparison sj sc f = None.
Proof.
  intros Hdf Hf.
  destruct (apply_filters_prepared _ _ _ _ _ Hdf Hf) as (Hpf & _ & _ & _).
  unfold update_dashboard. rewrite Hf. cbn [mbind option_bind].
  rewrite (make_summary_spec f Hpf). cbn [mbind option_bind].
  destruct (prepared_has_number f "Jail_Days" Hpf) as [? ?]; [closed_list|].
  destruct (prepared_has_number f "Probation_Days_Clean" Hpf) as [? ?];
    [closed_list|].
  destruct (prepared_has_number f "CommunityControl_Days" Hpf) as [? ?];
    [closed_list|].
  destruct (prepared_has_number f "CommunityService_Hours" Hpf) as [? ?];
    [closed_list|].
  rewrite !distribution_spec by done. cbn [mbind option_bind].
  by destruct (comparison sj sc f).
Qed.

(** X11. On a prepared table a cycle raises in three cases and in no
    other: a charge is selected and the table has no charge column; a judge
    is selected, the view has records and the table has no charge column;
    a judge or a charge is selected, the view has records and the table has
    no case number column. *)
Theorem update_dashboard_raises_iff (df : DataFrame) (sj sc ss : string) :
  prepared df →
  update_dashboard df sj sc ss = None
  ↔ (sc ≠ "all" ∧ "ChargeOffenseDescription" ∉ columns df)
    ∨ (filter (λ r, keeps sj sc ss r) (records df) ≠ [] ∧
       ((sj ≠ "all" ∧ "ChargeOffenseDescription" ∉ columns df)
        ∨ ((sj ≠ "all" ∨ sc ≠ "all") ∧ "CaseNumber" ∉ columns df))).
Proof.
  intros Hdf.
  destruct (apply_filters sj sc ss df) as [f|] eqn:Hf.
  - rewrite (update_dashboard_comparison df f sj sc ss Hdf Hf).
    destruct (apply_filters_prepared _ _ _ _ _ Hdf Hf)
      as (Hpf & Cf & Rf & Hcharge).
    rewrite (comparison_None_iff sj sc f Hpf), len_positive, Cf, Rf.
    destruct (decide (sj = "all")) as [Hsj|Hsj];
      destruct (decide (sc = "all")) as [Hsc|Hsc];
      clear -Hsj Hsc Hcharge; tauto.
  - unfold update_dashboard. rewrite Hf. cbn [mbind option_bind].
    split; [intros _|done]. left. revert Hf.
    rewrite apply_filters_spec
      by (apply prepared_columns; [done|closed_list]).
    by case_decide.
Qed.

End CycleExtras.

Lemma sentence_selections_partition_witness :
  ∃ fw fn,
    apply_filters "all" "all" "with_sentence"
      zeros_table = Some fw ∧
    apply_filters "all" "all" "no_sentence"
      zeros_table = Some fn ∧
    records fw
    = filter (λ r, eq_bool true (get "Has_Sentence" r))
        (records zeros_table) ∧
    records fn
    = filter (λ r, ¬ eq_bool true (get "Has_Sentence" r))
        (records zeros_table) ∧
    Forall (λ r, r !! "Has_Sentence" = Some (CBool true)) (records fw) ∧
    Forall (λ r, r !! "Has_Sentence" = Some (CBool false)) (records fn) ∧
    records fw ++ records fn
      ≡ₚ records zeros_table ∧
    (len fw + len fn = len zeros_table)%nat.
Proof.
  apply (sentence_selections_partition
           zeros_table
           zeros_table "all" "all").
  - apply load_data_prepared.
  - vm_compute. reflexivity.
Defined.

Lemma sentence_share_of_views_witness :
  ∃ s, make_summary zeros_table = Some s ∧
       (∀ out, example_update_dashboard zeros_table "all" "all" "all" = Some out →
               summary_stats out = s) ∧
       cases_in_view s = len zeros_table ∧
       cases_with_sentence s
       = Shown (sentenced (records zeros_table),
                percent (sentenced (records zeros_table)) (len zeros_table)) ∧
       (sentenced (records zeros_table) ≤ len zeros_table)%nat ∧
       (0 <= percent (sentenced (records zeros_table)) (len zeros_table))%Q ∧
       (percent (sentenced (records zeros_table)) (len zeros_table) <= 100)%Q ∧
       ("all" = "with_sentence" →
        sentenced (records zeros_table) = len zeros_table ∧
        (percent (sentenced (records zeros_table)) (len zeros_table)
         == 100)%Q) ∧
       ("all" = "no_sentence" →
        sentenced (records zeros_table) = 0%nat ∧
        (percent (sentenced (records zeros_table)) (len zeros_table) == 0)%Q).
Proof.
  apply (sentence_share_of_views (@sort_desc) zeros_table zeros_table "all" "all" "all").
  - apply load_data_prepared.
  - vm_compute. reflexivity.
  - vm_compute. lia.
Defined.

Lemma histogram_matches_average_witness :
  ∃ s jail prob,
    make_summary zeros_table = Some s ∧
    distribution "Jail_Days" "Jail Time Distribution"
      "No jail sentences in filtered data" 30 zeros_table = Some jail ∧
    distribution "Probation_Days_Clean" "Probation Time Distribution"
      "No probation sentences in filtered data" 30 zeros_table = Some prob ∧
    (∀ out, example_update_dashboard zeros_table "all" "all" "all" = Some out →
            summary_stats out = s ∧ jail_fig out = jail ∧
            probation_fig out = prob) ∧
    same_values 30 jail (average_jail s) ∧
    same_values 30 prob (average_probation s) ∧
    (∀ t n x b, jail = Histogram t n x b ∨ prob = Histogram t n x b →
                (n ≤ len zeros_table)%nat).
Proof.
  apply (histogram_matches_average (@sort_desc) zeros_table zeros_table "all" "all" "all").
  - apply load_data_prepared.
  - vm_compute. reflexivity.
Defined.

Lemma table_rows_witness :
  (∀ out, example_update_dashboard zeros_table "all" "all" "all" = Some out →
          table_data out = make_table zeros_table) ∧
  length (make_table zeros_table) = len zeros_table ∧
  Forall2
    (λ r row,
       (∀ c, c ∈ table_columns → c ∈ columns zeros_table →
             c ∉ rounded_columns → row !! c = Some (get c r)) ∧
       (∀ c, c ∈ rounded_columns →
             ∃ (q : Q) (z : Z),
               r !! c = Some (CNum q) ∧ row !! c = Some (CNum (inject_Z z)) ∧
               (q - (1 # 2) <= inject_Z z)%Q ∧ (inject_Z z <= q + (1 # 2))%Q) ∧
       (∀ c, c ∉ table_columns ∨ c ∉ columns zeros_table → row !! c = None))
    (records zeros_table) (make_table zeros_table).
Proof.
  apply (table_rows (@sort_desc) zeros_table zeros_table "all" "all" "all").
  - apply load_data_prepared.
  - vm_compute. reflexivity.
Defined.

Lemma update_dashboard_raises_iff_witness :
  example_update_dashboard zeros_table "Smith" "all" "all" = None
  ↔ ("all" ≠ "all" ∧ "ChargeOffenseDescription" ∉ columns zeros_table)
    ∨ (filter (λ r, keeps "Smith" "all" "all" r) (records zeros_table) ≠ [] ∧
       (("Smith" ≠ "all" ∧ "ChargeOffenseDescription" ∉ columns zeros_table)
        ∨ (("Smith" ≠ "all" ∨ "all" ≠ "all")
           ∧ "CaseNumber" ∉ columns zeros_table))).
Proof.
  apply (update_dashboard_raises_iff (@sort_desc) zeros_table "Smith" "all" "all").
  apply load_data_prepared.
Defined.

(** ** Facts on distinct values and on [sorted] *)

Lemma elem_of_unique_text (s : string) (cs : list cell) :
  CStr s ∈ cs → CStr s ∈ unique cs.
Proof.
  induction cs as [|c cs IH]; [by intros ?%elem_of_nil|].
  intros [E|Hin]%elem_of_cons.
  { subst c. cbn [unique]. by left. }
  specialize (IH Hin).
  assert (key_eqb c (CStr s) = false → CStr s ∈ c :: filter
            (λ k, negb (key_eqb c k)) (unique cs)) as Hkeep.
  { intros Hne. right. apply list_elem_of_filter. split; [|done].
    by rewrite Hne. }
  destruct c as [q| |t|b]; cbn [unique].
  - by apply Hkeep.
  - done.
  - destruct (decide (t = s)) as [->|Hne]; [by left|].
    apply Hkeep. cbn. by apply bool_decide_eq_false.
  - by apply Hkeep.
Qed.

Lemma unique_text (cs : list cell) :
  Forall (λ c, is_text c ∨ c = CNaN) cs → Forall (λ c, is_text c) (unique cs).
Proof.
  intros H. apply list.Forall_forall. intros k [Hk Hna]%elem_of_unique.
  rewrite list.Forall_forall in H. by destruct (H k Hk).
Qed.

Lemma unique_NoDup_text (cs : list cell) :
  Forall (λ c, is_text c ∨ c = CNaN) cs → NoDup (unique cs).
Proof.
  induction 1 as [|c cs Hc _ IH]; [constructor|].
  destruct c as [q| |t|b]; try (by destruct Hc). cbn [unique].
  apply list.NoDup_cons. split; [|by apply NoDup_filter].
  intros [Hk _]%list_elem_of_filter. cbn in Hk.
  by rewrite bool_decide_true in Hk.
Qed.

Lemma key_leb_text_trans (a b c : cell) :
  is_text a → is_text b → is_text c →
  key_leb a b → key_leb b c → key_leb a c.
Proof.
  destruct a as [| |x|], b as [| |y|], c as [| |z|]; try done. cbn.
  intros _ _ _ H1 H2.
  exact (@transitivity _ String.le _ x y z H1 H2).
Qed.

Lemma key_leb_text_total (a b : cell) :
  is_text a → is_text b → key_leb a b ∨ key_leb b a.
Proof.
  destruct a as [| |x|], b as [| |y|]; try done. cbn. intros _ _.
  destruct (String.leb_total x y) as [->| ->]; auto.
Qed.

Lemma insert_key_sorted (k : cell) (l : list cell) :
  is_text k → Forall (λ c, is_text c) l →
  StronglySorted (λ a b, key_leb a b) l →
  StronglySorted (λ a b, key_leb a b) (insert_key k l).
Proof.
  intros Hk. induction l as [|y l IH]; intros Ht Hl; cbn [insert_key].
  { repeat constructor. }
  apply list.Forall_cons in Ht as [Hy Ht].
  apply StronglySorted_cons in Hl as [Hyl Hl].
  destruct (key_leb k y) eqn:Hle.
  - apply StronglySorted_cons. split; [|by apply StronglySorted_cons].
    constructor; [by rewrite Hle|].
    rewrite list.Forall_forall in Hyl, Ht |- *. intros z Hz.
    apply (key_leb_text_trans k y z); auto.
  - apply StronglySorted_cons. split; [|by apply IH].
    rewrite insert_key_perm. constructor; [|done].
    destruct (key_leb_text_total k y Hk Hy) as [H|H]; [|done].
    by rewrite Hle in H.
Qed.

Lemma foldr_insert_key_perm (l : list cell) : foldr insert_key [] l ≡ₚ l.
Proof.
  induction l as [|k l IH]; [done|]. cbn [foldr].
  by rewrite insert_key_perm, IH.
Qed.

Lemma foldr_insert_key_sorted (vals : list cell) :
  Forall (λ c, is_text c) vals →
  StronglySorted (λ a b, key_leb a b) (foldr insert_key [] vals).
Proof.
  induction 1 as [|k l Hk Hl IH]; [constructor|]. cbn [foldr].
  apply insert_key_sorted; [done| |done]. by rewrite foldr_insert_key_perm.
Qed.

Lemma sorted_text (vals : list cell) :
  Forall (λ c, is_text c) vals →
  ∃ l, sorted vals = Some l ∧ l ≡ₚ vals ∧
       StronglySorted (λ a b, key_leb a b) l.
Proof.
  intros Ht. exists (foldr insert_key [] vals). unfold sorted.
  assert (forallb is_text vals = true) as ->.
  { apply Is_true_true, forallb_True. apply (list.Forall_impl _ _ _ Ht). done. }
  split; [done|]. split.
  - apply foldr_insert_key_perm.
  - by apply foldr_insert_key_sorted.
Qed.

Section LayoutFacts.

Variable repr_number : Q → string.

Local Abbreviation safe_get_unique := (safe_get_unique repr_number).

(** A value that [safe_get_unique] gives is a value of the column. *)
Lemma elem_of_safe_get_unique (c : string) (df : DataFrame) (v : cell) :
  v ∈ safe_get_unique c df →
  c ∈ columns df ∧ v ∈ column c df ∧ truthy v ∧
  astype_str repr_number v ≠ "nan".
Proof.
  unfold safe_get_unique. case_decide as Hc; [|by intros ?%elem_of_nil].
  unfold sorted. case (_ || _); [|by intros ?%elem_of_nil]. cbn [default].
  assert (∀ l, foldr insert_key [] l ≡ₚ l) as Hp.
  { induction l as [|k l IH]; [done|]. cbn [foldr].
    by rewrite insert_key_perm, IH. }
  rewrite Hp. intros [Hv Hin]%list_elem_of_filter.
  apply andb_True in Hv as [Htrue Hnan].
  apply elem_of_unique in Hin as [Hin _].
  split; [done|]. split; [done|]. split; [done|].
  apply negb_True in Hnan. intros E. apply Hnan. by apply bool_decide_pack.
Qed.

(** On a column of texts, [safe_get_unique] raises nothing. *)
Lemma safe_get_unique_text (c : string) (df : DataFrame) :
  c ∈ columns df →
  Forall (λ r, is_text (get c r) ∨ get c r = CNaN) (records df) →
  safe_get_unique c df
    ≡ₚ filter (λ val, truthy val
                      && negb (bool_decide
                                 (astype_str repr_number val = "nan")))
         (unique (column c df)) ∧
  StronglySorted (λ a b, key_leb a b) (safe_get_unique c df).
Proof.
  intros Hc Ht. unfold safe_get_unique. rewrite decide_True by done.
  assert (Forall (λ c, is_text c ∨ c = CNaN) (column c df)) as Hcol.
  { unfold column. by apply Forall_fmap. }
  destruct (sorted_text
              (filter (λ val, truthy val
                              && negb (bool_decide
                                         (astype_str repr_number val = "nan")))
                 (unique (column c df)))) as (l & -> & Hp & Hs).
  { apply Forall_filter_sub. by apply unique_text. }
  done.
Qed.

End LayoutFacts.

(** ** The options of the dropdowns *)

Lemma char_length_append (a b : string) :
  char_length (a +:+ b) = (char_length a + char_length b)%nat.
Proof.
  induction a as [|x a IH]; [done|].
  rewrite append_cons. cbn [char_length]. rewrite IH.
  by destruct (is_continuation x).
Qed.

Lemma char_length_take_chars (n : nat) (s : string) :
  char_length (take_chars n s) = (n `min` char_length s)%nat.
Proof.
  revert n. induction s as [|x s IH]; intros n; cbn [take_chars char_length].
  { by rewrite Nat.min_0_r. }
  destruct (is_continuation x) eqn:Hx.
  - cbn [char_length]. by rewrite Hx, IH.
  - destruct n as [|n]; [done|]. cbn [char_length]. rewrite Hx, IH. lia.
Qed.

Lemma take_chars_prefix (n : nat) (s : string) :
  ∃ u, s = take_chars n s +:+ u.
Proof.
  revert n. induction s as [|x s IH]; intros n; cbn [take_chars].
  { by exists EmptyString. }
  destruct (is_continuation x).
  - destruct (IH n) as [u Hu]. exists u. rewrite append_cons. by rewrite <- Hu.
  - destruct n as [|n]; [by exists (String x s)|].
    destruct (IH n) as [u Hu]. exists u. rewrite append_cons. by rewrite <- Hu.
Qed.

Lemma filter_Forall_id {A} (P : A → Prop) `{!∀ x, Decision (P x)}
    (l : list A) :
  Forall P l → filter P l = l.
Proof.
  induction 1 as [|x l Hx _ IH]; [done|].
  by rewrite filter_cons, decide_True, IH.
Qed.

Section DropdownValues.

Variable repr_number : Q → string.

Local Abbreviation safe_get_unique := (safe_get_unique repr_number).

(** X12. On a column that holds texts and missing values only,
    [safe_get_unique] gives exactly the texts of the column that are
    neither empty nor "nan", each one once, in ascending order. *)
Theorem dropdown_values_of_text_column (c : string) (df : DataFrame) :
  c ∈ columns df →
  Forall (λ r, is_text (get c r) ∨ get c r = CNaN) (records df) →
  (∀ v, v ∈ safe_get_unique c df
        ↔ ∃ s, v = CStr s ∧ s ≠ EmptyString ∧ s ≠ "nan" ∧
               CStr s ∈ column c df) ∧
  NoDup (safe_get_unique c df) ∧
  StronglySorted (λ a b, key_leb a b) (safe_get_unique c df).
Proof.
  intros Hc Ht.
  destruct (safe_get_unique_text repr_number c df Hc Ht) as [Hp Hs].
  assert (Forall (λ c, is_text c ∨ c = CNaN) (column c df)) as Hcol.
  { unfold column. by apply Forall_fmap. }
  split; [|split; [|done]].
  - intros v. rewrite Hp, list_elem_of_filter. split.
    + intros [Hv [Hin Hna]%elem_of_unique].
      rewrite list.Forall_forall in Hcol.
      destruct (Hcol v Hin) as [Hv'|Hv']; [|done].
      destruct v as [| |s|]; try done. exists s.
      apply andb_True in Hv as [Htrue Hnan]. cbn in Htrue, Hnan.
      apply negb_True in Htrue, Hnan.
      split; [done|]. split; [|split; [|done]].
      * intros E. apply Htrue. by apply bool_decide_pack.
      * intros E. apply Hnan. by apply bool_decide_pack.
    + intros (s & -> & Hempty & Hnan & Hin). split.
      * apply andb_True. cbn. split; apply negb_True;
          by intros ?%bool_decide_unpack.
      * by apply elem_of_unique_text.
  - rewrite Hp. apply NoDup_filter. by apply unique_NoDup_text.
Qed.

(** The values that [safe_get_unique] gives for the names of a prepared
    table are the distinct names, all of them. *)
Lemma prepared_names_text (df : DataFrame) :
  prepared df →
  Forall (λ r, is_text (get "Judge_Full_Name" r) ∨ get "Judge_Full_Name" r = CNaN)
    (records df).
Proof.
  intros [_ Hrows]. apply (list.Forall_impl _ _ _ Hrows).
  intros r [_ (name & Hn & _)]. left. unfold get. by rewrite Hn.
Qed.

Lemma prepared_judge_values (df : DataFrame) :
  prepared df →
  safe_get_unique "Judge_Full_Name" df ≡ₚ unique (column "Judge_Full_Name" df).
Proof.
  intros Hdf.
  destruct (safe_get_unique_text repr_number "Judge_Full_Name" df) as [Hp _].
  { apply prepared_columns; [done|closed_list]. }
  { by apply prepared_names_text. }
  rewrite Hp. rewrite filter_Forall_id; [done|].
  apply list.Forall_forall. intros v [Hin _]%elem_of_unique.
  apply list_elem_of_fmap in Hin as (r & -> & Hr).
  destruct Hdf as [_ Hrows]. rewrite list.Forall_forall in Hrows.
  destruct (Hrows r Hr) as [_ (name & Hn & Hknown)].
  unfold get. rewrite Hn. cbn.
  rewrite !list.not_elem_of_cons in Hknown.
  destruct Hknown as (Hnan & _ & Hempty & _).
  apply andb_True. split; apply negb_True; by intros ?%bool_decide_unpack.
Qed.

Lemma option_selects (c : string) (df : DataFrame) (s : string) :
  CStr s ∈ safe_get_unique c df →
  c ∈ columns df ∧ ∃ r, r ∈ records df ∧ get c r = CStr s.
Proof.
  intros (Hc & Hin & _)%elem_of_safe_get_unique. split; [done|].
  apply list_elem_of_fmap in Hin as (r & E & Hr). by exists r.
Qed.

(** X13. On a prepared table no selection that the dropdowns offer makes
    the filters raise: a charge is offered only when the table has the
    charge column.  A judge that the dropdown offers, selected alone, gives
    a view with a record, and so does a charge. *)
Theorem offered_selections_never_raise (df : DataFrame) (j c ss : string) :
  prepared df →
  j = "all" ∨ CStr j ∈ safe_get_unique "Judge_Full_Name" df →
  c = "all" ∨ CStr c ∈ safe_get_unique "ChargeOffenseDescription" df →
  is_Some (apply_filters j c ss df) ∧
  (CStr j ∈ safe_get_unique "Judge_Full_Name" df →
   ∃ f, apply_filters j "all" "all" df = Some f ∧ (0 < len f)%nat) ∧
  (CStr c ∈ safe_get_unique "ChargeOffenseDescription" df →
   ∃ f, apply_filters "all" c "all" df = Some f ∧ (0 < len f)%nat).
Proof.
  intros Hdf Hj Hc.
  assert ("Judge_Full_Name" ∈ columns df) as Hjc
    by (apply prepared_columns; [done|closed_list]).
  assert ("Has_Sentence" ∈ columns df) as Hsc
    by (apply prepared_columns; [done|closed_list]).
  assert (∀ (sj sc : string) (r : gmap string cell),
            r ∈ records df → keeps sj sc "all" r →
            (0 < length (filter (λ r, keeps sj sc "all" r) (records df)))%nat)
    as Hpos.
  { intros sj sc r Hr Hk.
    assert (r ∈ filter (λ r, keeps sj sc "all" r) (records df)) as Hin
      by by apply list_elem_of_filter.
    destruct (filter _ (records df)); [by apply elem_of_nil in Hin|cbn; lia]. }
  split; [|split].
  - rewrite apply_filters_spec by done. rewrite decide_False; [done|].
    intros [Hne Hmiss]. destruct Hc as [->|Hc]; [done|].
    by apply option_selects in Hc as [? _].
  - intros (_ & r & Hr & Hget)%option_selects.
    rewrite apply_filters_spec by done. rewrite decide_False by tauto.
    eexists. split; [done|]. unfold len. cbn [records].
    apply (Hpos _ _ r Hr). unfold keeps, keeps_judge, keeps_charge.
    rewrite Hget. cbn. rewrite (bool_decide_true (j = j)) by done.
    by rewrite orb_true_r.
  - intros (Hcc & r & Hr & Hget)%option_selects.
    rewrite apply_filters_spec by done. rewrite decide_False by tauto.
    eexists. split; [done|]. unfold len. cbn [records].
    apply (Hpos _ _ r Hr). unfold keeps, keeps_judge, keeps_charge.
    rewrite Hget. cbn. rewrite (bool_decide_true (c = c)) by done.
    by rewrite orb_true_r.
Qed.


End DropdownValues.

Lemma length_unique (cs : list cell) : (length (unique cs) ≤ length cs)%nat.
Proof.
  induction cs as [|c cs IH]; [done|].
  pose proof (length_filter (λ k, negb (key_eqb c k)) (unique cs)) as Hf.
  destruct c; cbn [unique length]; lia.
Qed.

Lemma header_metrics_prepared (df : DataFrame) :
  prepared df → (0 < len df)%nat →
  header_metrics df
  = Some (mkMetrics (len df) (length (unique (column "Judge_Full_Name" df)))
            (sentenced (records df))
            (CNum (Qmean (numbers_of "Jail_Days" (records df))))
            (CNum (Qmean (numbers_of "Probation_Days_Clean" (records df))))).
Proof.
  intros Hdf Hpos. unfold header_metrics, series.
  rewrite (decide_True (P := "Judge_Full_Name" ∈ columns df))
    by (apply prepared_columns; [done|closed_list]).
  cbn [mbind option_bind]. rewrite select_total.
  rewrite (decide_True (P := "Has_Sentence" ∈ columns df))
    by (apply prepared_columns; [done|closed_list]).
  cbn [mbind option_bind].
  destruct (prepared_has_number df "Jail_Days" Hdf) as [Hj Hjn];
    [closed_list|].
  destruct (prepared_has_number df "Probation_Days_Clean" Hdf) as [Hp Hpn];
    [closed_list|].
  rewrite (decide_True (P := "Jail_Days" ∈ columns df)) by done.
  rewrite (decide_True (P := "Probation_Days_Clean" ∈ columns df)) by done.
  cbn [mbind option_bind]. unfold column.
  apply len_positive in Hpos.
  rewrite !mean_numbers by done. done.
Qed.

Section LayoutExtras.

Variable parse_number : string → option Q.
Variable repr_number : Q → string.
Variable to_datetime : list cell → option (list cell).
Variable times : Z → list cell → Q → Q.

Local Abbreviation process :=
  (process parse_number repr_number to_datetime times).
Local Abbreviation load_data :=
  (load_data parse_number repr_number to_datetime times).
Local Abbreviation safe_get_unique := (safe_get_unique repr_number).
Local Abbreviation judge_options := (judge_options repr_number).
Local Abbreviation charge_options := (charge_options repr_number).

(** X14. The layout computes its five figures without raising, whatever
    the source: the number of records of the table, which is not zero; the
    number of distinct names of judges, which is the number of judges that
    the dropdown offers, at least one and at most the number of records;
    the number of records whose flag is true; and the means of the jail
    days and of the probation days over all the records of the table, the
    records with a zero included. *)
Theorem header_figures (src : source) :
  ∃ m, header_metrics (load_data src) = Some m ∧
       total_cases m = len (load_data src) ∧
       (0 < total_cases m)%nat ∧
       length (judge_options (load_data src)) = S (judge_count m) ∧
       (1 ≤ judge_count m)%nat ∧ (judge_count m ≤ total_cases m)%nat ∧
       sentenced_cases m = sentenced (records (load_data src)) ∧
       (sentenced_cases m ≤ total_cases m)%nat ∧
       avg_jail_days m
       = CNum (Qmean (numbers_of "Jail_Days" (records (load_data src)))) ∧
       avg_probation_days m
       = CNum (Qmean (numbers_of "Probation_Days_Clean"
                        (records (load_data src)))).
Proof.
  pose proof (load_data_prepared parse_number repr_number to_datetime times
                src) as Hdf.
  pose proof (load_data_len_pos parse_number repr_number to_datetime times
                src) as Hpos.
  revert Hdf Hpos. generalize (load_data src). intros df Hdf Hpos.
  eexists. split; [by apply header_metrics_prepared|].
  cbn [total_cases judge_count sentenced_cases avg_jail_days
       avg_probation_days].
  split; [done|]. split; [done|].
  pose proof (prepared_judge_values repr_number df Hdf) as Hp.
  split. { unfold judge_options. cbn [length]. by rewrite length_fmap, Hp. }
  split.
  { destruct (records df) as [|r rs] eqn:E; [unfold len in Hpos; rewrite E in Hpos; cbn in Hpos; lia|].
    destruct Hdf as [_ Hrows]. rewrite E in Hrows.
    apply Forall_inv in Hrows as [_ (name & Hn & _)].
    assert (CStr name ∈ unique (column "Judge_Full_Name" df)) as Hin.
    { apply elem_of_unique_text. unfold column. rewrite E. cbn.
      unfold get. rewrite Hn. by left. }
    destruct (unique _); [by apply elem_of_nil in Hin|cbn; lia]. }
  split.
  { etrans; [apply length_unique|]. unfold column, len.
    by rewrite length_fmap. }
  split; [done|]. split; [apply length_filter|]. done.
Qed.

Lemma load_data_charge_text (src : source) :
  "ChargeOffenseDescription" ∈ columns (load_data src) →
  Forall (λ r, is_text (get "ChargeOffenseDescription" r)
               ∨ get "ChargeOffenseDescription" r = CNaN)
    (records (load_data src)).
Proof.
  assert (Forall (λ r, is_text (get "ChargeOffenseDescription" r)
                       ∨ get "ChargeOffenseDescription" r = CNaN)
            (records create_sample_data)) as Hsample.
  { unfold create_sample_data. cbn [records].
    repeat (apply List.Forall_cons || apply List.Forall_nil);
      left; vm_compute; exact I. }
  destruct src as [| |df]; cbn [load_data]; try done.
  case_decide as Hlen; [done|].
  destruct (process df) as [out|] eqn:Hout; cbn [default]; [|done].
  unfold id. intros Hc. apply process_rows in Hout as [Hcols R].
  apply Hcols in Hc as [Hc|Hc]; [exfalso; revert Hc; closed_list|].
  apply (Forall2_Forall_r _ _ _ _ R), list.Forall_forall.
  intros r _ r' [_ Hrest]. left. unfold get.
  rewrite Hrest by closed_list.
  rewrite decide_True by (split; [closed_list|done]). done.
Qed.

(** X15. The options of the charge dropdown are built without raising,
    whatever the source: the option "All Charges" first, then one option
    for every value of [safe_get_unique], in its order.  The value of an
    option is the whole text of a charge of the table; its label is that
    text when it has at most 80 characters and else its first 80
    characters followed by three dots, 83 characters in all. *)
Theorem charge_options_build (src : source) :
  ∃ rest,
    charge_options (load_data src)
    = Some ((CStr "All Charges", CStr "all") :: rest) ∧
    snd <$> rest = safe_get_unique "ChargeOffenseDescription" (load_data src) ∧
    Forall
      (λ o, ∃ s t,
         o = (CStr t, CStr s) ∧
         (char_length t ≤ 83)%nat ∧
         ((char_length s ≤ 80)%nat → t = s) ∧
         ((80 < char_length s)%nat →
          t = take_chars 80 s +:+ "..." ∧
          char_length (take_chars 80 s) = 80%nat ∧
          (∃ u, s = take_chars 80 s +:+ u) ∧
          char_length t = 83%nat) ∧
         ∃ r, r ∈ records (load_data src) ∧
              get "ChargeOffenseDescription" r = CStr s)
      rest.
Proof.
  pose proof (load_data_charge_text src) as Htext.
  revert Htext. generalize (load_data src). intros df Htext.
  assert (Forall (λ v, ∃ s, v = CStr s ∧
                    ∃ r, r ∈ records df ∧
                         get "ChargeOffenseDescription" r = CStr s)
            (safe_get_unique "ChargeOffenseDescription" df)) as Hvals.
  { apply list.Forall_forall. intros v Hv.
    pose proof Hv as (Hc & Hin & _ & Hnan)%elem_of_safe_get_unique.
    apply list_elem_of_fmap in Hin as (r & -> & Hr).
    specialize (Htext Hc). rewrite list.Forall_forall in Htext.
    destruct (Htext r Hr) as [Ht|Ht].
    - destruct (get _ r) as [| |s|] eqn:E; try done. exists s.
      split; [done|]. by exists r.
    - rewrite Ht in Hnan. done. }
  exists ((λ charge, (default CNaN (charge_label charge), charge))
            <$> safe_get_unique "ChargeOffenseDescription" df).
  split; [|split].
  - unfold charge_options.
    rewrite (mapM_fmap_eq _
               (λ charge, (default CNaN (charge_label charge), charge)));
      [done|].
    apply (list.Forall_impl _ _ _ Hvals). by intros v (s & -> & _).
  - rewrite <- list_fmap_compose. apply list_fmap_id.
  - apply Forall_fmap. apply (list.Forall_impl _ _ _ Hvals).
    intros v (s & -> & Hr). cbn [compose charge_label default].
    eexists s, _. split; [done|].
    assert (char_length "..." = 3%nat) as Hdots by reflexivity.
    destruct (80 <? char_length s)%nat eqn:Hlen.
    + apply Nat.ltb_lt in Hlen.
      assert (char_length (take_chars 80 s) = 80%nat) as H80
        by (rewrite char_length_take_chars; lia).
      rewrite char_length_append, H80, Hdots.
      split; [lia|]. split; [lia|]. split; [|done].
      intros _. split; [done|]. split; [done|].
      split; [apply take_chars_prefix|done].
    + apply Nat.ltb_ge in Hlen. split; [lia|]. split; [done|].
      split; [lia|done].
Qed.

End LayoutExtras.

(** Forty-one accented letters are 82 bytes and a label as they are;
    eighty-one are cut after the eightieth letter. *)
Example charge_label_counts_characters :
  charge_label (CStr (repeated 41 e_acute))
  = Some (CStr (repeated 41 e_acute)) ∧
  charge_label (CStr (repeated 81 e_acute))
  = Some (CStr (repeated 80 e_acute +:+ "...")).
Proof. split; vm_compute; reflexivity. Qed.

Lemma dropdown_values_of_text_column_witness :
  (∀ v, v ∈ safe_get_unique repr_floor "Judge_Full_Name" create_sample_data
        ↔ ∃ s, v = CStr s ∧ s ≠ EmptyString ∧ s ≠ "nan" ∧
               CStr s ∈ column "Judge_Full_Name" create_sample_data) ∧
  NoDup (safe_get_unique repr_floor "Judge_Full_Name" create_sample_data) ∧
  StronglySorted (λ a b, key_leb a b)
    (safe_get_unique repr_floor "Judge_Full_Name" create_sample_data).
Proof.
  apply (dropdown_values_of_text_column repr_floor "Judge_Full_Name"
           create_sample_data).
  - closed_list.
  - unfold create_sample_data. cbn [records].
    repeat (apply List.Forall_cons || apply List.Forall_nil);
      left; vm_compute; exact I.
Defined.

Lemma offered_selections_never_raise_witness :
  is_Some (apply_filters "John Smith" "DRIVING UNDER THE INFLUENCE"
             "with_sentence" create_sample_data) ∧
  (CStr "John Smith"
     ∈ safe_get_unique repr_floor "Judge_Full_Name" create_sample_data →
   ∃ f, apply_filters "John Smith" "all" "all" create_sample_data = Some f ∧
        (0 < len f)%nat) ∧
  (CStr "DRIVING UNDER THE INFLUENCE"
     ∈ safe_get_unique repr_floor "ChargeOffenseDescription"
         create_sample_data →
   ∃ f, apply_filters "all" "DRIVING UNDER THE INFLUENCE" "all"
          create_sample_data = Some f ∧
        (0 < len f)%nat).
Proof.
  apply (offered_selections_never_raise repr_floor create_sample_data
           "John Smith" "DRIVING UNDER THE INFLUENCE" "with_sentence").
  - apply sample_prepared.
  - right. apply (list_elem_of_lookup_2 _ 0%nat). vm_compute. reflexivity.
  - right. apply (list_elem_of_lookup_2 _ 1%nat). vm_compute. reflexivity.
Defined.

(** ** The groups of a view *)

Section ViewExtras.

Variable sort_values : ∀ A : Type, (A → nat) → list A → list A.

Local Abbreviation value_counts := (value_counts sort_values).
Local Abbreviation comparison := (comparison sort_values).
Local Abbreviation update_dashboard := (update_dashboard sort_values).

Lemma key_eqb_text (s : string) (k : cell) :
  key_eqb (CStr s) k = true → k = CStr s.
Proof.
  destruct k as [| |t|]; cbn; try done. by intros ->%bool_decide_eq_true.
Qed.

Lemma sum_list_with_filter {A} (f : A → nat) (P : A → Prop)
    `{!∀ x, Decision (P x)} (l : list A) :
  sum_list_with f l
  = (sum_list_with f (filter P l) + sum_list_with f (filter (λ x, ¬ P x) l))%nat.
Proof. by rewrite <- sum_list_with_app, filter_app_complement. Qed.

Lemma sum_list_with_ext_in {A} (f g : A → nat) (l : list A) :
  Forall (λ x, f x = g x) l → sum_list_with f l = sum_list_with g l.
Proof. induction 1 as [|x l Hx _ IH]; cbn; [done|]. by rewrite Hx, IH. Qed.

(** The groups of a column of texts split the records: their sizes add up
    to the number of records. *)
Lemma group_sizes_total (key : string) (rs : list (gmap string cell)) :
  Forall (λ r, is_text (get key r)) rs →
  sum_list_with (λ k, length (group key k rs)) (unique (get key <$> rs))
  = length rs.
Proof.
  induction 1 as [|r rs Hr Hrs IH]; [done|].
  destruct (get key r) as [| |s|] eqn:Hs; try done.
  rewrite fmap_cons, Hs. cbn [unique sum_list_with length].
  assert (Forall (λ c, is_text c ∨ c = CNaN) (get key <$> rs)) as Hcol.
  { apply Forall_fmap, (list.Forall_impl _ _ _ Hrs). by left. }
  pose proof (unique_NoDup_text _ Hcol) as Hnd.
  pose proof (unique_text _ Hcol) as Htext.
  assert (sum_list_with (λ k, length (group key k (r :: rs)))
            (filter (λ k, negb (key_eqb (CStr s) k)) (unique (get key <$> rs)))
          = sum_list_with (λ k, length (group key k rs))
              (filter (λ k, negb (key_eqb (CStr s) k))
                 (unique (get key <$> rs)))) as Hothers.
  { apply sum_list_with_ext_in, list.Forall_forall.
    intros k [Hk Hin]%list_elem_of_filter. unfold group.
    rewrite filter_cons, Hs. rewrite decide_False; [done|].
    rewrite list.Forall_forall in Htext. specialize (Htext k Hin).
    destruct k as [| |t|]; try done. cbn in Hk |- *.
    apply negb_True in Hk. intros E%bool_decide_unpack. apply Hk.
    apply bool_decide_pack. done. }
  assert (sum_list_with (λ k, length (group key k rs))
            (filter (λ k, ¬ negb (key_eqb (CStr s) k))
               (unique (get key <$> rs)))
          = length (group key (CStr s) rs)) as Hself.
  { assert (Forall (λ k, k = CStr s)
              (filter (λ k, ¬ negb (key_eqb (CStr s) k))
                 (unique (get key <$> rs)))) as Hall.
    { apply list.Forall_forall. intros k [Hk _]%list_elem_of_filter.
      apply key_eqb_text. destruct (key_eqb (CStr s) k); [done|].
      by destruct Hk. }
    assert (NoDup (filter (λ k, ¬ negb (key_eqb (CStr s) k))
                     (unique (get key <$> rs)))) as Hnd'
      by by apply NoDup_filter.
    destruct (filter (λ k, ¬ negb (key_eqb (CStr s) k))
                (unique (get key <$> rs))) as [|k l] eqn:Hf.
    - cbn. symmetry. apply length_zero_iff_nil.
      unfold group. apply elem_of_nil_inv.
      intros x [Hx Hin]%list_elem_of_filter.
      apply Is_true_true, key_eqb_text in Hx.
      assert (CStr s ∈ unique (get key <$> rs)) as Hu.
      { apply elem_of_unique_text. rewrite <- Hx.
        by apply list_elem_of_fmap_2. }
      apply (filter_nil_not_elem_of _ _ _ Hf) in Hu; [done|].
      cbn. rewrite bool_decide_true by done. cbn. tauto.
    - apply list.Forall_cons in Hall as [-> Hall].
      apply list.NoDup_cons in Hnd' as [Hk Hnd'].
      destruct l as [|k' l].
      + cbn. lia.
      + apply list.Forall_cons in Hall as [-> _]. exfalso. apply Hk.
        by left. }
  rewrite Hothers. rewrite <- IH.
  rewrite (sum_list_with_filter _ (λ k, negb (key_eqb (CStr s) k))
             (unique (get key <$> rs))), Hself.
  unfold group at 1. rewrite filter_cons, Hs.
  rewrite decide_True by (cbn; by rewrite bool_decide_true).
  cbn [length]. unfold group. lia.
Qed.

Lemma group_size_pos (key : string) (k : cell) (rs : list (gmap string cell)) :
  k ∈ unique (get key <$> rs) → (1 ≤ length (group key k rs))%nat.
Proof.
  intros Hk. rewrite <- group_keys_perm in Hk. apply group_nonempty in Hk.
  destruct (group key k rs); [done|cbn; lia].
Qed.

Lemma sum_list_with_take {A} (f : A → nat) (n : nat) (l : list A) :
  (sum_list_with f (take n l) ≤ sum_list_with f l)%nat.
Proof.
  rewrite <- (take_drop n l) at 2. rewrite sum_list_with_app. lia.
Qed.

Lemma sum_list_snd {A} (l : list (A * nat)) :
  sum_list (snd <$> l) = sum_list_with snd l.
Proof. induction l as [|x l IH]; cbn; [done|]. by rewrite IH. Qed.

(** X16. On a prepared table, when neither a judge nor a charge is
    selected and the view has records, the comparison chart is the bar
    chart of the judges: at most 20 bars, no judge twice, the height of a
    bar the number of records of the view with that judge, at least one.
    The heights add up to at most the number of cases in view, and to
    exactly that number when the view has at most 20 judges. *)
Theorem top_judges_chart (df f : DataFrame) (ss : string) :
  sorts_by_count sort_values →
  prepared df → apply_filters "all" "all" ss df = Some f → (0 < len f)%nat →
  ∃ x y,
    comparison "all" "all" f = Some (Bars "Top 20 Judges by Case Count" x y) ∧
    (∀ out, update_dashboard df "all" "all" ss = Some out →
            comparison_fig out = Bars "Top 20 Judges by Case Count" x y) ∧
    length x = length y ∧ (length y ≤ 20)%nat ∧ NoDup x ∧
    Forall2 (λ k n, n = length (group "Judge_Full_Name" k (records f))
                    ∧ (1 ≤ n)%nat) x y ∧
    (sum_list y ≤ len f)%nat ∧
    ((length (unique (column "Judge_Full_Name" f)) ≤ 20)%nat →
     sum_list y = len f).
Proof.
  intros Hsort Hdf Hf Hpos.
  destruct (apply_filters_prepared _ _ _ _ _ Hdf Hf) as (Hpf & _ & _ & _).
  assert ("Judge_Full_Name" ∈ columns f) as Hj
    by (apply prepared_columns; [done|closed_list]).
  assert (comparison "all" "all" f
          = Some (Bars "Top 20 Judges by Case Count"
                    (fst <$> take 20 (sort_values _ snd
                       (spec_value_counts "Judge_Full_Name" f)))
                    (snd <$> take 20 (sort_values _ snd
                       (spec_value_counts "Judge_Full_Name" f))))) as Hcmp.
  { unfold comparison. rewrite !decide_False by (intros [? _]; done).
    rewrite decide_True by done. unfold value_counts.
    by rewrite decide_True by done. }
  eexists _, _. split; [exact Hcmp|]. split.
  { intros out (f' & Hf' & _ & _ & _ & _ & _ & Hc & _)%update_dashboard_inv.
    rewrite Hf in Hf'. injection Hf' as <-. rewrite Hcmp in Hc.
    by injection Hc as <-. }
  destruct (Hsort _ snd (spec_value_counts "Judge_Full_Name" f))
    as [Hperm _].
  assert (Forall (λ r, is_text (get "Judge_Full_Name" r)) (records f)) as Ht.
  { destruct Hpf as [_ Hrows]. apply (list.Forall_impl _ _ _ Hrows).
    intros r [_ (name & Hn & _)]. unfold get. by rewrite Hn. }
  assert (Forall (λ c, is_text c ∨ c = CNaN) (column "Judge_Full_Name" f))
    as Hcol.
  { apply Forall_fmap, (list.Forall_impl _ _ _ Ht). by left. }
  split; [by rewrite !length_fmap|].
  split; [rewrite length_fmap, length_take; lia|].
  split.
  { rewrite fmap_take. eapply sublist_NoDup; [|apply sublist_take].
    rewrite Hperm. unfold spec_value_counts. rewrite <- list_fmap_compose.
    rewrite (list_fmap_ext _ id (unique (column "Judge_Full_Name" f)))
      by done.
    rewrite list_fmap_id. by apply unique_NoDup_text. }
  split.
  { apply Forall2_fmap, Forall_Forall2_diag, Forall_take.
    rewrite Hperm. unfold spec_value_counts. apply Forall_fmap.
    apply list.Forall_forall. intros k Hk. cbn. split; [done|].
    by apply group_size_pos. }
  assert (sum_list_with snd (spec_value_counts "Judge_Full_Name" f) = len f)
    as Htotal.
  { unfold spec_value_counts, len, column.
    rewrite <- (group_sizes_total "Judge_Full_Name" (records f) Ht).
    generalize (unique (get "Judge_Full_Name" <$> records f)). intros l.
    induction l as [|k l IH]; [done|]. cbn. by rewrite IH. }
  rewrite sum_list_snd. split.
  - rewrite <- Htotal. etrans; [apply sum_list_with_take|]. by rewrite Hperm.
  - intros Hfew. rewrite take_ge; [by rewrite Hperm|].
    rewrite Hperm. unfold spec_value_counts. by rewrite length_fmap.
Qed.

Lemma sum_list_with_fmap {A B} (f : B → nat) (g : A → B) (l : list A) :
  sum_list_with f (g <$> l) = sum_list_with (λ x, f (g x)) l.
Proof. induction l as [|x l IH]; cbn; [done|]. by rewrite IH. Qed.

Lemma sum_list_with_le {A} (f g : A → nat) (l : list A) :
  Forall (λ x, (f x ≤ g x)%nat) l →
  (sum_list_with f l ≤ sum_list_with g l)%nat.
Proof. induction 1 as [|x l Hx _ IH]; cbn; lia. Qed.

(** X17. On a prepared view with a case number column, the breakdown by a
    column of texts has one row for every distinct text of the column, in
    ascending order of the texts.  The groups of the rows split the view:
    every group has a record and their sizes add up to the number of
    records.  The case count of a row is at most the size of its group, and
    is that size when no record of the group lacks its case number. *)
Theorem breakdown_groups (key : string) (f : DataFrame) :
  prepared f → key ∈ columns f → "CaseNumber" ∈ columns f →
  Forall (λ r, is_text (get key r)) (records f) →
  ∃ groups,
    group_summary key f = Some groups ∧
    NoDup (g_key <$> groups) ∧
    StronglySorted (λ a b, key_leb a b) (g_key <$> groups) ∧
    Forall
      (λ g, (1 ≤ length (group key (g_key g) (records f)))%nat ∧
            (g_cases g ≤ length (group key (g_key g) (records f)))%nat ∧
            (Forall (λ r, notna (get "CaseNumber" r))
               (group key (g_key g) (records f)) →
             g_cases g = length (group key (g_key g) (records f))))
      groups ∧
    sum_list_with (λ g, length (group key (g_key g) (records f))) groups
    = len f ∧
    (sum_list_with g_cases groups ≤ len f)%nat.
Proof.
  intros Hf Hkey Hcase Ht. exists (spec_group_summary key f).
  split; [by apply group_summary_spec|].
  assert (Forall (λ c, is_text c ∨ c = CNaN) (column key f)) as Hcol.
  { apply Forall_fmap, (list.Forall_impl _ _ _ Ht). by left. }
  assert (g_key <$> spec_group_summary key f = group_keys (column key f))
    as Hkeys.
  { unfold spec_group_summary. rewrite <- list_fmap_compose.
    apply list_fmap_id. }
  rewrite Hkeys. split.
  { rewrite group_keys_perm. by apply unique_NoDup_text. }
  split.
  { apply foldr_insert_key_sorted. by apply unique_text. }
  assert (Forall
            (λ g, (1 ≤ length (group key (g_key g) (records f)))%nat ∧
                  (g_cases g ≤ length (group key (g_key g) (records f)))%nat ∧
                  (Forall (λ r, notna (get "CaseNumber" r))
                     (group key (g_key g) (records f)) →
                   g_cases g = length (group key (g_key g) (records f))))
            (spec_group_summary key f)) as Hrows.
  { unfold spec_group_summary. apply Forall_fmap, list.Forall_forall.
    intros k Hk. cbn [compose g_key g_cases spec_aggregate].
    split; [|split].
    - apply group_size_pos. by rewrite <- group_keys_perm.
    - apply length_filter.
    - intros Hall. by rewrite filter_Forall_id. }
  split; [done|].
  assert (sum_list_with (λ g, length (group key (g_key g) (records f)))
            (spec_group_summary key f) = len f) as Htotal.
  { unfold spec_group_summary. rewrite sum_list_with_fmap.
    cbn [g_key spec_aggregate]. rewrite group_keys_perm.
    by apply group_sizes_total. }
  split; [done|]. rewrite <- Htotal. apply sum_list_with_le.
  apply (list.Forall_impl _ _ _ Hrows). tauto.
Qed.

(** ** The columns that a judge selection needs *)

(** X18. On a prepared table that lacks the charge column or the case
    number column, every judge that the dropdown offers makes the cycle
    raise when it is selected: the breakdown by charge needs both columns.
    With both columns no selection makes a cycle raise. *)
Theorem judge_selection_needs_columns (repr_number : Q → string)
    (df : DataFrame) (j : string) :
  prepared df → j ≠ "all" →
  CStr j ∈ safe_get_unique repr_number "Judge_Full_Name" df →
  ("ChargeOffenseDescription" ∉ columns df ∨ "CaseNumber" ∉ columns df →
   update_dashboard df j "all" "all" = None) ∧
  ("ChargeOffenseDescription" ∈ columns df → "CaseNumber" ∈ columns df →
   ∀ sc ss, is_Some (update_dashboard df j sc ss)).
Proof.
  intros Hdf Hj Hin. split.
  - intros Hmiss.
    assert (apply_filters j "all" "all" df
            = Some (mkDF (columns df)
                      (filter (λ r, keeps j "all" "all" r) (records df))))
      as Hf.
    { rewrite apply_filters_spec
        by (apply prepared_columns; [done|closed_list]).
      by rewrite decide_False by (intros [? _]; done). }
    apply (update_dashboard_comparison sort_values df _ j "all" "all" Hdf Hf).
    apply comparison_None_iff; [by apply prepared_filter|].
    cbn [columns]. split; [|left; tauto].
    apply (elem_of_safe_get_unique repr_number) in Hin as (_ & Hcol & _).
    apply list_elem_of_fmap in Hcol as (r & Hget & Hr).
    assert (r ∈ filter (λ r, keeps j "all" "all" r) (records df)) as Hview.
    { apply list_elem_of_filter. split; [|done].
      unfold keeps, keeps_judge. rewrite <- Hget. cbn.
      rewrite (bool_decide_true (j = j)) by done. by rewrite orb_true_r. }
    unfold len. cbn [records].
    destruct (filter _ (records df)); [by apply elem_of_nil in Hview|].
    cbn. lia.
  - intros Hc Hn sc ss. by apply update_dashboard_total.
Qed.

End ViewExtras.

Lemma top_judges_chart_witness :
  ∃ x y,
    comparison (@sort_desc) "all" "all" zeros_table
    = Some (Bars "Top 20 Judges by Case Count" x y) ∧
    (∀ out, example_update_dashboard zeros_table "all" "all" "all" = Some out →
            comparison_fig out = Bars "Top 20 Judges by Case Count" x y) ∧
    length x = length y ∧ (length y ≤ 20)%nat ∧ NoDup x ∧
    Forall2 (λ k n, n = length (group "Judge_Full_Name" k (records zeros_table))
                    ∧ (1 ≤ n)%nat) x y ∧
    (sum_list y ≤ len zeros_table)%nat ∧
    ((length (unique (column "Judge_Full_Name" zeros_table)) ≤ 20)%nat →
     sum_list y = len zeros_table).
Proof.
  apply (top_judges_chart (@sort_desc) zeros_table zeros_table "all").
  - apply sort_desc_sorts.
  - apply load_data_prepared.
  - vm_compute. reflexivity.
  - vm_compute. lia.
Defined.

Lemma breakdown_groups_witness :
  ∃ groups,
    group_summary "ChargeOffenseDescription" create_sample_data = Some groups ∧
    NoDup (g_key <$> groups) ∧
    StronglySorted (λ a b, key_leb a b) (g_key <$> groups) ∧
    Forall
      (λ g, (1 ≤ length (group "ChargeOffenseDescription" (g_key g)
                           (records create_sample_data)))%nat ∧
            (g_cases g ≤ length (group "ChargeOffenseDescription" (g_key g)
                                   (records create_sample_data)))%nat ∧
            (Forall (λ r, notna (get "CaseNumber" r))
               (group "ChargeOffenseDescription" (g_key g)
                  (records create_sample_data)) →
             g_cases g = length (group "ChargeOffenseDescription" (g_key g)
                                   (records create_sample_data))))
      groups ∧
    sum_list_with
      (λ g, length (group "ChargeOffenseDescription" (g_key g)
                      (records create_sample_data))) groups
    = len create_sample_data ∧
    (sum_list_with g_cases groups ≤ len create_sample_data)%nat.
Proof.
  apply (breakdown_groups "ChargeOffenseDescription" create_sample_data).
  - apply sample_prepared.
  - closed_list.
  - closed_list.
  - unfold create_sample_data. cbn [records].
    repeat (apply List.Forall_cons || apply List.Forall_nil);
      vm_compute; exact I.
Defined.

Lemma judge_selection_needs_columns_witness :
  ("ChargeOffenseDescription" ∉ columns dated_table) ∧
  ("CaseNumber" ∉ columns dated_table) ∧
  CStr "Smith" ∈ safe_get_unique repr_floor "Judge_Full_Name" dated_table ∧
  example_update_dashboard dated_table "Smith" "all" "all" = None ∧
  (∀ sc ss, is_Some (example_update_dashboard zeros_table "Smith" sc ss)).
Proof.
  assert (CStr "Smith" ∈ safe_get_unique repr_floor "Judge_Full_Name"
                           dated_table) as Hin.
  { apply (list_elem_of_lookup_2 _ 0%nat). vm_compute. reflexivity. }
  split; [closed_list|]. split; [closed_list|]. split; [exact Hin|]. split.
  - destruct (judge_selection_needs_columns (@sort_desc) repr_floor
                dated_table "Smith") as [Hraise _].
    + apply load_data_prepared.
    + discriminate.
    + exact Hin.
    + apply Hraise. left. closed_list.
  - destruct (judge_selection_needs_columns (@sort_desc) repr_floor
                zeros_table "Smith") as [_ Hpass].
    + apply load_data_prepared.
    + discriminate.
    + apply (list_elem_of_lookup_2 _ 1%nat). vm_compute. reflexivity.
    + apply Hpass; closed_list.
Defined.

(** ** The averages of the header beside those of the summary *)

Lemma Qsum_positive (l : list Q) :
  Forall (λ q, (0 <= q)%Q) l →
  (Qsum (filter (λ q, Qpositive q) l) == Qsum l)%Q ∧ (0 <= Qsum l)%Q.
Proof.
  induction 1 as [|q l Hq _ [IH1 IH2]]; [by split|].
  rewrite filter_cons. cbn [Qsum foldr]. fold (Qsum l).
  destruct (decide (Qpositive q)) as [Hp|Hp].
  - cbn [Qsum foldr]. fold (Qsum (filter (λ q, Qpositive q) l)).
    split; [by rewrite IH1|lra].
  - assert (q == 0)%Q as Hz.
    { apply Qle_antisym; [|done]. apply Qle_bool_iff.
      unfold Qpositive in Hp. by destruct (Qle_bool q 0). }
    split; [rewrite IH1, Hz; lra|lra].
Qed.

Lemma Qmean_zeros_lower (l : list Q) :
  Forall (λ q, (0 <= q)%Q) l → l ≠ [] →
  match filter (λ q, Qpositive q) l with
  | [] => (Qmean l == 0)%Q
  | pos => (Qmean l <= Qmean pos)%Q
  end.
Proof.
  intros Hl Hne. destruct (Qsum_positive l Hl) as [Hsum Hpos].
  pose proof (length_filter (λ q, Qpositive q) l) as Hlen.
  assert (0 < inject_Z (Z.of_nat (length l)))%Q as Hn.
  { apply inject_nat_pos. destruct l; [done|cbn; lia]. }
  unfold Qmean.
  destruct (filter (λ q, Qpositive q) l) as [|p pos] eqn:E.
  - cbn in Hsum. rewrite <- Hsum. unfold Qdiv. apply Qmult_0_l.
  - assert (0 < inject_Z (Z.of_nat (length (p :: pos))))%Q as Hm.
    { apply inject_nat_pos. cbn. lia. }
    assert (inject_Z (Z.of_nat (length (p :: pos)))
            <= inject_Z (Z.of_nat (length l)))%Q as Hmn.
    { rewrite <- Zle_Qle. lia. }
    rewrite <- Hsum in Hpos |- *.
    generalize dependent (Qsum (p :: pos)). intros S _ HS.
    generalize dependent (inject_Z (Z.of_nat (length (p :: pos)))).
    intros m Hm. generalize dependent (inject_Z (Z.of_nat (length l))).
    intros n Hn Hmn.
    apply Qle_shift_div_r; [done|].
    assert (0 <= S / m)%Q as Ht.
    { apply Qle_shift_div_l; [done|]. lra. }
    assert (S == S / m * m)%Q as HSm.
    { field. intros E'. rewrite E' in Hm. by apply Qlt_irrefl in Hm. }
    rewrite HSm at 1. rewrite (Qmult_comm (S / m) m), (Qmult_comm (S / m) n).
    by apply Qmult_le_compat_r.
Qed.

(** X19. On a prepared table with a record and without a negative
    duration, the average of the jail days in the header, which counts the
    records with a zero, is at most the average jail time of the summary
    under no selection, which leaves them out, and is zero where the
    summary shows its placeholder; the same holds of the two averages of
    the probation days. *)
Theorem header_average_counts_zeros (df : DataFrame) :
  prepared df → (0 < len df)%nat →
  Forall (λ q, (0 <= q)%Q) (numbers_of "Jail_Days" (records df)) →
  Forall (λ q, (0 <= q)%Q) (numbers_of "Probation_Days_Clean" (records df)) →
  ∃ m s hj hp,
    header_metrics df = Some m ∧
    apply_filters "all" "all" "all" df = Some df ∧
    make_summary df = Some s ∧
    avg_jail_days m = CNum hj ∧ at_most_shown hj (average_jail s) ∧
    avg_probation_days m = CNum hp ∧ at_most_shown hp (average_probation s).
Proof.
  intros Hdf Hpos Hj Hp.
  assert (∀ c none, c ∈ rounded_columns →
            Forall (λ q, (0 <= q)%Q) (numbers_of c (records df)) →
            at_most_shown (Qmean (numbers_of c (records df)))
              (spec_mean_positive none (numbers_of c (records df)))) as Hle.
  { intros c none Hc Hnn.
    destruct (prepared_has_number df c Hdf Hc) as [_ Hnum].
    assert (numbers_of c (records df) ≠ []) as Hne.
    { apply len_positive in Hpos. destruct (records df) as [|r rs]; [done|].
      apply Forall_inv in Hnum as [q Hq].
      by rewrite (numbers_of_cons c q). }
    pose proof (Qmean_zeros_lower _ Hnn Hne) as H.
    unfold spec_mean_positive.
    by destruct (filter (λ q, Qpositive q) (numbers_of c (records df))). }
  eexists _, _, _, _. split; [by apply header_metrics_prepared|].
  split.
  { unfold apply_filters, filter_judge, filter_charge, filter_sentence.
    by destruct df. }
  split; [by apply make_summary_spec|].
  cbn [avg_jail_days avg_probation_days average_jail average_probation].
  split; [done|]. split; [apply Hle; [closed_list|done]|].
  split; [done|]. apply Hle; [closed_list|done].
Qed.

Lemma header_average_counts_zeros_witness :
  ∃ m s hj hp,
    header_metrics zeros_table = Some m ∧
    apply_filters "all" "all" "all" zeros_table = Some zeros_table ∧
    make_summary zeros_table = Some s ∧
    avg_jail_days m = CNum hj ∧ at_most_shown hj (average_jail s) ∧
    avg_probation_days m = CNum hp ∧ at_most_shown hp (average_probation s).
Proof.
  apply (header_average_counts_zeros zeros_table).
  - apply load_data_prepared.
  - vm_compute. lia.
  - replace (numbers_of "Jail_Days" (records zeros_table))
      with [0; 0; 10]%Q by (vm_compute; reflexivity).
    repeat (apply List.Forall_cons || apply List.Forall_nil); by vm_compute.
  - replace (numbers_of "Probation_Days_Clean" (records zeros_table))
      with [0; 0; 0]%Q by (vm_compute; reflexivity).
    repeat (apply List.Forall_cons || apply List.Forall_nil); by vm_compute.
Defined.

(** ** A column that mixes texts and numbers *)

Lemma key_eqb_number_trans (a b : cell) (q : Q) :
  key_eqb a b = true → key_eqb b (CNum q) = true → key_eqb a (CNum q) = true.
Proof.
  destruct a as [x| |s|x], b as [y| |t|y]; cbn; try done;
    rewrite ?Qeq_bool_iff, ?bool_decide_eq_true.
  - intros H1 H2. by rewrite H1.
  - intros H1 H2. by rewrite H1, <- H2.
  - intros H1 H2. by rewrite <- H1.
  - by intros ->.
Qed.

Lemma elem_of_unique_number (q : Q) (cs : list cell) :
  CNum q ∈ cs → ∃ k, k ∈ unique cs ∧ key_eqb k (CNum q) = true.
Proof.
  induction cs as [|c cs IH]; [by intros ?%elem_of_nil|].
  intros [E|Hin]%elem_of_cons.
  { subst c. exists (CNum q). cbn [unique]. split; [by left|].
    cbn. by apply Qeq_bool_iff. }
  destruct (IH Hin) as (k & Hk & Hkq).
  assert (c ≠ CNaN →
          ∃ k', k' ∈ c :: filter (λ k, negb (key_eqb c k)) (unique cs)
                ∧ key_eqb k' (CNum q) = true) as Hcons.
  { intros _. destruct (key_eqb c k) eqn:Hck.
    - exists c. split; [by left|]. by apply (key_eqb_number_trans c k).
    - exists k. split; [|done]. right. apply list_elem_of_filter.
      split; [by rewrite Hck|done]. }
  destruct c as [x| |s|x]; cbn [unique]; try (by apply Hcons).
  by exists k.
Qed.

(** X20. [safe_get_unique] swallows the [TypeError] of [sorted]: on a
    column that holds a text that counts, neither empty nor "nan", beside a
    number other than zero, it gives no value at all, not even the texts. *)
Theorem mixed_column_offers_nothing (repr_number : Q → string) (c : string)
    (df : DataFrame) (s : string) (q : Q) :
  (∀ x, repr_number x ≠ "nan") →
  c ∈ columns df →
  CStr s ∈ column c df → s ≠ EmptyString → s ≠ "nan" →
  CNum q ∈ column c df → ¬ (q == 0)%Q →
  safe_get_unique repr_number c df = [] ∧
  sorted (filter (λ val, truthy val
                         && negb (bool_decide
                                    (astype_str repr_number val = "nan")))
            (unique (column c df))) = None.
Proof.
  intros Hrepr Hc Hs Hempty Hnan Hq Hzero.
  assert (sorted (filter (λ val, truthy val
                                 && negb (bool_decide
                                            (astype_str repr_number val = "nan")))
                    (unique (column c df))) = None) as Hsorted.
  { unfold sorted.
    assert (CStr s ∈ filter (λ val, truthy val
                                    && negb (bool_decide
                                               (astype_str repr_number val
                                                = "nan")))
                       (unique (column c df))) as Htext.
    { apply list_elem_of_filter. split; [|by apply elem_of_unique_text].
      cbn. rewrite !bool_decide_false by done. done. }
    destruct (elem_of_unique_number q _ Hq) as (k & Hk & Hkq).
    assert (is_text k = false ∧ truthy k
            ∧ astype_str repr_number k ≠ "nan") as (Hnt & Htrue & Hstr).
    { destruct k as [x| |t|b]; cbn in Hkq |- *; try done.
      - apply Qeq_bool_iff in Hkq. split; [done|]. split; [|apply Hrepr].
        apply negb_True. intros E%Is_true_true%Qeq_bool_iff.
        apply Hzero. by rewrite <- Hkq.
      - apply Qeq_bool_iff in Hkq. split; [done|].
        destruct b; [done|]. cbn in Hkq. by destruct Hzero. }
    assert (k ∈ filter (λ val, truthy val
                               && negb (bool_decide
                                          (astype_str repr_number val = "nan")))
                  (unique (column c df))) as Hnum.
    { apply list_elem_of_filter. split; [|done].
      rewrite bool_decide_false by done. by rewrite andb_true_r. }
    generalize dependent (filter (λ val, truthy val
                                         && negb (bool_decide
                                                    (astype_str repr_number val
                                                     = "nan")))
                            (unique (column c df))).
    intros vals Htext Hnum.
    assert (forallb is_text vals = false) as ->.
    { apply not_true_iff_false. intros E%Is_true_true%forallb_True.
      rewrite list.Forall_forall in E. specialize (E k Hnum).
      by rewrite Hnt in E. }
    assert (forallb (λ c, negb (is_text c)) vals = false) as ->.
    { apply not_true_iff_false. intros E%Is_true_true%forallb_True.
      rewrite list.Forall_forall in E. by specialize (E (CStr s) Htext). }
    done. }
  split; [|done]. unfold safe_get_unique. rewrite decide_True by done.
  by rewrite Hsorted.
Qed.

Lemma mixed_column_offers_nothing_witness :
  safe_get_unique (λ _, "number") "Judge_Full_Name" mixed_frame = [] ∧
  sorted (filter (λ val, truthy val
                         && negb (bool_decide
                                    (astype_str (λ _, "number") val = "nan")))
            (unique (column "Judge_Full_Name" mixed_frame))) = None.
Proof.
  apply (mixed_column_offers_nothing (λ _, "number") "Judge_Full_Name"
           mixed_frame "Smith" 7%Q).
  - intros _. discriminate.
  - closed_list.
  - apply (list_elem_of_lookup_2 _ 0%nat). vm_compute. reflexivity.
  - discriminate.
  - discriminate.
  - apply (list_elem_of_lookup_2 _ 1%nat). vm_compute. reflexivity.
  - vm_compute. discriminate.
Defined.

(** ** The byte order mark *)

Lemma remove_bom_free (s : string) : bom_free s → remove_bom s = s.
Proof.
  induction s as [|a s IH]; [done|]. cbn [bom_free].
  intros [Ha Hs]%andb_True. apply negb_True in Ha. specialize (IH Hs).
  assert (∀ b c, is_bom a b c = false) as Hno.
  { intros b c. unfold is_bom. apply not_true_iff_false.
    intros E%Is_true_true. apply andb_True in E as [E _].
    apply andb_True in E as [E _]. done. }
  destruct s as [|b [|c s3]]; cbn [remove_bom] in IH |- *;
    rewrite ?Hno; by rewrite ?IH.
Qed.

Lemma remove_bom_marked (s : string) : remove_bom (bom +:+ s) = remove_bom s.
Proof. done. Qed.

Lemma rename_keys_free (r : gmap string cell) :
  (∀ k, is_Some (r !! k) → bom_free k) → rename_keys remove_bom r = r.
Proof.
  intros Hfree. unfold rename_keys, kmap.
  rewrite (list_fmap_ext _ id (map_to_list r)).
  - rewrite list_fmap_id. apply list_to_map_to_list.
  - intros i [k v] Hkv. cbn.
    apply list_elem_of_lookup_2, elem_of_map_to_list in Hkv.
    rewrite remove_bom_free; [done|]. apply Hfree. by exists v.
Qed.

(** X21. The clean-up of the byte order mark takes the mark away from the
    front of a column name, so that a marked first column is found under
    its plain name, and changes nothing else: a name without the first
    byte of the mark is kept, and a file none of whose names has that byte
    is left as it is. *)
Theorem bom_cleanup (df : DataFrame) :
  Forall (λ c, bom_free c) (columns df) →
  Forall (λ r, ∀ k, is_Some (r !! k) → bom_free k) (records df) →
  clean_columns df = df ∧
  (∀ name rest rs,
     bom_free name →
     columns (clean_columns (mkDF ((bom +:+ name) :: rest) rs))
     = name :: (remove_bom <$> rest)).
Proof.
  intros Hcols Hrows. split.
  - unfold clean_columns. destruct df as [cols rs]. cbn [columns records] in *.
    f_equal.
    + rewrite <- (list_fmap_id cols) at 2. apply list_fmap_ext.
      intros i c Hc. apply remove_bom_free.
      rewrite list.Forall_forall in Hcols.
      by apply Hcols, (list_elem_of_lookup_2 _ i).
    + rewrite <- (list_fmap_id rs) at 2. apply list_fmap_ext.
      intros i r Hr. apply rename_keys_free.
      rewrite list.Forall_forall in Hrows.
      by apply Hrows, (list_elem_of_lookup_2 _ i).
  - intros name rest rs Hname. unfold clean_columns. cbn [columns].
    rewrite fmap_cons, remove_bom_marked. by rewrite remove_bom_free.
Qed.

Lemma bom_cleanup_witness :
  clean_columns units_frame = units_frame ∧
  (∀ name rest rs,
     bom_free name →
     columns (clean_columns (mkDF ((bom +:+ name) :: rest) rs))
     = name :: (remove_bom <$> rest)).
Proof.
  apply (bom_cleanup units_frame).
  - closed_list.
  - unfold units_frame. cbn [records].
    repeat (apply List.Forall_cons || apply List.Forall_nil).
    intros k [v Hk]. apply elem_of_list_to_map_2 in Hk.
    rewrite !elem_of_cons, elem_of_nil in Hk.
    destruct Hk as [[= -> _]|[[= -> _]|[[= -> _]|[[= -> _]|[[= -> _]|[]]]]]];
      by vm_compute.
Defined.

Example marked_frame_found :
  columns (example_load_data (Loaded marked_frame))
  = ["CaseNumber"; "Judge"; "Jail_Days"; "Probation_Days_Clean";
     "CommunityControl_Days"; "CommunityService_Hours"; "Has_Sentence";
     "Judge_Full_Name"] ∧
  get "CaseNumber" <$> records (example_load_data (Loaded marked_frame))
  = [CStr "C1"].
Proof. split; vm_compute; reflexivity. Qed.

(** Two names that the clean-up makes equal: the file is given up for the
    fixture. *)
Example doubled_frame_discarded :
  process parse_integer repr_floor dates_of_texts example_times doubled_frame
  = None ∧
  len (example_load_data (Loaded doubled_frame)) = 5%nat.
Proof. split; vm_compute; reflexivity. Qed.
